(** * Approval coordination daemon: a shallow embedding of
      [src/utils.ts], [src/types.ts], [src/socket.ts] and [src/server.ts]

    The daemon is a single-threaded Node program whose state is four
    module-level maps.  Every handler is embedded as a function on an explicit
    [State] record; what a handler sends to a client connection or to the
    Slack API is appended to two logs kept in the state.  Results of calls
    to the outside (the clock, [generateRequestId], [chat.postMessage],
    [chat.update]) are arguments of the handlers.  A handler that throws
    ends with the state it had reached.  A handler runs to its end before
    the next one starts: the points at which the source awaits a Slack call
    are not points of interleaving in the model.

    Strings are [string]: sequences of code units below 256.  The
    numbers inside JSON values are integers ([Z]), written in plain
    decimal; the numbers that [parseDuration] computes are doubles, with
    their rounding written out ([Dbl]).  Requests have the types of
    [src/types.ts]; the layout of Slack messages (blocks, texts) is left
    out. *)

From Stdlib Require Import ZArith List Bool Ascii String DecimalString DecimalPos DecimalN.
From Stdlib Require Import Permutation Sorted.
From stdpp Require Import gmap strings list fin_maps sorting.
Import ListNotations.

Local Open Scope Z_scope.

(* ===================================================================== *)
(** ** JSON values and [JSON.stringify]                                   *)
(* ===================================================================== *)

Local Set Warnings "-register-all".

(** A value as produced by [JSON.parse].  An object is the list of its own
    properties in enumeration order. *)
Inductive JSON : Type :=
| JNull
| JBool (b : bool)
| JNum (n : Z)
| JStr (s : string)
| JArr (items : list JSON)
| JObj (props : list (string * JSON)).

Module Js.

(** [obj[key]]: the first property named [key], [None] for [undefined].
    Own properties only: what a name such as [constructor] would find on
    [Object.prototype] is not modelled. *)
Fixpoint get {A : Type} (key : string) (props : list (string * A)) : option A :=
  match props with
  | [] => None
  | (k, v) :: rest => if String.eqb k key then Some v else get key rest
  end.

(** [obj[key] = v]: overwrite in place, or add as the last property. *)
Fixpoint set {A : Type} (key : string) (v : A) (props : list (string * A))
  : list (string * A) :=
  match props with
  | [] => [(key, v)]
  | (k, w) :: rest =>
      if String.eqb k key then (k, v) :: rest else (k, w) :: set key v rest
  end.

(** [Map.prototype.delete] / [delete obj[key]]. *)
Fixpoint remove {A : Type} (key : string) (props : list (string * A))
  : list (string * A) :=
  match props with
  | [] => []
  | (k, w) :: rest =>
      if String.eqb k key then remove key rest else (k, w) :: remove key rest
  end.

(** The array index that a property name denotes, if any: a canonical
    numeral below [2^32 - 1]. *)
Definition arrayIndex (key : string) : option N :=
  match NilEmpty.uint_of_string key with
  | Some u =>
      let n := N.of_uint u in
      if String.eqb (NilEmpty.string_of_uint (N.to_uint n)) key && (n <? 4294967295)%N
      then Some n else None
  | None => None
  end.

(** Where a new array-index property goes: own property keys are listed
    with the array indices first, in ascending order. *)
Fixpoint assign_index {A : Type} (n : N) (key : string) (v : A)
         (props : list (string * A)) : list (string * A) :=
  match props with
  | [] => [(key, v)]
  | (k, w) :: rest =>
      match arrayIndex k with
      | Some m =>
          if (m <? n)%N then (k, w) :: assign_index n key v rest
          else (key, v) :: (k, w) :: rest
      | None => (key, v) :: (k, w) :: rest
      end
  end.

(** [obj[key] = v] on a plain object (one that inherits from
    [Object.prototype]) for a primitive value [v]: the name [__proto__]
    reaches the setter of the prototype, which ignores a primitive and
    creates no own property; an existing property is overwritten in
    place; a new one takes its place in the order of the own keys. *)
Definition assign {A : Type} (key : string) (v : A) (props : list (string * A))
  : list (string * A) :=
  if String.eqb key "__proto__" then props
  else match get key props with
       | Some _ => set key v props
       | None =>
           match arrayIndex key with
           | Some n => assign_index n key v props
           | None => set key v props
           end
       end.

(** [Object.keys(obj)]. *)
Definition keys {A : Type} (props : list (string * A)) : list string :=
  List.map fst props.

(** [arr.includes(x)] / [arr.indexOf(x) !== -1] on strings. *)
Fixpoint includes (x : string) (l : list string) : bool :=
  match l with
  | [] => false
  | y :: rest => if String.eqb y x then true else includes x rest
  end.

(** [arr.join(sep)]. *)
Fixpoint join (sep : string) (l : list string) : string :=
  match l with
  | [] => EmptyString
  | [x] => x
  | x :: rest => x +:+ sep +:+ join sep rest
  end.

(** [Array.prototype.sort()] with the default comparator: ascending by
    code units.  Written as an insertion sort. *)
Fixpoint insert_sorted (x : string) (l : list string) : list string :=
  match l with
  | [] => [x]
  | y :: rest =>
      if String.leb x y then x :: y :: rest else y :: insert_sorted x rest
  end.

Definition sort (l : list string) : list string :=
  fold_right insert_sorted [] l.

(** Number-to-string for integers. *)
Definition show_Z (n : Z) : string := NilZero.string_of_int (Z.to_int n).

Definition hex_digit (n : N) : ascii :=
  ascii_of_N (if (n <? 10)%N then 48 + n else 87 + n)%N.

(** The one-character string holding a double quote (code unit 34). *)
Definition dquote : string := String (ascii_of_N 34) EmptyString.

(** One code unit inside a JSON string literal (QuoteJSONString). *)
Definition quote_char (c : ascii) : string :=
  let n := N_of_ascii c in
  if (n =? 34)%N then String "\" dquote
  else if (n =? 92)%N then "\\"
  else if (n =? 8)%N then "\b"
  else if (n =? 9)%N then "\t"
  else if (n =? 10)%N then "\n"
  else if (n =? 12)%N then "\f"
  else if (n =? 13)%N then "\r"
  else if (n <? 32)%N then
    "\u00" +:+ String (hex_digit (n / 16)) (String (hex_digit (n mod 16)) EmptyString)
  else String c EmptyString.

Fixpoint quote_body (s : string) : string :=
  match s with
  | EmptyString => EmptyString
  | String c rest => quote_char c +:+ quote_body rest
  end.

Definition quote (s : string) : string :=
  dquote +:+ quote_body s +:+ dquote.

(** [JSON.stringify(value, replacer)] without indentation.  [plist] is
    the PropertyList built from an array replacer ([None] when the call
    has no replacer).  As in SerializeJSONObject, a PropertyList replaces
    the own keys of EVERY object that is serialized, at every depth:
    each listed name is read from the object and skipped when absent.
    Array elements are always all serialized. *)
Fixpoint stringify (plist : option (list string)) (v : JSON) : string :=
  match v with
  | JNull => "null"
  | JBool true => "true"
  | JBool false => "false"
  | JNum n => show_Z n
  | JStr s => quote s
  | JArr items => "[" +:+ join "," (List.map (stringify plist) items) +:+ "]"
  | JObj props =>
      let done := List.map (fun kv => (fst kv, stringify plist (snd kv))) props in
      let names := match plist with Some K => K | None => keys props end in
      let members :=
        flat_map (fun k => match get k done with
                           | Some str => [quote k +:+ ":" +:+ str]
                           | None => []
                           end) names in
      "{" +:+ join "," members +:+ "}"
  end.

End Js.

(* ===================================================================== *)
(** ** [src/utils.ts]                                                     *)
(* ===================================================================== *)

(** [createRequestHash(toolName, toolInput)]:
    [JSON.stringify(toolInput, Object.keys(toolInput).sort())] prefixed by
    the tool name and a colon. *)
Definition createRequestHash (toolName : string) (toolInput : list (string * JSON))
  : string :=
  let inputStr :=
    Js.stringify (Some (Js.sort (Js.keys toolInput))) (JObj toolInput) in
  toolName +:+ ":" +:+ inputStr.


(* ===================================================================== *)
(** ** [src/types.ts]                                                     *)
(* ===================================================================== *)

Record QuestionOption : Type := mkQuestionOption {
  label : string;
  description : option string
}.

Record Question : Type := mkQuestion {
  question : string;
  header : option string;
  options : list QuestionOption;
  multiSelect : option bool
}.

Record PermissionRequest : Type := mkPermissionRequest {
  type : string;
  tool_name : string;
  tool_input : list (string * JSON);
  pr_session_id : string
}.

(** [type] is the literal ['user_question'] and is not stored. *)
Record UserQuestionRequest : Type := mkUserQuestionRequest {
  uq_session_id : string;
  questions : list Question
}.

(** [PermissionRequest | UserQuestionRequest]. *)
Inductive Request : Type :=
| ReqPermission (r : PermissionRequest)
| ReqUserQuestion (r : UserQuestionRequest).

(** [request.session_id]. *)
Definition session_id (request : Request) : string :=
  match request with
  | ReqPermission r => pr_session_id r
  | ReqUserQuestion r => uq_session_id r
  end.

(** A client connection ([net.Socket]), named by a number. *)
Definition Socket : Type := nat.

(** [string | string[]], the value type of [PendingRequest.answers]. *)
Inductive Answer : Type :=
| AStr (s : string)
| AArr (l : list string).

(** [answers]: a record keyed by [questionIndex.toString()].  The keys are
    array indices, which JavaScript enumerates in ascending numeric order,
    so the model keeps the entries sorted by index. *)
Definition Answers : Type := list (nat * Answer).

Module Ans.

Fixpoint get (i : nat) (a : Answers) : option Answer :=
  match a with
  | [] => None
  | (k, v) :: rest => if Nat.eqb k i then Some v else get i rest
  end.

Fixpoint set (i : nat) (v : Answer) (a : Answers) : Answers :=
  match a with
  | [] => [(i, v)]
  | (k, w) :: rest =>
      if Nat.eqb k i then (k, v) :: rest
      else if Nat.ltb i k then (i, v) :: (k, w) :: rest
      else (k, w) :: set i v rest
  end.

End Ans.

Record PendingRequest : Type := mkPendingRequest {
  id : string;
  socket : option Socket;
  additionalSockets : option (list Socket);
  request : Request;
  slackTs : option string;
  slackChannel : option string;
  createdAt : Z;
  isQuestion : bool;
  answers : option Answers
}.

Inductive Decision : Type := allow | deny.

Definition Decision_str (d : Decision) : string :=
  match d with allow => "allow" | deny => "deny" end.

(* ===================================================================== *)
(** ** The daemon's state ([src/server.ts], module level)                 *)
(* ===================================================================== *)

(** What the daemon did on a client connection. *)
Inductive SocketOp : Type :=
| Write (data : string)
| End.

(** What a [chat.update] turns the published prompt into. *)
Inductive PromptStatus : Type :=
| Approved
| Denied
| Answered
| TimedOut.

(** Calls to the Slack Web API.  Message layouts (blocks, texts) are not
    modelled: a call records which prompt it is about. *)
Inductive SlackCall : Type :=
| PostMessage (requestId : string)
| Update (channel ts : string) (status : PromptStatus)
| ViewsOpen (requestId : string) (questionIndex : nat).

Record State : Type := mkState {
  (** [pendingRequests : Map<string, PendingRequest>], in insertion order. *)
  pendingRequests : list (string * PendingRequest);
  (** [tsToPendingId : Map<string, string>]. *)
  tsToPendingId : gmap string string;
  (** [sessionApprovals : Map<string, Set<string>>]. *)
  sessionApprovals : gmap string (gset string);
  (** [recentRequestHashes : Map<string, {requestId, timestamp}>]. *)
  recentRequestHashes : gmap string (string * Z);
  (** [socket.on('close', ...)] registrations made by [handleRequest]:
      the connection and the request id the listener closes over. *)
  closeListeners : list (Socket * string);
  (** Every [socket.write] and [socket.end], oldest first. *)
  wire : list (Socket * SocketOp);
  (** Every Slack Web API call that went through, oldest first. *)
  slack : list SlackCall
}.

Definition DEDUP_WINDOW_MS : Z := 30000.

Definition initial : State :=
  mkState [] ∅ ∅ ∅ [] [] [].

Definition with_pendingRequests (s : State) (m : list (string * PendingRequest)) : State :=
  mkState m (tsToPendingId s) (sessionApprovals s) (recentRequestHashes s)
          (closeListeners s) (wire s) (slack s).

Definition with_tsToPendingId (s : State) (m : gmap string string) : State :=
  mkState (pendingRequests s) m (sessionApprovals s) (recentRequestHashes s)
          (closeListeners s) (wire s) (slack s).

Definition with_sessionApprovals (s : State) (m : gmap string (gset string)) : State :=
  mkState (pendingRequests s) (tsToPendingId s) m (recentRequestHashes s)
          (closeListeners s) (wire s) (slack s).

Definition with_recentRequestHashes (s : State) (m : gmap string (string * Z)) : State :=
  mkState (pendingRequests s) (tsToPendingId s) (sessionApprovals s) m
          (closeListeners s) (wire s) (slack s).

Definition with_closeListeners (s : State) (l : list (Socket * string)) : State :=
  mkState (pendingRequests s) (tsToPendingId s) (sessionApprovals s)
          (recentRequestHashes s) l (wire s) (slack s).

(** [socket.write(data)]. *)
Definition socket_write (c : Socket) (data : string) (s : State) : State :=
  mkState (pendingRequests s) (tsToPendingId s) (sessionApprovals s)
          (recentRequestHashes s) (closeListeners s)
          (wire s ++ [(c, Write data)]) (slack s).

(** [socket.end()]. *)
Definition socket_end (c : Socket) (s : State) : State :=
  mkState (pendingRequests s) (tsToPendingId s) (sessionApprovals s)
          (recentRequestHashes s) (closeListeners s)
          (wire s ++ [(c, End)]) (slack s).

Definition slack_call (call : SlackCall) (s : State) : State :=
  mkState (pendingRequests s) (tsToPendingId s) (sessionApprovals s)
          (recentRequestHashes s) (closeListeners s) (wire s)
          (slack s ++ [call]).

(** The line terminator (code unit 10). *)
Definition newline : string := String (ascii_of_N 10) EmptyString.

(** Truthiness of an optional string: [undefined] and the empty string are
    falsy. *)
Definition truthy (o : option string) : bool :=
  match o with
  | Some s => negb (String.eqb s EmptyString)
  | None => false
  end.

(** Truthiness of a JSON value ([undefined] is [None]). *)
Definition truthyJSON (o : option JSON) : bool :=
  match o with
  | None | Some JNull | Some (JBool false) => false
  | Some (JNum n) => negb (n =? 0)
  | Some (JStr s) => negb (String.eqb s EmptyString)
  | Some _ => true
  end.

(** Truthiness of [q.multiSelect]. *)
Definition isMulti (q : Question) : bool :=
  match multiSelect q with Some b => b | None => false end.

(* ===================================================================== *)
(** ** Reading questions out of a request                                 *)
(* ===================================================================== *)

(** The source reads [tool_input.questions] through the unchecked cast
    [as { questions?: Question[] }].  The functions below read a JSON value
    at the type the cast declares; [None] means the value does not have
    that type.  The handlers of the model stop ([throw]) at such a value. *)
Module Cast.

Definition optString (o : option JSON) : option (option string) :=
  match o with
  | None => Some None
  | Some (JStr s) => Some (Some s)
  | Some _ => None
  end.

Definition optBool (o : option JSON) : option (option bool) :=
  match o with
  | None => Some None
  | Some (JBool b) => Some (Some b)
  | Some _ => None
  end.

Definition asQuestionOption (j : JSON) : option QuestionOption :=
  match j with
  | JObj props =>
      match Js.get "label" props, optString (Js.get "description" props) with
      | Some (JStr l), Some d => Some (mkQuestionOption l d)
      | _, _ => None
      end
  | _ => None
  end.

Definition asQuestion (j : JSON) : option Question :=
  match j with
  | JObj props =>
      match Js.get "question" props, optString (Js.get "header" props),
            Js.get "options" props, optBool (Js.get "multiSelect" props) with
      | Some (JStr q), Some h, Some (JArr os), Some m =>
          match mapM asQuestionOption os with
          | Some os' => Some (mkQuestion q h os' m)
          | None => None
          end
      | _, _, _, _ => None
      end
  | _ => None
  end.

(** [toolInput.questions || []]. *)
Definition questionsOf (toolInput : list (string * JSON)) : option (list Question) :=
  match Js.get "questions" toolInput with
  | Some (JArr qs) => mapM asQuestion qs
  | other => if truthyJSON other then None else Some []
  end.

End Cast.

(** [isQuestionRequest(request)]. *)
Definition isQuestionRequest (request : Request) : bool :=
  match request with
  | ReqPermission r =>
      if String.eqb (tool_name r) "AskUserQuestion" then true
      else String.eqb (type r) "user_question"
  | ReqUserQuestion _ => true
  end.

(** [getQuestions(request)]. *)
Definition getQuestions (request : Request) : option (list Question) :=
  match request with
  | ReqUserQuestion r => Some (questions r)
  | ReqPermission r => Cast.questionsOf (tool_input r)
  end.

(** [createRequestHash(request.tool_name, request.tool_input)] after the
    cast [request as PermissionRequest].  On a [UserQuestionRequest] both
    arguments are [undefined] and [Object.keys] throws: [None]. *)
Definition requestHash (request : Request) : option string :=
  match request with
  | ReqPermission r => Some (createRequestHash (tool_name r) (tool_input r))
  | ReqUserQuestion _ => None
  end.

(* ===================================================================== *)
(** ** [buildHookOutput] and [sendResponse]                               *)
(* ===================================================================== *)

(** [Array.isArray(answer) ? answer.join(', ') : answer]. *)
Definition renderAnswer (a : Answer) : string :=
  match a with
  | AArr l => Js.join ", " l
  | AStr s => s
  end.

(** The loop over [Object.entries(answers)] that fills
    [questionKeyedAnswers]. *)
Definition questionKeyedAnswers (questions : list Question) (a : Answers)
  : list (string * JSON) :=
  fold_left
    (fun acc entry =>
       match nth_error questions (fst entry) with
       | Some q => Js.assign (question q) (JStr (renderAnswer (snd entry))) acc
       | None => acc
       end)
    a [].

(** [buildHookOutput(pending, decision, answers)].  [None]: the call
    throws. *)
Definition buildHookOutput (pending : PendingRequest) (decision : Decision)
           (answers : option Answers) : option JSON :=
  if isQuestion pending then
    let output :=
      [("hookEventName", JStr "PreToolUse");
       ("permissionDecision", JStr (Decision_str decision));
       ("permissionDecisionReason",
        JStr (match decision with
              | allow => "Approved via Slack"
              | deny => "Denied via Slack"
              end))] in
    match answers, decision with
    | Some a, allow =>
        match request pending with
        | ReqUserQuestion _ =>
            (* [request.tool_input] is undefined; [toolInput.questions] throws *)
            None
        | ReqPermission r =>
            let toolInput := tool_input r in
            match Cast.questionsOf toolInput with
            | None => None
            | Some questions =>
                let updatedInput :=
                  Js.set "answers" (JObj (questionKeyedAnswers questions a)) toolInput in
                Some (JObj [("hookSpecificOutput",
                             JObj (output ++ [("updatedInput", JObj updatedInput)]))])
            end
        end
    | _, _ => Some (JObj [("hookSpecificOutput", JObj output)])
    end
  else
    let decisionObj :=
      match decision with
      | allow => [("behavior", JStr "allow")]
      | deny => [("behavior", JStr "deny"); ("message", JStr "Denied via Slack")]
      end in
    Some (JObj [("hookSpecificOutput",
                 JObj [("hookEventName", JStr "PermissionRequest");
                       ("decision", JObj decisionObj)])]).

(** [socket.write(responseStr); socket.end()]. *)
Definition reply (responseStr : string) (s : State) (c : Socket) : State :=
  socket_end c (socket_write c responseStr s).

(** [sendResponse(pending, decision, answers)].  When [buildHookOutput]
    throws nothing has been done yet and the state is returned as it is. *)
Definition sendResponse (pending : PendingRequest) (decision : Decision)
           (answers : option Answers) (s : State) : State :=
  match buildHookOutput pending decision answers with
  | None => s
  | Some response =>
      let responseStr := Js.stringify None response +:+ newline in
      (* primary socket *)
      let s1 := match socket pending with
                | Some c => reply responseStr s c
                | None => s
                end in
      (* additional sockets (from duplicate requests) *)
      let s2 := match additionalSockets pending with
                | Some cs => fold_left (reply responseStr) cs s1
                | None => s1
                end in
      (* cleanup maps *)
      let s3 := match slackTs pending with
                | Some ts =>
                    if truthy (Some ts)
                    then with_tsToPendingId s2 (delete ts (tsToPendingId s2))
                    else s2
                | None => s2
                end in
      with_pendingRequests s3 (Js.remove (id pending) (pendingRequests s3))
  end.

(* ===================================================================== *)
(** ** Approve and deny signals                                           *)
(* ===================================================================== *)

(** [if (!sessionApprovals.has(sid)) sessionApprovals.set(sid, new Set());
     sessionApprovals.get(sid)!.add(hash)]. *)
Definition cacheApproval (sid hash : string) (s : State) : State :=
  with_sessionApprovals s
    (<[sid := {[hash]} ∪ default ∅ (sessionApprovals s !! sid)]> (sessionApprovals s)).

(** [sessionApprovals.get(sid)?.has(hash)]. *)
Definition approved (s : State) (sid hash : string) : bool :=
  match sessionApprovals s !! sid with
  | Some cache => bool_decide (hash ∈ cache)
  | None => false
  end.

(** [if (pending.slackTs && pending.slackChannel) await chat.update(...)]
    with blocks from [buildResultBlocks(request.tool_name,
    request.tool_input, ...)].  [upd] tells whether the Slack call goes
    through.  [None]: the step throws, either because [buildResultBlocks]
    reads [toolInput.description] of an undefined [tool_input], or because
    the Slack call is rejected. *)
Definition updateResult (pending : PendingRequest) (status : PromptStatus)
           (upd : bool) (s : State) : option State :=
  match slackTs pending, slackChannel pending with
  | Some ts, Some ch =>
      if truthy (Some ts) && truthy (Some ch) then
        match request pending with
        | ReqUserQuestion _ => None
        | ReqPermission _ =>
            if upd then Some (slack_call (Update ch ts status) s) else None
        end
      else Some s
  | _, _ => Some s
  end.

(** The approval block that the button, reaction and text handlers all
    contain: cache the approval for the session, update the prompt, send
    the response.  A throw ends the handler with what was done before. *)
Definition approve (pending : PendingRequest) (upd : bool) (s : State) : State :=
  match requestHash (request pending) with
  | None => s
  | Some hash =>
      let s1 := cacheApproval (session_id (request pending)) hash s in
      match updateResult pending Approved upd s1 with
      | None => s1
      | Some s2 => sendResponse pending allow None s2
      end
  end.

(** The denial block of the same three handlers. *)
Definition denyRequest (pending : PendingRequest) (upd : bool) (s : State) : State :=
  match updateResult pending Denied upd s with
  | None => s
  | Some s1 => sendResponse pending deny None s1
  end.

(** [slackApp.action('approve', ...)]; [value] is [action.value] when it
    is a string. *)
Definition approveAction (value : option string) (upd : bool) (s : State) : State :=
  match value with
  | None => s
  | Some requestId =>
      match Js.get requestId (pendingRequests s) with
      | None => s
      | Some pending => approve pending upd s
      end
  end.

(** [slackApp.action('deny', ...)]. *)
Definition denyAction (value : option string) (upd : bool) (s : State) : State :=
  match value with
  | None => s
  | Some requestId =>
      match Js.get requestId (pendingRequests s) with
      | None => s
      | Some pending => denyRequest pending upd s
      end
  end.

Definition approveReactions : list string :=
  ["+1"; "thumbsup"; "white_check_mark"; "heavy_check_mark"].

Definition denyReactions : list string :=
  ["-1"; "thumbsdown"; "x"; "no_entry"].

(** [slackApp.event('reaction_added', ...)]. *)
Definition reactionAdded (messageTs reaction : string) (upd : bool) (s : State) : State :=
  match tsToPendingId s !! messageTs with
  | None => s
  | Some requestId =>
      if negb (truthy (Some requestId)) then s else
      match Js.get requestId (pendingRequests s) with
      | None => s
      | Some pending =>
          if isQuestion pending then s
          else if Js.includes reaction approveReactions then approve pending upd s
          else if Js.includes reaction denyReactions then denyRequest pending upd s
          else s
      end
  end.

(** The fields of a Slack message event that the handler reads. *)
Record MessageEvent : Type := mkMessageEvent {
  channel : string;
  text : option string;
  thread_ts : option string;
  subtype : option string;
  bot_id : option string
}.

Module Text.

(** The lower case of a code unit below 256: the ASCII capitals and the
    capitals of the Latin-1 range ([U+00C0] to [U+00DE] without the
    multiplication sign). *)
Definition lower_char (c : ascii) : ascii :=
  let n := N_of_ascii c in
  if ((65 <=? n) && (n <=? 90))%N
     || ((192 <=? n) && (n <=? 222) && negb (n =? 215))%N
  then ascii_of_N (n + 32) else c.

(** [toLowerCase()].  Strings hold code units below 256. *)
Fixpoint toLowerCase (s : string) : string :=
  match s with
  | EmptyString => EmptyString
  | String c rest => String (lower_char c) (toLowerCase rest)
  end.

(** White space and line terminators among the code units below 256:
    tab to carriage return, the space and the no-break space. *)
Definition is_space (c : ascii) : bool :=
  let n := N_of_ascii c in
  ((n =? 32) || ((9 <=? n) && (n <=? 13)) || (n =? 160))%N.

Fixpoint trimStart (s : string) : string :=
  match s with
  | EmptyString => EmptyString
  | String c rest => if is_space c then trimStart rest else s
  end.

Fixpoint trimEnd (s : string) : string :=
  match s with
  | EmptyString => EmptyString
  | String c rest =>
      match trimEnd rest with
      | EmptyString => if is_space c then EmptyString else String c EmptyString
      | rest' => String c rest'
      end
  end.

(** [trim()]. *)
Definition trim (s : string) : string := trimEnd (trimStart s).

End Text.

Definition approveWords : list string :=
  ["ok"; "approve"; "yes"; "y"; "allow"; "go"].

Definition denyWords : list string :=
  ["no"; "deny"; "reject"; "n"; "stop"; "cancel"].

(** The [for ... of pendingRequests.entries()] loop of the message handler:
    the first entry published in [ch] that is not a question. *)
Fixpoint findDirect (ch : string) (entries : list (string * PendingRequest))
  : option string :=
  match entries with
  | [] => None
  | (id, p) :: rest =>
      if match slackChannel p with
         | Some c => String.eqb c ch
         | None => false
         end && negb (isQuestion p)
      then Some id
      else findDirect ch rest
  end.

(** [text] lowercased and trimmed is one of [words]. *)
Definition says (words : list string) (text : option string) : bool :=
  match text with
  | Some t => Js.includes (Text.trim (Text.toLowerCase t)) words
  | None => false
  end.

(** [slackApp.message(...)]. *)
Definition messageHandler (msgEvent : MessageEvent) (upd : bool) (s : State) : State :=
  if truthy (subtype msgEvent) || truthy (bot_id msgEvent) then s else
  let requestId :=
    if truthy (thread_ts msgEvent)
    then match thread_ts msgEvent with
         | Some ts => tsToPendingId s !! ts
         | None => None
         end
    else findDirect (channel msgEvent) (pendingRequests s) in
  if negb (truthy requestId) then s else
  match requestId with
  | None => s
  | Some requestId =>
      match Js.get requestId (pendingRequests s) with
      | None => s
      | Some pending =>
          if isQuestion pending then s
          else if says approveWords (text msgEvent) then approve pending upd s
          else if says denyWords (text msgEvent) then denyRequest pending upd s
          else s
      end
  end.

(* ===================================================================== *)
(** ** Question signals                                                   *)
(* ===================================================================== *)

(** [action.value] of a question button after [JSON.parse]. *)
Record OptionClick : Type := mkOptionClick {
  data_requestId : string;
  data_questionIndex : nat;
  data_optionIndex : Z;
  data_label : string
}.

(** [pending.answers = ...] on the object stored under [requestId]. *)
Definition setAnswers (pending : PendingRequest) (a : Answers) : PendingRequest :=
  mkPendingRequest (id pending) (socket pending) (additionalSockets pending)
                   (request pending) (slackTs pending) (slackChannel pending)
                   (createdAt pending) (isQuestion pending) (Some a).

(** [arr.splice(arr.indexOf(x), 1)] when [x] occurs in [arr]. *)
Fixpoint removeFirst (x : string) (l : list string) : list string :=
  match l with
  | [] => []
  | y :: rest => if String.eqb y x then rest else y :: removeFirst x rest
  end.

(** The toggle of a multi-select option on the array of chosen labels. *)
Definition toggle (x : string) (currentAnswers : list string) : list string :=
  if Js.includes x currentAnswers
  then removeFirst x currentAnswers
  else currentAnswers ++ [x].

(** [(pending.answers[i] as string[]) || []], as far as the toggle can use
    it.  A non-empty string (a custom answer) has neither [push] nor
    [splice], so the toggle throws on it: [None]. *)
Definition currentAnswersOf (a : option Answer) : option (list string) :=
  match a with
  | None => Some []
  | Some (AArr l) => Some l
  | Some (AStr s) => if String.eqb s EmptyString then Some [] else None
  end.

(** [xs.every((x, idx) => f x idx)], counting from [i]. *)
Fixpoint every_from {A : Type} (f : A -> nat -> bool) (i : nat) (xs : list A) : bool :=
  match xs with
  | [] => true
  | x :: rest => f x i && every_from f (S i) rest
  end.

(** [answer !== undefined && answer !== '']. *)
Definition nonEmptyAnswer (a : option Answer) : bool :=
  match a with
  | None => false
  | Some (AStr s) => negb (String.eqb s EmptyString)
  | Some (AArr _) => true
  end.

(** The [allAnswered] test of the option handler. *)
Definition allAnsweredOption (questions : list Question) (a : Answers) : bool :=
  every_from
    (fun q idx =>
       let answer := Ans.get idx a in
       if isMulti q
       then match answer with Some (AArr (_ :: _)) => true | _ => false end
       else nonEmptyAnswer answer)
    0%nat questions.

(** The [allAnswered] test of the custom-answer handler. *)
Definition allAnsweredOther (questions : list Question) (a : Answers) : bool :=
  every_from (fun _ idx => nonEmptyAnswer (Ans.get idx a)) 0%nat questions.

(** [if (pending.slackTs && pending.slackChannel) await chat.update(...)]
    with blocks from [buildAnsweredQuestionBlocks]. *)
Definition updateAnswered (pending : PendingRequest) (upd : bool) (s : State)
  : option State :=
  match slackTs pending, slackChannel pending with
  | Some ts, Some ch =>
      if truthy (Some ts) && truthy (Some ch) then
        if upd then Some (slack_call (Update ch ts Answered) s) else None
      else Some s
  | _, _ => Some s
  end.

(** The common end of the handlers that complete a question: update the
    prompt, then [sendResponse(pending, 'allow', pending.answers)]. *)
Definition answerQuestion (pending : PendingRequest) (a : Answers) (upd : bool)
           (s : State) : State :=
  match updateAnswered pending upd s with
  | None => s
  | Some s1 => sendResponse pending allow (Some a) s1
  end.

(** [slackApp.action(/^question_\d+_(\d+|other)$/, ...)]. *)
Definition questionAction (value : option OptionClick) (upd : bool) (s : State) : State :=
  match value with
  | None => s
  | Some data =>
      let requestId := data_requestId data in
      match Js.get requestId (pendingRequests s) with
      | None => s
      | Some pending =>
          match getQuestions (request pending) with
          | None => s
          | Some questions =>
              if data_optionIndex data =? -1 then
                (* "Other": open the modal; its label reads
                   [questions[data.questionIndex].question] *)
                match nth_error questions (data_questionIndex data) with
                | None => s
                | Some _ =>
                    slack_call (ViewsOpen requestId (data_questionIndex data)) s
                end
              else
                (* initialize answers if not exists *)
                let a0 := match answers pending with Some a => a | None => [] end in
                let s0 := with_pendingRequests s
                            (Js.set requestId (setAnswers pending a0) (pendingRequests s)) in
                match nth_error questions (data_questionIndex data) with
                | None => s0            (* [question.multiSelect] throws *)
                | Some question =>
                    let i := data_questionIndex data in
                    let updated :=
                      if isMulti question then
                        match currentAnswersOf (Ans.get i a0) with
                        | None => None
                        | Some currentAnswers =>
                            Some (Ans.set i (AArr (toggle (data_label data) currentAnswers)) a0)
                        end
                      else Some (Ans.set i (AStr (data_label data)) a0) in
                    match updated with
                    | None => s0
                    | Some a1 =>
                        let pending1 := setAnswers pending a1 in
                        let s1 := with_pendingRequests s
                                    (Js.set requestId pending1 (pendingRequests s)) in
                        if allAnsweredOption questions a1
                           && negb (existsb isMulti questions)
                        then answerQuestion pending1 a1 upd s1
                        else s1
                    end
                end
          end
      end
  end.

(** [view.private_metadata] after [JSON.parse], and the submitted text
    ([... .value || '']). *)
Record OtherSubmit : Type := mkOtherSubmit {
  metadata_requestId : string;
  metadata_questionIndex : nat;
  customAnswer : string
}.

(** [slackApp.view('question_other_submit', ...)]. *)
Definition questionOtherSubmit (view : OtherSubmit) (upd : bool) (s : State) : State :=
  let requestId := metadata_requestId view in
  match Js.get requestId (pendingRequests s) with
  | None => s
  | Some pending =>
      match getQuestions (request pending) with
      | None => s
      | Some questions =>
          let a0 := match answers pending with Some a => a | None => [] end in
          let a1 := Ans.set (metadata_questionIndex view) (AStr (customAnswer view)) a0 in
          let pending1 := setAnswers pending a1 in
          let s1 := with_pendingRequests s
                      (Js.set requestId pending1 (pendingRequests s)) in
          if allAnsweredOther questions a1
          then answerQuestion pending1 a1 upd s1
          else s1
      end
  end.

(** [slackApp.action(/^confirm_multiselect_\d+$/, ...)]. *)
Definition confirmMultiselect (value : option string) (upd : bool) (s : State) : State :=
  match value with
  | None => s
  | Some requestId =>
      match Js.get requestId (pendingRequests s) with
      | None => s
      | Some pending =>
          match getQuestions (request pending) with
          | None => s
          | Some _ =>
              let updated :=
                match answers pending with
                | Some _ => updateAnswered pending upd s
                | None => Some s
                end in
              match updated with
              | None => s
              | Some s1 =>
                  sendResponse pending allow
                    (Some (match answers pending with Some a => a | None => [] end)) s1
              end
          end
      end
  end.

(* ===================================================================== *)
(** ** [handleRequest], the close listener and the sweep                  *)
(* ===================================================================== *)

(** What [await slackApp.client.chat.postMessage(...)] gives:
    a rejection, or a result with its [ts] and [channel]. *)
Inductive PostOutcome : Type :=
| PostFailed
| Posted (ts channel : option string).

(** How a call of an asynchronous handler ends. *)
Inductive Outcome : Type :=
| Returned (s : State)
| Threw (s : State).

Definition stateOf (o : Outcome) : State :=
  match o with Returned s => s | Threw s => s end.

(** The hash for deduplication computed at the top of [handleRequest]. *)
Definition dedupHashOf (request : Request) : option string :=
  let sessionId := session_id request in
  if isQuestionRequest request then
    match getQuestions request with
    | None => None
    | Some questions =>
        Some ("q:" +:+ sessionId +:+ ":" +:+
              Js.stringify None (JArr (List.map (fun q => JStr (question q)) questions)))
    end
  else
    match requestHash request with
    | None => None
    | Some hash => Some ("p:" +:+ sessionId +:+ ":" +:+ hash)
    end.

(** The duplicate branch: the socket of the duplicate joins the existing
    pending request; the original socket moves to [additionalSockets]. *)
Definition attach (existingPending : PendingRequest) (c : Socket) : PendingRequest :=
  let originalSocket := socket existingPending in
  let adds0 := match additionalSockets existingPending with
               | Some cs => cs
               | None => []
               end in
  let adds1 := match originalSocket with
               | Some c0 => adds0 ++ [c0]
               | None => adds0
               end in
  mkPendingRequest (id existingPending) None (Some (adds1 ++ [c]))
                   (request existingPending) (slackTs existingPending)
                   (slackChannel existingPending) (createdAt existingPending)
                   (isQuestion existingPending) (answers existingPending).

(** The pending request that a duplicate of [dedupHash] arriving at [now]
    attaches to, if any. *)
Definition duplicateOf (s : State) (dedupHash : string) (now : Z)
  : option (string * PendingRequest) :=
  match recentRequestHashes s !! dedupHash with
  | Some (requestId, timestamp) =>
      if now - timestamp <? DEDUP_WINDOW_MS then
        match Js.get requestId (pendingRequests s) with
        | Some existingPending => Some (requestId, existingPending)
        | None => None
        end
      else None
  | None => None
  end.

Definition cacheResponse : JSON :=
  JObj [("hookSpecificOutput",
         JObj [("hookEventName", JStr "PermissionRequest");
               ("decision", JObj [("behavior", JStr "allow")])])].

Definition emptyResponse : JSON :=
  JObj [("hookSpecificOutput",
         JObj [("hookEventName", JStr "PreToolUse");
               ("permissionDecision", JStr "allow");
               ("permissionDecisionReason", JStr "No questions to answer")])].

(** [pending.slackTs = result.ts; pending.slackChannel = result.channel]. *)
Definition setSlack (pending : PendingRequest) (ts ch : option string) : PendingRequest :=
  mkPendingRequest (id pending) (socket pending) (additionalSockets pending)
                   (request pending) ts ch (createdAt pending)
                   (isQuestion pending) (answers pending).

(** The [catch] block of [handleRequest]: reply deny, drop the request. *)
Definition publishFailed (pending : PendingRequest) (c : Socket) (requestId : string)
           (s : State) : State :=
  let s1 := match buildHookOutput pending deny None with
            | Some errorResponse =>
                reply (Js.stringify None errorResponse +:+ newline) s c
            | None => s
            end in
  with_pendingRequests s1 (Js.remove requestId (pendingRequests s1)).

(** [handleRequest] from [pendingRequests.set(requestId, pending)] on. *)
Definition publish (request : Request) (c : Socket) (createdNow : Z)
           (requestId : string) (post : PostOutcome) (isQ : bool) (s : State) : State :=
  let pending :=
    mkPendingRequest requestId (Some c) None request None None createdNow isQ None in
  let s1 := with_pendingRequests s (Js.set requestId pending (pendingRequests s)) in
  let listen (s' : State) : State :=
    with_closeListeners s' (closeListeners s' ++ [(c, requestId)]) in
  let send (s' : State) : State :=
    match post with
    | PostFailed => publishFailed pending c requestId s'
    | Posted ts ch =>
        let s2 := slack_call (PostMessage requestId) s' in
        let s3 := with_pendingRequests s2
                    (Js.set requestId (setSlack pending ts ch) (pendingRequests s2)) in
        if truthy ts
        then match ts with
             | Some t => with_tsToPendingId s3 (<[t := requestId]> (tsToPendingId s3))
             | None => s3
             end
        else s3
    end in
  if isQ then
    match getQuestions request with
    | None => listen (publishFailed pending c requestId s1)
    | Some [] =>
        (* no questions, respond immediately with allow *)
        let s2 := reply (Js.stringify None emptyResponse +:+ newline) s1 c in
        with_pendingRequests s2 (Js.remove requestId (pendingRequests s2))
    | Some _ => listen (send s1)
    end
  else listen (send s1).

(** [handleRequest(request, socket)].  [now] and [createdNow] are the two
    readings of [Date.now()], [requestId] is what [generateRequestId()]
    returns and [post] is how the [chat.postMessage] call ends. *)
Definition handleRequest (request : Request) (c : Socket) (now createdNow : Z)
           (requestId : string) (post : PostOutcome) (s : State) : Outcome :=
  let sessionId := session_id request in
  let isQ := isQuestionRequest request in
  match dedupHashOf request with
  | None => Threw s
  | Some dedupHash =>
      match duplicateOf s dedupHash now with
      | Some (existingId, existingPending) =>
          Returned (with_pendingRequests s
                      (Js.set existingId (attach existingPending c) (pendingRequests s)))
      | None =>
          (* store hash for deduplication *)
          let s1 := with_recentRequestHashes s
                      (<[dedupHash := (requestId, now)]> (recentRequestHashes s)) in
          (* for permission requests, check session cache first *)
          let hit :=
            if isQ then false
            else match requestHash request with
                 | Some hash => approved s1 sessionId hash
                 | None => false
                 end in
          if hit
          then Returned (reply (Js.stringify None cacheResponse +:+ newline) s1 c)
          else Returned (publish request c createdNow requestId post isQ s1)
      end
  end.

(** The [socket.on('close', ...)] listener registered by [handleRequest]
    for [requestId].  The Slack update sits in a [try]/[catch]: whether it
    goes through ([upd]) or not, the request is deleted. *)
Definition onSocketClose (requestId : string) (upd : bool) (s : State) : State :=
  match Js.get requestId (pendingRequests s) with
  | None => s
  | Some pending =>
      let blocksBuilt :=
        if isQuestion pending
        then match getQuestions (request pending) with Some _ => true | None => false end
        else match request pending with
             | ReqPermission _ => true
             | ReqUserQuestion _ => false
             end in
      let s1 :=
        match slackTs pending, slackChannel pending with
        | Some ts, Some ch =>
            if truthy (Some ts) && truthy (Some ch) && blocksBuilt && upd
            then slack_call (Update ch ts TimedOut) s
            else s
        | _, _ => s
        end in
      with_pendingRequests s1 (Js.remove requestId (pendingRequests s1))
  end.

(** The connection [c] closes: every listener registered on it runs. *)
Definition socketClosed (c : Socket) (upd : bool) (s : State) : State :=
  fold_left
    (fun s' l => if Nat.eqb (fst l) c then onSocketClose (snd l) upd s' else s')
    (closeListeners s) s.

Definition twoHours : Z := 2 * 60 * 60 * 1000.

(** The periodic cleanup ([setInterval], every minute). *)
Definition sweep (now : Z) (s : State) : State :=
  let s1 :=
    fold_left
      (fun s' entry =>
         let pending := snd entry in
         if now - createdAt pending >? twoHours then
           let s1 := match socket pending with
                     | Some c => socket_end c s'
                     | None => s'
                     end in
           let s2 := match additionalSockets pending with
                     | Some cs => fold_left (fun s'' c => socket_end c s'') cs s1
                     | None => s1
                     end in
           with_pendingRequests s2 (Js.remove (fst entry) (pendingRequests s2))
         else s')
      (pendingRequests s) s in
  with_recentRequestHashes s1
    (filter (fun kv => ¬ (now - snd (snd kv) > DEDUP_WINDOW_MS)) (recentRequestHashes s1)).

(* ===================================================================== *)
(** ** [src/socket.ts]: the data listener of [createSocketServer]         *)
(* ===================================================================== *)

Section Gateway.

(** [JSON.parse]: [None] when it throws. *)
Variable JSON_parse : string -> option JSON.

(** The [onRequest] callback given to [createSocketServer]. *)
Variable onRequest : JSON -> Socket -> State -> Outcome.

(** [buffer.indexOf('\n')]. *)
Definition newlineIndex (buffer : string) : option nat :=
  String.index 0 newline buffer.

Definition denyLine : string :=
  Js.stringify None (JObj [("decision", JStr "deny")]) +:+ newline.

(** The body of [socket.on('data', ...)] from the text [data.toString()]
    of the chunk on: the connection's buffer before the chunk, the text
    of the chunk, and the result: the buffer afterwards and the state. *)
Definition onData (c : Socket) (buffer data : string) (s : State) : string * State :=
  let buffer1 := buffer +:+ data in
  match newlineIndex buffer1 with
  | None => (buffer1, s)
  | Some newlineIndex =>
      let message := String.substring 0 newlineIndex buffer1 in
      let buffer2 :=
        String.substring (newlineIndex + 1)
                         (String.length buffer1 - (newlineIndex + 1)) buffer1 in
      match JSON_parse message with
      | None => (buffer2, reply denyLine s c)
      | Some request =>
          match onRequest request c s with
          | Returned s1 => (buffer2, s1)
          | Threw s1 => (buffer2, reply denyLine s1 c)
          end
      end
  end.

(** [data.toString()]: the text that the bytes of one chunk decode to
    (UTF-8).  Each chunk is decoded on its own, so bytes of one character
    that arrive in two chunks do not decode to that character. *)
Variable toString : list Byte.byte -> string.

(** [socket.on('data', ...)] on the bytes of a chunk. *)
Definition onChunk (c : Socket) (buffer : string) (data : list Byte.byte) (s : State)
  : string * State :=
  onData c buffer (toString data) s.

End Gateway.

(* ===================================================================== *)
(** ** Events                                                             *)
(* ===================================================================== *)

(** Everything that makes the daemon run a handler, with the answers of
    the outside world that the handler gets. *)
Inductive Event : Type :=
| EvRequest (request : Request) (c : Socket) (now createdNow : Z)
            (requestId : string) (post : PostOutcome)
| EvApprove (value : option string) (upd : bool)
| EvDeny (value : option string) (upd : bool)
| EvReaction (messageTs reaction : string) (upd : bool)
| EvMessage (msgEvent : MessageEvent) (upd : bool)
| EvQuestion (value : option OptionClick) (upd : bool)
| EvOtherSubmit (view : OtherSubmit) (upd : bool)
| EvConfirm (value : option string) (upd : bool)
| EvClose (c : Socket) (upd : bool)
| EvSweep (now : Z).

(** One handler run.  A request line reaches [handleRequest] through the
    data listener, whose [catch] answers a throw with the deny line. *)
Definition step (e : Event) (s : State) : State :=
  match e with
  | EvRequest request c now createdNow requestId post =>
      match handleRequest request c now createdNow requestId post s with
      | Returned s' => s'
      | Threw s' => reply denyLine s' c
      end
  | EvApprove value upd => approveAction value upd s
  | EvDeny value upd => denyAction value upd s
  | EvReaction messageTs reaction upd => reactionAdded messageTs reaction upd s
  | EvMessage msgEvent upd => messageHandler msgEvent upd s
  | EvQuestion value upd => questionAction value upd s
  | EvOtherSubmit view upd => questionOtherSubmit view upd s
  | EvConfirm value upd => confirmMultiselect value upd s
  | EvClose c upd => socketClosed c upd s
  | EvSweep now => sweep now s
  end.

(** The connections attached to a pending request, in the order in which
    [sendResponse] serves them. *)
Definition connections (pending : PendingRequest) : list Socket :=
  match socket pending with Some c => [c] | None => [] end ++
  match additionalSockets pending with Some cs => cs | None => [] end.

(** What [reply line] puts on the wire for each connection of [cs]. *)
Definition replies (line : string) (cs : list Socket) : list (Socket * SocketOp) :=
  flat_map (fun c => [(c, Write line); (c, End)]) cs.

(** The session approval cache of [sid] as a set. *)
Definition cacheOf (s : State) (sid : string) : gset string :=
  default ∅ (sessionApprovals s !! sid).

(* ===================================================================== *)
(** ** Vocabulary of the statements                                       *)
(* ===================================================================== *)

(** The answers of a pending request, [{}] when not yet initialized. *)
Definition answersOf (pending : PendingRequest) : Answers :=
  match answers pending with Some a => a | None => [] end.

(** The labels recorded as selected for question [i]: the array stored
    under [i]; nothing is selected when there is no array. *)
Definition selectedLabels (pending : PendingRequest) (i : nat) : list string :=
  match Ans.get i (answersOf pending) with
  | Some (AArr l) => l
  | _ => []
  end.

(** The request a reaction on the message [messageTs] is applied to. *)
Definition reactionTarget (messageTs : string) (s : State) : option PendingRequest :=
  match tsToPendingId s !! messageTs with
  | Some requestId =>
      if truthy (Some requestId) then
        match Js.get requestId (pendingRequests s) with
        | Some pending => if isQuestion pending then None else Some pending
        | None => None
        end
      else None
  | None => None
  end.

(** The request a text message is applied to. *)
Definition messageTarget (msgEvent : MessageEvent) (s : State) : option PendingRequest :=
  if truthy (subtype msgEvent) || truthy (bot_id msgEvent) then None else
  match (if truthy (thread_ts msgEvent)
         then match thread_ts msgEvent with
              | Some ts => tsToPendingId s !! ts
              | None => None
              end
         else findDirect (channel msgEvent) (pendingRequests s)) with
  | Some requestId =>
      if truthy (Some requestId) then
        match Js.get requestId (pendingRequests s) with
        | Some pending => if isQuestion pending then None else Some pending
        | None => None
        end
      else None
  | None => None
  end.



(** The arrays of selected labels of a request hold no label twice. *)
Definition answers_wf (pending : PendingRequest) : Prop :=
  forall i l, Ans.get i (answersOf pending) = Some (AArr l) -> List.NoDup l.

(** What the registry of a running daemon satisfies: keys are unique (it
    is a [Map]), every request is stored under its own id, and its
    answers are well formed. *)
Definition entries_wf (entries : list (string * PendingRequest)) : Prop :=
  List.NoDup (Js.keys entries) /\
  forall k p, In (k, p) entries -> id p = k /\ answers_wf p.

Definition registry_wf (s : State) : Prop := entries_wf (pendingRequests s).

(* ===================================================================== *)
(** ** Running examples                                                   *)
(* ===================================================================== *)

Module Demo.

(** A Bash approval request of session [s1]. *)
Definition bash : Request :=
  ReqPermission
    (mkPermissionRequest "PermissionRequest" "Bash" [("command", JStr "echo hi")] "s1").

(** The daemon after [bash] came in on connection 1 at time 1000 and its
    prompt was posted. *)
Definition posted : State :=
  step (EvRequest bash 1%nat 1000 1000 "r1" (Posted (Some "111.1") (Some "C1"))) initial.

(** The pending request that [posted] holds under [r1]. *)
Definition pending : PendingRequest :=
  mkPendingRequest "r1" (Some 1%nat) None bash (Some "111.1") (Some "C1") 1000 false None.

(** Two MultiEdit inputs on the same file with different edits. *)
Definition edit1 : list (string * JSON) :=
  [("file_path", JStr "a.ts");
   ("edits", JArr [JObj [("old_string", JStr "x"); ("new_string", JStr "y")]])].

Definition edit2 : list (string * JSON) :=
  [("file_path", JStr "a.ts");
   ("edits", JArr [JObj [("old_string", JStr "y"); ("new_string", JStr "rm")]])].

(** An AskUserQuestion request with a single multi-select question. *)
Definition ask : Request :=
  ReqPermission
    (mkPermissionRequest "PreToolUse" "AskUserQuestion"
       [("questions",
         JArr [JObj [("question", JStr "Which?");
                     ("options", JArr [JObj [("label", JStr "A")];
                                       JObj [("label", JStr "B")]]);
                     ("multiSelect", JBool true)]])]
       "s1").

Definition asked : State :=
  step (EvRequest ask 2%nat 1000 1000 "q1" (Posted (Some "222.2") (Some "C1"))) initial.

(** The pending request that [asked] holds under [q1], and its question. *)
Definition askPending : PendingRequest :=
  mkPendingRequest "q1" (Some 2%nat) None ask (Some "222.2") (Some "C1") 1000 true None.

Definition which : Question :=
  mkQuestion "Which?" None [mkQuestionOption "A" None; mkQuestionOption "B" None]
             (Some true).

(** A click on option [A] of that question. *)
Definition clickA : OptionClick := mkOptionClick "q1" 0 0 "A".

End Demo.

(** A prompt of two single-select questions, published for connection 4. *)
Module Survey.

Definition ask : Request :=
  ReqPermission
    (mkPermissionRequest "PreToolUse" "AskUserQuestion"
       [("questions",
         JArr [JObj [("question", JStr "Color?");
                     ("options", JArr [JObj [("label", JStr "Red")];
                                       JObj [("label", JStr "Blue")]])];
               JObj [("question", JStr "Size?");
                     ("options", JArr [JObj [("label", JStr "S")];
                                       JObj [("label", JStr "L")]])]])]
       "s1").

Definition color : Question :=
  mkQuestion "Color?" None [mkQuestionOption "Red" None; mkQuestionOption "Blue" None] None.

Definition size : Question :=
  mkQuestion "Size?" None [mkQuestionOption "S" None; mkQuestionOption "L" None] None.

Definition asked : State :=
  step (EvRequest ask 4%nat 1000 1000 "q2" (Posted (Some "333.3") (Some "C1"))) initial.

Definition pending : PendingRequest :=
  mkPendingRequest "q2" (Some 4%nat) None ask (Some "333.3") (Some "C1") 1000 true None.


End Survey.

(* ===================================================================== *)
(** ** [src/utils.ts]: [parseDuration]                                    *)
(* ===================================================================== *)

(** The numbers that [parseDuration] computes.  A JS number is a double;
    here only non-negative integers are parsed, multiplied by positive
    literals and added, so every value is a non-negative integer that a
    double can hold, or [Infinity].  [Finite n] is the double whose value
    is the integer [n]; the rounding of each operation (to nearest, ties
    to even, 53 bits of precision, overflow at [2^1024]) is written out. *)
Module Dbl.

Inductive t : Type :=
| Finite (n : Z)
| Infinity.

(** The double nearest to the non-negative integer [z]. *)
Definition round (z : Z) : t :=
  if z <? 2 ^ 53 then Finite z
  else
    let e := Z.log2 z - 52 in
    let q := Z.shiftr z e in
    let r := z - Z.shiftl q e in
    let half := Z.shiftl 1 (e - 1) in
    let q' := if (half <? r) || ((r =? half) && Z.odd q) then q + 1 else q in
    let v := Z.shiftl q' e in
    if v <? 2 ^ 1024 then Finite v else Infinity.

(** [a + b]. *)
Definition add (a b : t) : t :=
  match a, b with
  | Finite x, Finite y => round (x + y)
  | _, _ => Infinity
  end.

(** [a * k] for a positive integer literal [k]. *)
Definition mul (a : t) (k : Z) : t :=
  match a with
  | Finite x => round (x * k)
  | Infinity => Infinity
  end.

(** The values at hand: a non-negative integer or [Infinity]. *)
Definition nonneg (a : t) : Prop :=
  match a with
  | Finite x => 0 <= x
  | Infinity => True
  end.

(** Milliseconds that are not negative and, below [2^53], make a whole
    number of seconds. *)
Definition whole_seconds (a : t) : Prop :=
  match a with
  | Finite ms => 0 <= ms /\ (ms < 2 ^ 53 -> (1000 | ms))
  | Infinity => True
  end.

End Dbl.

Module Duration.

(** [\d]: the ten ASCII digits. *)
Definition is_digit (c : ascii) : bool :=
  let n := N_of_ascii c in ((48 <=? n) && (n <=? 57))%N.

(** The longest prefix of digits of a string, and what follows it. *)
Fixpoint span_digits (s : string) : string * string :=
  match s with
  | EmptyString => (EmptyString, EmptyString)
  | String c rest =>
      if is_digit c
      then let (ds, tl) := span_digits rest in (String c ds, tl)
      else (EmptyString, s)
  end.

(** [parseInt(ds, 10)] on a string of digits: the double nearest to the
    integer that the numeral denotes.  (The language lets an
    implementation read the digits after the twentieth significant one
    as zeros; numerals that long are far above [2^53].) *)
Definition parseInt (ds : string) : Dbl.t :=
  match NilEmpty.uint_of_string ds with
  | Some u => Dbl.round (Z.of_N (N.of_uint u))
  | None => Dbl.Finite 0
  end.

(** One optional group [(?:(\d+)u)?] of the pattern, matched at the head
    of [s]: the captured number, if the group matches, and the rest of the
    string.  A run of digits that is not followed by [u] can be matched
    by no shorter run either, so the group then matches nothing. *)
Definition group (unit : ascii) (s : string) : option Dbl.t * string :=
  match span_digits s with
  | (String d ds, String c rest) =>
      if Ascii.eqb c unit then (Some (parseInt (String d ds)), rest) else (None, s)
  | _ => (None, s)
  end.

(** [parseDuration(duration)]: milliseconds, [None] when it throws.  The
    pattern is [^(?:(\d+)h)?(?:(\d+)m)?(?:(\d+)s)?$]; a group that does
    not take part gives [parseInt('0', 10)]. *)
Definition parseDuration (duration : string) : option Dbl.t :=
  if String.eqb duration "0" then Some (Dbl.Finite 0) else
  let (hours, r1) := group "h" duration in
  let (minutes, r2) := group "m" r1 in
  let (seconds, r3) := group "s" r2 in
  match r3 with
  | EmptyString =>
      let hours := default (Dbl.Finite 0) hours in
      let minutes := default (Dbl.Finite 0) minutes in
      let seconds := default (Dbl.Finite 0) seconds in
      Some (Dbl.mul (Dbl.add (Dbl.add (Dbl.mul hours 3600) (Dbl.mul minutes 60)) seconds)
                    1000)
  | String _ _ => None
  end.

(** The decimal numeral of a natural number. *)
Definition decimal (n : N) : string := NilEmpty.string_of_uint (N.to_uint n).

(** An optional component of a duration: its text and its amount. *)
Definition component (o : option N) (unit : ascii) : string :=
  match o with
  | Some n => decimal n +:+ String unit EmptyString
  | None => EmptyString
  end.

Definition amount (o : option N) : Z :=
  match o with Some n => Z.of_N n | None => 0 end.

End Duration.

(* ===================================================================== *)
(** ** The hook's command line ([parseArgs])                              *)
(* ===================================================================== *)

Record HookConfig : Type := mkHookConfig {
  delay : Dbl.t;
  notifyImmediatelyOnLock : bool;
  testMode : bool
}.

(** The loop of [parseArgs] from the argument it stands at.  [None]: the
    call of [parseDuration] throws. *)
Fixpoint parseArgsFrom (args : list string) (config : HookConfig) : option HookConfig :=
  match args with
  | [] => Some config
  | arg :: rest =>
      if String.eqb arg "--delay" && truthy (List.head rest) then
        match rest with
        | next :: rest' =>
            match Duration.parseDuration next with
            | Some d =>
                parseArgsFrom rest'
                  (mkHookConfig d (notifyImmediatelyOnLock config) (testMode config))
            | None => None
            end
        | [] => Some config
        end
      else if String.eqb arg "--notify-immediately-on-lock" then
        match rest with
        | next :: rest' =>
            if String.eqb next "false" then
              parseArgsFrom rest' (mkHookConfig (delay config) false (testMode config))
            else if String.eqb next "true" then
              parseArgsFrom rest' (mkHookConfig (delay config) true (testMode config))
            else parseArgsFrom rest config
        | [] => Some config
        end
      else if String.eqb arg "--test" then
        parseArgsFrom rest
          (mkHookConfig (delay config) (notifyImmediatelyOnLock config) true)
      else parseArgsFrom rest config
  end.

(** [parseArgs()] on the arguments after the script name. *)
Definition parseArgs (args : list string) : option HookConfig :=
  parseArgsFrom args (mkHookConfig (Dbl.Finite (60 * 1000)) true false).

(* ===================================================================== *)
(** ** [src/socket.ts]: the data listener of [sendRequest]                *)
(* ===================================================================== *)

(** How the promise of [sendRequest] stands after a chunk. *)
Inductive ClientOutcome : Type :=
| StillWaiting
| ResolvedWith (response : JSON)
| RejectedParse.

Section Client.

Variable JSON_parse : string -> option JSON.

(** The body of [socket.on('data', ...)] of the client from the text
    [data.toString()] of the chunk on: the text received before the
    chunk, the text of the chunk, and the result: the text received so
    far and the state of the promise. *)
Definition clientOnData (responseData data : string) : string * ClientOutcome :=
  let responseData1 := responseData +:+ data in
  match newlineIndex responseData1 with
  | None => (responseData1, StillWaiting)
  | Some newlineIndex =>
      let message := String.substring 0 newlineIndex responseData1 in
      match JSON_parse message with
      | Some response => (responseData1, ResolvedWith response)
      | None => (responseData1, RejectedParse)
      end
  end.

(** [data.toString()] of a chunk, decoded on its own. *)
Variable toString : list Byte.byte -> string.

(** [socket.on('data', ...)] of the client on the bytes of a chunk. *)
Definition clientOnChunk (responseData : string) (data : list Byte.byte)
  : string * ClientOutcome :=
  clientOnData responseData (toString data).

End Client.

(** The string holds a line terminator. *)
Fixpoint has_newline (s : string) : bool :=
  match s with
  | EmptyString => false
  | String c rest => (N_of_ascii c =? 10)%N || has_newline rest
  end.

(** The pending request is stale at [now] for the sweep. *)
Definition stale (now : Z) (pending : PendingRequest) : bool :=
  now - createdAt pending >? twoHours.

(** What the sweep at [now] puts on the wire for a registry entry: the
    end of every connection of a stale request, the creating one first. *)
Definition sweepEnds (now : Z) (pending : PendingRequest) : list (Socket * SocketOp) :=
  if stale now pending
  then List.map (fun c => (c, End)) (connections pending)
  else [].

(** The reply of the daemon when it cannot publish the prompt. *)
Definition publishFailureReply (isQ : bool) : JSON :=
  if isQ then
    JObj [("hookSpecificOutput",
           JObj [("hookEventName", JStr "PreToolUse");
                 ("permissionDecision", JStr "deny");
                 ("permissionDecisionReason", JStr "Denied via Slack")])]
  else
    JObj [("hookSpecificOutput",
           JObj [("hookEventName", JStr "PermissionRequest");
                 ("decision", JObj [("behavior", JStr "deny");
                                    ("message", JStr "Denied via Slack")])])].


(** The states the daemon reaches from [initial]. *)
Definition reachable (s : State) : Prop :=
  exists events, s = fold_left (fun s' e => step e s') events initial.

(* ===================================================================== *)
(** ** Basic facts about the containers                                   *)
(* ===================================================================== *)

Section MapFacts.

Context {A : Type}.
Implicit Types (l : list (string * A)) (k : string).

Lemma get_remove_eq k l : Js.get k (Js.remove k l) = None.
Proof.
  induction l as [|[k' v] l IH]; simpl; [reflexivity|].
  destruct (String.eqb k' k) eqn:E; simpl; [assumption|].
  rewrite E. assumption.
Qed.

Lemma get_remove_ne k k' l :
  k <> k' -> Js.get k' (Js.remove k l) = Js.get k' l.
Proof.
  intros Hne. induction l as [|[k0 v] l IH]; simpl; [reflexivity|].
  destruct (String.eqb k0 k) eqn:E; simpl.
  - apply String.eqb_eq in E. subst k0.
    destruct (String.eqb k k') eqn:E'; [|assumption].
    apply String.eqb_eq in E'. contradiction.
  - rewrite IH. reflexivity.
Qed.

Lemma get_set_eq k v l : Js.get k (Js.set k v l) = Some v.
Proof.
  induction l as [|[k' w] l IH]; simpl.
  - rewrite String.eqb_refl. reflexivity.
  - destruct (String.eqb k' k) eqn:E; simpl; rewrite E; [reflexivity|assumption].
Qed.

Lemma get_set_ne k k' v l :
  k <> k' -> Js.get k' (Js.set k v l) = Js.get k' l.
Proof.
  intros Hne. induction l as [|[k0 w] l IH]; simpl.
  - destruct (String.eqb k k') eqn:E; [|reflexivity].
    apply String.eqb_eq in E. contradiction.
  - destruct (String.eqb k0 k) eqn:E; simpl.
    + apply String.eqb_eq in E. subst k0.
      destruct (String.eqb k k') eqn:E'; [|reflexivity].
      apply String.eqb_eq in E'. contradiction.
    + rewrite IH. reflexivity.
Qed.

Lemma get_In k v l : Js.get k l = Some v -> In (k, v) l.
Proof.
  induction l as [|[k' w] l IH]; simpl; [discriminate|].
  destruct (String.eqb k' k) eqn:E.
  - apply String.eqb_eq in E. intros [= ->]. subst. left. reflexivity.
  - intros H. right. apply IH, H.
Qed.

End MapFacts.

(** The wire after replying to a list of connections. *)
Lemma fold_reply_fields line cs s :
  let s' := fold_left (reply line) cs s in
  wire s' = wire s ++ replies line cs /\
  pendingRequests s' = pendingRequests s /\
  tsToPendingId s' = tsToPendingId s /\
  sessionApprovals s' = sessionApprovals s /\
  recentRequestHashes s' = recentRequestHashes s /\
  closeListeners s' = closeListeners s /\
  slack s' = slack s.
Proof.
  revert s. induction cs as [|c cs IH]; intros s; simpl.
  - rewrite app_nil_r. repeat split.
  - specialize (IH (reply line s c)). simpl in IH.
    destruct IH as (Hw & Hp & Ht & Ha & Hr & Hc & Hs).
    rewrite Hw, Hp, Ht, Ha, Hr, Hc, Hs. simpl.
    rewrite <- !app_assoc. simpl. repeat split.
Qed.

(** What [sendResponse] does when [buildHookOutput] returns: one line to
    every attached connection, each then ended; the request and its
    [ts] entry dropped; all other maps left alone. *)
Lemma sendResponse_fields pending decision a response s :
  buildHookOutput pending decision a = Some response ->
  let s' := sendResponse pending decision a s in
  wire s' = wire s ++ replies (Js.stringify None response +:+ newline) (connections pending) /\
  pendingRequests s' = Js.remove (id pending) (pendingRequests s) /\
  tsToPendingId s' =
    (if truthy (slackTs pending)
     then match slackTs pending with
          | Some ts => delete ts (tsToPendingId s)
          | None => tsToPendingId s
          end
     else tsToPendingId s) /\
  sessionApprovals s' = sessionApprovals s /\
  recentRequestHashes s' = recentRequestHashes s /\
  closeListeners s' = closeListeners s /\
  slack s' = slack s.
Proof.
  intros Hb. unfold sendResponse, connections. rewrite Hb.
  set (line := Js.stringify None response +:+ newline).
  destruct (socket pending) as [c|], (additionalSockets pending) as [cs|];
    simpl.
  all: try (pose proof (fold_reply_fields line cs (reply line s c)) as H).
  all: try (pose proof (fold_reply_fields line cs s) as H).
  all: try (simpl in H; destruct H as (Hw & Hp & Ht & Ha & Hr & Hc & Hs)).
  all: destruct (slackTs pending) as [ts|]; simpl;
    try destruct (negb (String.eqb ts EmptyString)); simpl.
  all: rewrite ?Hw, ?Hp, ?Ht, ?Ha, ?Hr, ?Hc, ?Hs; simpl.
  all: rewrite <- ?app_assoc, ?app_nil_r; simpl; repeat split.
Qed.

(* ===================================================================== *)
(** ** The fingerprint                                                    *)
(* ===================================================================== *)

(** The property list of [createRequestHash] holds the top-level names
    only, so a member of a nested object whose name is not also a top-level
    name never reaches the fingerprint, whatever its value. *)
Lemma createRequestHash_nested_member_dropped toolName name key (v v' : JSON) :
  key <> name ->
  createRequestHash toolName [(name, JObj [(key, v)])] =
  createRequestHash toolName [(name, JObj [(key, v')])].
Proof.
  intros Hne. unfold createRequestHash. simpl.
  rewrite String.eqb_refl. simpl.
  destruct (String.eqb key name) eqn:E; [|reflexivity].
  apply String.eqb_eq in E. contradiction.
Qed.

(** C1 (the code departs from the claim): two MultiEdit requests on the
    same file whose edits differ get the same fingerprint, because
    [createRequestHash] serializes nested objects through the list of
    top-level names and so drops the nested values. *)
Theorem createRequestHash_nested_collision :
  Demo.edit1 <> Demo.edit2 /\
  createRequestHash "MultiEdit" Demo.edit1 = createRequestHash "MultiEdit" Demo.edit2 /\
  createRequestHash "MultiEdit" Demo.edit1 =
    "MultiEdit:" +:+ Js.stringify None
      (JObj [("edits", JArr [JObj []]); ("file_path", JStr "a.ts")]).
Proof.
  split; [discriminate|]. split; reflexivity.
Qed.

(* ===================================================================== *)
(** ** The session cache fast path                                        *)
(* ===================================================================== *)

(** C3: an approval request that is no duplicate attach and whose
    fingerprint is in the session's approval cache is answered at once
    with the allow line on its own connection, which is then ended;
    no pending request is created, no listener is registered and no Slack
    call is made.  The line is the one an approve signal sends. *)
Theorem cache_hit_replies_allow_without_prompt
        (r : PermissionRequest) (c : Socket) (now createdNow : Z)
        (requestId : string) (post : PostOutcome) (s : State)
        (cache : gset string) :
  let request := ReqPermission r in
  let hash := createRequestHash (tool_name r) (tool_input r) in
  isQuestionRequest request = false ->
  sessionApprovals s !! pr_session_id r = Some cache ->
  hash ∈ cache ->
  duplicateOf s ("p:" +:+ pr_session_id r +:+ ":" +:+ hash) now = None ->
  exists s',
    handleRequest request c now createdNow requestId post s = Returned s' /\
    wire s' = wire s ++ [(c, Write (Js.stringify None cacheResponse +:+ newline)); (c, End)] /\
    pendingRequests s' = pendingRequests s /\
    slack s' = slack s /\
    closeListeners s' = closeListeners s /\
    tsToPendingId s' = tsToPendingId s /\
    sessionApprovals s' = sessionApprovals s /\
    (forall p : PendingRequest,
        isQuestion p = false -> buildHookOutput p allow None = Some cacheResponse).
Proof.
  intros request hash Hq Hc Hin Hdup.
  unfold handleRequest, dedupHashOf. rewrite Hq. simpl.
  fold hash. rewrite Hdup.
  unfold approved. simpl. rewrite Hc.
  rewrite bool_decide_eq_true_2 by assumption.
  eexists. split; [reflexivity|]. simpl. rewrite <- app_assoc. simpl.
  repeat split.
  intros p Hp. unfold buildHookOutput. rewrite Hp. reflexivity.
Qed.

Lemma cache_hit_replies_allow_without_prompt_witness :
  exists s',
    handleRequest Demo.bash 7%nat 5000 5000 "r2" PostFailed
                  (step (EvApprove (Some "r1") true) Demo.posted) = Returned s' /\
    wire s' = wire (step (EvApprove (Some "r1") true) Demo.posted)
              ++ [(7%nat, Write (Js.stringify None cacheResponse +:+ newline)); (7%nat, End)] /\
    pendingRequests s' = [].
Proof.
  destruct (cache_hit_replies_allow_without_prompt
              (mkPermissionRequest "PermissionRequest" "Bash" [("command", JStr "echo hi")] "s1")
              7%nat 5000 5000 "r2" PostFailed
              (step (EvApprove (Some "r1") true) Demo.posted)
              {[createRequestHash "Bash" [("command", JStr "echo hi")]]})
    as (s' & Hr & Hw & Hp & _).
  - reflexivity.
  - vm_compute. reflexivity.
  - apply elem_of_singleton. reflexivity.
  - vm_compute. reflexivity.
  - exists s'. split; [exact Hr|]. split; [exact Hw|]. rewrite Hp. reflexivity.
Defined.

(* ===================================================================== *)
(** ** Delivering a decision                                              *)
(* ===================================================================== *)

(** C6, as the claim states it, fails: after [sendResponse] has delivered
    the decision for [r1] the pending request is gone, but the dedup index
    still maps the request's fingerprint to [r1]. *)
Lemma sendResponse_keeps_dedup_entry :
  exists h,
    dedupHashOf Demo.bash = Some h /\
    recentRequestHashes Demo.posted !! h = Some ("r1", 1000) /\
    let s' := sendResponse Demo.pending allow None Demo.posted in
    Js.get "r1" (pendingRequests s') = None /\
    recentRequestHashes s' !! h = Some ("r1", 1000).
Proof.
  eexists. split; [reflexivity|]. vm_compute. repeat split.
Qed.

(** C6 (amended): when [sendResponse] delivers a decision it writes one
    and the same reply line to every attached connection and ends each,
    then removes the pending request and the entry of its Slack message in
    the ts lookup table; the dedup index is not touched (its entries go
    only by the sweep or by being overwritten). *)
Theorem sendResponse_removes_request_not_dedup
        (pending : PendingRequest) (decision : Decision) (a : option Answers)
        (response : JSON) (s : State) :
  buildHookOutput pending decision a = Some response ->
  let s' := sendResponse pending decision a s in
  wire s' = wire s ++ replies (Js.stringify None response +:+ newline) (connections pending) /\
  Js.get (id pending) (pendingRequests s') = None /\
  (forall ts, slackTs pending = Some ts -> ts <> EmptyString ->
              tsToPendingId s' !! ts = None) /\
  recentRequestHashes s' = recentRequestHashes s.
Proof.
  intros Hb s'.
  destruct (sendResponse_fields pending decision a response s Hb)
    as (Hw & Hp & Ht & _ & Hr & _).
  fold s' in Hw, Hp, Ht, Hr.
  split; [exact Hw|]. split; [rewrite Hp; apply get_remove_eq|].
  split; [|exact Hr].
  intros ts Hts Hne. rewrite Ht, Hts. simpl.
  destruct (String.eqb ts EmptyString) eqn:E.
  - apply String.eqb_eq in E. contradiction.
  - simpl. apply lookup_delete_eq.
Qed.

Lemma sendResponse_removes_request_not_dedup_witness :
  buildHookOutput Demo.pending deny None <> None /\
  Js.get "r1" (pendingRequests (sendResponse Demo.pending deny None Demo.posted)) = None /\
  recentRequestHashes (sendResponse Demo.pending deny None Demo.posted)
  = recentRequestHashes Demo.posted.
Proof.
  split; [discriminate|].
  destruct (sendResponse_removes_request_not_dedup
              Demo.pending deny None
              (JObj [("hookSpecificOutput",
                      JObj [("hookEventName", JStr "PermissionRequest");
                            ("decision", JObj [("behavior", JStr "deny");
                                               ("message", JStr "Denied via Slack")])])])
              Demo.posted)
    as (_ & Hp & _ & Hr).
  - reflexivity.
  - split; [exact Hp | exact Hr].
Defined.

(* ===================================================================== *)
(** ** A connection closes before the decision                            *)
(* ===================================================================== *)

(** C4, as the claim states it, fails: when connection 1, on which the
    pending request [r1] was submitted, closes, the request is deleted
    from the registry, and the approve signal that follows for [r1]
    changes nothing. *)
Lemma close_deletes_pending_request :
  Js.get "r1" (pendingRequests Demo.posted) = Some Demo.pending /\
  let s' := step (EvClose 1%nat true) Demo.posted in
  Js.get "r1" (pendingRequests s') = None /\
  slack s' = slack Demo.posted ++ [Update "C1" "111.1" TimedOut] /\
  step (EvApprove (Some "r1") true) s' = s'.
Proof.
  vm_compute. repeat split.
Qed.

(* ===================================================================== *)
(** ** Questions with a multi-select question                             *)
(* ===================================================================== *)

Lemma existsb_nth_error {A : Type} (f : A -> bool) (l : list A) (i : nat) (x : A) :
  nth_error l i = Some x -> f x = true -> existsb f l = true.
Proof.
  intros Hn Hf. apply existsb_exists. exists x. split; [|exact Hf].
  eapply nth_error_In, Hn.
Qed.

(** What an option click on a multi-select question does: it toggles the
    label in the recorded answers (or throws on a custom text answer) and
    stops there. *)
Lemma questionAction_multi data upd s pending qs q :
  Js.get (data_requestId data) (pendingRequests s) = Some pending ->
  getQuestions (request pending) = Some qs ->
  nth_error qs (data_questionIndex data) = Some q ->
  isMulti q = true ->
  data_optionIndex data <> -1 ->
  questionAction (Some data) upd s =
  with_pendingRequests s
    (Js.set (data_requestId data)
       (setAnswers pending
          (match currentAnswersOf (Ans.get (data_questionIndex data) (answersOf pending)) with
           | Some cur =>
               Ans.set (data_questionIndex data) (AArr (toggle (data_label data) cur))
                       (answersOf pending)
           | None => answersOf pending
           end))
       (pendingRequests s)).
Proof.
  intros Hget Hqs Hnth Hm Hopt. unfold questionAction.
  rewrite Hget, Hqs, Hnth, Hm.
  destruct (data_optionIndex data =? -1) eqn:E; [apply Z.eqb_eq in E; contradiction|].
  fold (answersOf pending).
  destruct (currentAnswersOf _) as [cur|]; [|reflexivity].
  rewrite (existsb_nth_error isMulti qs _ q Hnth Hm).
  simpl negb. rewrite andb_false_r. reflexivity.
Qed.

(** X24: option clicks alone never resolve a request that has a
    multi-select question, whatever is selected and whether or not Slack
    calls go through: nothing is written to a connection and the request
    stays pending (it takes the Confirm button or a custom answer). *)
Lemma questionAction_multiselect_never_replies data upd s pending qs :
  Js.get (data_requestId data) (pendingRequests s) = Some pending ->
  getQuestions (request pending) = Some qs ->
  existsb isMulti qs = true ->
  let s' := questionAction (Some data) upd s in
  wire s' = wire s /\
  exists pending', Js.get (data_requestId data) (pendingRequests s') = Some pending'.
Proof.
  intros Hget Hqs Hex. unfold questionAction. rewrite Hget, Hqs, Hex.
  simpl negb.
  destruct (data_optionIndex data =? -1).
  { destruct (nth_error qs _); simpl; eauto. }
  destruct (nth_error qs _) as [q|]; simpl.
  2: { split; [reflexivity|]. rewrite get_set_eq. eauto. }
  destruct (isMulti q).
  - destruct (currentAnswersOf _); rewrite ?andb_false_r; simpl;
      rewrite get_set_eq; eauto.
  - rewrite andb_false_r. simpl. rewrite get_set_eq. eauto.
Qed.

Lemma questionAction_multiselect_never_replies_witness :
  wire (questionAction (Some Demo.clickA) true Demo.asked) = wire Demo.asked.
Proof.
  apply (questionAction_multiselect_never_replies
           Demo.clickA true Demo.asked Demo.askPending [Demo.which]).
  - vm_compute. reflexivity.
  - vm_compute. reflexivity.
  - reflexivity.
Defined.


(* ===================================================================== *)
(** ** Toggling a multi-select option                                     *)
(* ===================================================================== *)

Lemma answersOf_setAnswers pending a : answersOf (setAnswers pending a) = a.
Proof. reflexivity. Qed.

Lemma Ans_get_set_eq i v a : Ans.get i (Ans.set i v a) = Some v.
Proof.
  induction a as [|[k w] a IH]; simpl.
  - rewrite Nat.eqb_refl. reflexivity.
  - destruct (Nat.eqb k i) eqn:E; simpl.
    + rewrite E. reflexivity.
    + destruct (Nat.ltb i k) eqn:L; simpl.
      * rewrite Nat.eqb_refl. reflexivity.
      * rewrite E. exact IH.
Qed.

Lemma includes_In x l : Js.includes x l = true <-> In x l.
Proof.
  induction l as [|y l IH]; simpl.
  - split; [discriminate | contradiction].
  - destruct (String.eqb y x) eqn:E.
    + apply String.eqb_eq in E. split; auto.
    + apply String.eqb_neq in E. rewrite IH. split; [auto|].
      intros [H|H]; [contradiction | exact H].
Qed.

Lemma removeFirst_app_fresh x l : ~ In x l -> removeFirst x (l ++ [x]) = l.
Proof.
  induction l as [|y l IH]; simpl; intros Hn.
  - rewrite String.eqb_refl. reflexivity.
  - destruct (String.eqb y x) eqn:E.
    + apply String.eqb_eq in E. exfalso. apply Hn. left. exact E.
    + f_equal. apply IH. intros H. apply Hn. right. exact H.
Qed.

Lemma NoDup_snoc (x : string) l : List.NoDup l -> ~ In x l -> List.NoDup (l ++ [x]).
Proof.
  induction 1 as [|z l Hz Hnd IH]; simpl; intros Hn.
  - constructor; [simpl; tauto | constructor].
  - constructor.
    + rewrite in_app_iff. simpl. intros [H|[H|[]]]; [contradiction|].
      apply Hn. left. symmetry. exact H.
    + apply IH. intros H. apply Hn. right. exact H.
Qed.

Lemma removeFirst_NoDup x l :
  List.NoDup l -> In x l ->
  ~ In x (removeFirst x l) /\
  List.NoDup (removeFirst x l) /\
  forall y, In y l <-> y = x \/ In y (removeFirst x l).
Proof.
  induction 1 as [|z l Hz Hnd IH]; simpl; [contradiction|].
  intros Hin. destruct (String.eqb z x) eqn:E.
  - apply String.eqb_eq in E. subst z. split; [exact Hz|]. split; [exact Hnd|].
    intros y. split; intros [H|H]; auto.
  - apply String.eqb_neq in E. destruct Hin as [Hin|Hin]; [contradiction|].
    destruct (IH Hin) as (Hn & Hnd' & Hiff). split; [|split].
    + simpl. intros [H|H]; [contradiction | exact (Hn H)].
    + constructor; [|exact Hnd'].
      intros H. apply Hz. apply Hiff. right. exact H.
    + intros y. simpl. rewrite Hiff. tauto.
Qed.

(** Toggling keeps the recorded labels free of repetitions. *)
Lemma toggle_NoDup x l : List.NoDup l -> List.NoDup (toggle x l).
Proof.
  intros Hnd. unfold toggle. destruct (Js.includes x l) eqn:E.
  - apply includes_In in E. apply (removeFirst_NoDup x l Hnd E).
  - apply NoDup_snoc; [exact Hnd|]. rewrite <- includes_In. congruence.
Qed.

(** Toggling twice gives back the same set of labels. *)
Lemma toggle_twice x l :
  List.NoDup l -> forall y, In y (toggle x (toggle x l)) <-> In y l.
Proof.
  intros Hnd y. unfold toggle at 2. destruct (Js.includes x l) eqn:E.
  - apply includes_In in E.
    destruct (removeFirst_NoDup x l Hnd E) as (Hn & _ & Hiff).
    unfold toggle. destruct (Js.includes x (removeFirst x l)) eqn:E'.
    + apply includes_In in E'. contradiction.
    + rewrite in_app_iff, (Hiff y). simpl. intuition.
  - assert (Hn : ~ In x l) by (rewrite <- includes_In; congruence).
    unfold toggle.
    assert (Js.includes x (l ++ [x]) = true) as ->.
    { apply includes_In. apply in_or_app. right. left. reflexivity. }
    rewrite removeFirst_app_fresh by exact Hn. reflexivity.
Qed.

Lemma toggle_twice_fresh x l : ~ In x l -> toggle x (toggle x l) = l.
Proof.
  intros Hn. unfold toggle at 2.
  destruct (Js.includes x l) eqn:E; [apply includes_In in E; contradiction|].
  unfold toggle.
  assert (Js.includes x (l ++ [x]) = true) as ->.
  { apply includes_In. apply in_or_app. right. left. reflexivity. }
  apply removeFirst_app_fresh, Hn.
Qed.

(* ===================================================================== *)
(** ** Duplicate submissions                                              *)
(* ===================================================================== *)


Lemma connections_attach pending c :
  connections (attach pending c) =
  (match additionalSockets pending with Some cs => cs | None => [] end ++
   match socket pending with Some c0 => [c0] | None => [] end) ++ [c].
Proof.
  unfold connections, attach. simpl.
  destruct (socket pending), (additionalSockets pending); simpl;
    rewrite ?app_nil_r; reflexivity.
Qed.

(** A request that creates a pending request leaves the state in which a
    second submission of the same request within the window attaches:
    its fingerprint is in the dedup index under the new id and time. *)
Lemma handleRequest_records_dedup request c now createdNow requestId post s h :
  dedupHashOf request = Some h ->
  duplicateOf s h now = None ->
  recentRequestHashes
    (stateOf (handleRequest request c now createdNow requestId post s)) !! h
  = Some (requestId, now).
Proof.
  intros Hh Hd. unfold handleRequest. rewrite Hh, Hd.
  destruct (if isQuestionRequest request then false else _); simpl.
  - apply lookup_insert_eq.
  - unfold publish.
    destruct (isQuestionRequest request); [destruct (getQuestions request) as [[|]|]|];
      destruct post; simpl;
      try destruct (buildHookOutput _ _ _); simpl;
      try destruct (truthy ts); try destruct ts; simpl;
      apply lookup_insert_eq.
Qed.

(* ===================================================================== *)
(** ** Free-text messages in the channel                                  *)
(* ===================================================================== *)

(** The loop of the message handler returns the key of the first entry
    that is published in the channel and is not a question. *)
Lemma findDirect_first ch before requestId pending after :
  (forall id p, In (id, p) before ->
                slackChannel p <> Some ch \/ isQuestion p = true) ->
  slackChannel pending = Some ch ->
  isQuestion pending = false ->
  findDirect ch (before ++ (requestId, pending) :: after) = Some requestId.
Proof.
  intros Hb Hc Hq. induction before as [|[id p] before IH]; simpl.
  - rewrite Hc, Hq, String.eqb_refl. reflexivity.
  - destruct (Hb id p (or_introl eq_refl)) as [Hn|Hn].
    + destruct (slackChannel p) as [c0|] eqn:Ec; simpl.
      * destruct (String.eqb c0 ch) eqn:E; simpl.
        { apply String.eqb_eq in E. congruence. }
        apply IH. intros id' p' H. apply (Hb id' p'). right. exact H.
      * apply IH. intros id' p' H. apply (Hb id' p'). right. exact H.
    + rewrite Hn, andb_false_r.
      apply IH. intros id' p' H. apply (Hb id' p'). right. exact H.
Qed.

Lemma get_app_fresh {A : Type} k (v : A) before after :
  ~ In k (Js.keys before) ->
  Js.get k (before ++ (k, v) :: after) = Some v.
Proof.
  induction before as [|[k0 w] before IH]; simpl; intros Hn.
  - rewrite String.eqb_refl. reflexivity.
  - destruct (String.eqb k0 k) eqn:E.
    + apply String.eqb_eq in E. exfalso. apply Hn. left. exact E.
    + apply IH. intros H. apply Hn. right. exact H.
Qed.

Lemma In_remove_other {A : Type} k k' (v : A) l :
  k' <> k -> In (k', v) l -> In (k', v) (Js.remove k l).
Proof.
  intros Hne. induction l as [|[k0 w] l IH]; simpl; [tauto|].
  intros [H|H].
  - injection H as -> ->.
    destruct (String.eqb k' k) eqn:E; [apply String.eqb_eq in E; contradiction|].
    left. reflexivity.
  - destruct (String.eqb k0 k); [apply IH, H | right; apply IH, H].
Qed.

Lemma sendResponse_pendingRequests pending decision a s :
  pendingRequests (sendResponse pending decision a s) = pendingRequests s \/
  pendingRequests (sendResponse pending decision a s)
  = Js.remove (id pending) (pendingRequests s).
Proof.
  destruct (buildHookOutput pending decision a) as [response|] eqn:Hb.
  - right. apply (sendResponse_fields pending decision a response s Hb).
  - left. unfold sendResponse. rewrite Hb. reflexivity.
Qed.

Lemma updateResult_pendingRequests pending status upd s s1 :
  updateResult pending status upd s = Some s1 ->
  pendingRequests s1 = pendingRequests s.
Proof.
  unfold updateResult.
  destruct (slackTs pending), (slackChannel pending); try (intros [= <-]; reflexivity).
  destruct (truthy _ && truthy _); [|intros [= <-]; reflexivity].
  destruct (request pending); [|discriminate].
  destruct upd; [intros [= <-]; reflexivity | discriminate].
Qed.

(** An approve or deny block removes at most the request it is run on. *)
Lemma approve_pendingRequests pending upd s :
  pendingRequests (approve pending upd s) = pendingRequests s \/
  pendingRequests (approve pending upd s) = Js.remove (id pending) (pendingRequests s).
Proof.
  unfold approve. destruct (requestHash _) as [hash|]; [|left; reflexivity].
  destruct (updateResult _ _ _ _) as [s2|] eqn:E; [|left; reflexivity].
  apply updateResult_pendingRequests in E. simpl in E.
  destruct (sendResponse_pendingRequests pending allow None s2) as [H|H];
    rewrite H, E; auto.
Qed.

Lemma denyRequest_pendingRequests pending upd s :
  pendingRequests (denyRequest pending upd s) = pendingRequests s \/
  pendingRequests (denyRequest pending upd s) = Js.remove (id pending) (pendingRequests s).
Proof.
  unfold denyRequest.
  destruct (updateResult _ _ _ _) as [s2|] eqn:E; [|left; reflexivity].
  apply updateResult_pendingRequests in E.
  destruct (sendResponse_pendingRequests pending deny None s2) as [H|H];
    rewrite H, E; auto.
Qed.

Lemma sendResponse_wire pending decision a s :
  wire (sendResponse pending decision a s) = wire s \/
  exists line,
    wire (sendResponse pending decision a s) = wire s ++ replies line (connections pending).
Proof.
  destruct (buildHookOutput pending decision a) as [response|] eqn:Hb.
  - right. eexists. apply (sendResponse_fields pending decision a response s Hb).
  - left. unfold sendResponse. rewrite Hb. reflexivity.
Qed.

Lemma updateResult_wire pending status upd s s1 :
  updateResult pending status upd s = Some s1 -> wire s1 = wire s.
Proof.
  unfold updateResult.
  destruct (slackTs pending), (slackChannel pending); try (intros [= <-]; reflexivity).
  destruct (truthy _ && truthy _); [|intros [= <-]; reflexivity].
  destruct (request pending); [|discriminate].
  destruct upd; [intros [= <-]; reflexivity | discriminate].
Qed.

(** An approve or deny block writes to the connections of its request
    only. *)
Lemma approve_wire pending upd s :
  wire (approve pending upd s) = wire s \/
  exists line, wire (approve pending upd s) = wire s ++ replies line (connections pending).
Proof.
  unfold approve. destruct (requestHash _) as [hash|]; [|left; reflexivity].
  destruct (updateResult _ _ _ _) as [s2|] eqn:E; [|left; reflexivity].
  apply updateResult_wire in E. simpl in E.
  destruct (sendResponse_wire pending allow None s2) as [H|[line H]]; rewrite H, E; eauto.
Qed.

Lemma denyRequest_wire pending upd s :
  wire (denyRequest pending upd s) = wire s \/
  exists line, wire (denyRequest pending upd s) = wire s ++ replies line (connections pending).
Proof.
  unfold denyRequest.
  destruct (updateResult _ _ _ _) as [s2|] eqn:E; [|left; reflexivity].
  apply updateResult_wire in E.
  destruct (sendResponse_wire pending deny None s2) as [H|[line H]]; rewrite H, E; eauto.
Qed.

(* ===================================================================== *)
(** ** Malformed request lines                                            *)
(* ===================================================================== *)

(** [handleRequest] throws only while it computes the hash for
    deduplication, before it has touched the state. *)
Lemma handleRequest_threw_unchanged request c now createdNow requestId post s s1 :
  handleRequest request c now createdNow requestId post s = Threw s1 -> s1 = s.
Proof.
  unfold handleRequest.
  destruct (dedupHashOf request) as [h|]; [|intros [= <-]; reflexivity].
  destruct (duplicateOf s h now) as [[eid ep]|]; [discriminate|].
  destruct (if isQuestionRequest request then false else _); discriminate.
Qed.

(** A chunk that does not complete a line is only buffered. *)
Lemma onData_incomplete JSON_parse onRequest c buffer data s :
  newlineIndex (buffer +:+ data) = None ->
  onData JSON_parse onRequest c buffer data s = (buffer +:+ data, s).
Proof.
  intros H. unfold onData. rewrite H. reflexivity.
Qed.

Section MalformedLine.

Variable JSON_parse : string -> option JSON.
Variable onRequest : JSON -> Socket -> State -> Outcome.

(** C9: when the chunk completes the first line in the buffer and that
    line does not parse, or the callback throws on the parsed request,
    the data listener writes one line, the object with the single member
    decision: deny, to that connection and ends it.  It changes nothing
    else: after a parse failure every map of the daemon is as before;
    after a throw the maps are as the callback left them ([s1]), and
    [handleRequest], the callback of the daemon, throws only with the
    state it was given. *)
Theorem malformed_line_gets_one_deny
        (c : Socket) (buffer data : string) (s s1 : State) (n : nat) :
  newlineIndex (buffer +:+ data) = Some n ->
  let message := String.substring 0 n (buffer +:+ data) in
  (JSON_parse message = None /\ s1 = s) \/
  (exists request, JSON_parse message = Some request /\
                   onRequest request c s = Threw s1) ->
  let s' := snd (onData JSON_parse onRequest c buffer data s) in
  wire s' = wire s1 ++ [(c, Write denyLine); (c, End)] /\
  denyLine = "{" +:+ Js.dquote +:+ "decision" +:+ Js.dquote +:+ ":" +:+
             Js.dquote +:+ "deny" +:+ Js.dquote +:+ "}" +:+ newline /\
  pendingRequests s' = pendingRequests s1 /\
  tsToPendingId s' = tsToPendingId s1 /\
  sessionApprovals s' = sessionApprovals s1 /\
  recentRequestHashes s' = recentRequestHashes s1 /\
  closeListeners s' = closeListeners s1 /\
  slack s' = slack s1 /\
  (forall rq now createdNow requestId post s0 s0',
      handleRequest rq c now createdNow requestId post s0 = Threw s0' -> s0' = s0).
Proof.
  intros Hn message Hcase s'. subst s'. unfold onData. rewrite Hn. fold message.
  destruct Hcase as [[Hp ->]|(request & Hp & Ht)]; rewrite Hp; [|rewrite Ht];
    simpl; rewrite <- app_assoc; repeat split;
    intros; eapply handleRequest_threw_unchanged; eassumption.
Qed.

End MalformedLine.

Lemma malformed_line_gets_one_deny_witness :
  let parse := fun line : string =>
                 if String.eqb line "null" then Some JNull else None in
  let s' := snd (onData parse (fun _ _ s => Returned s) 3%nat "{not" (" json" +:+ newline)
                        Demo.posted) in
  wire s' = wire Demo.posted ++ [(3%nat, Write denyLine); (3%nat, End)] /\
  pendingRequests s' = pendingRequests Demo.posted.
Proof.
  intros parse s'.
  destruct (malformed_line_gets_one_deny
              parse (fun _ _ s => Returned s) 3%nat "{not" (" json" +:+ newline)
              Demo.posted Demo.posted 9%nat)
    as (Hw & _ & Hp & _).
  - reflexivity.
  - left. split; reflexivity.
  - split; [exact Hw | exact Hp].
Defined.

(* ===================================================================== *)
(** ** The session approval cache                                         *)
(* ===================================================================== *)

Lemma reactionAdded_target messageTs reaction upd s :
  reactionAdded messageTs reaction upd s =
  match reactionTarget messageTs s with
  | Some pending =>
      if Js.includes reaction approveReactions then approve pending upd s
      else if Js.includes reaction denyReactions then denyRequest pending upd s
      else s
  | None => s
  end.
Proof.
  unfold reactionAdded, reactionTarget.
  destruct (tsToPendingId s !! messageTs) as [requestId|]; [|reflexivity].
  destruct (truthy (Some requestId)); simpl; [|reflexivity].
  destruct (Js.get requestId (pendingRequests s)) as [pending|]; [|reflexivity].
  destruct (isQuestion pending); reflexivity.
Qed.

Lemma messageHandler_target msgEvent upd s :
  messageHandler msgEvent upd s =
  match messageTarget msgEvent s with
  | Some pending =>
      if says approveWords (text msgEvent) then approve pending upd s
      else if says denyWords (text msgEvent) then denyRequest pending upd s
      else s
  | None => s
  end.
Proof.
  unfold messageHandler, messageTarget.
  destruct (truthy (subtype msgEvent) || truthy (bot_id msgEvent)); [reflexivity|].
  destruct (if truthy (thread_ts msgEvent) then _ else _) as [requestId|];
    [|reflexivity].
  destruct (truthy (Some requestId)); simpl; [|reflexivity].
  destruct (Js.get requestId (pendingRequests s)) as [pending|]; [|reflexivity].
  destruct (isQuestion pending); reflexivity.
Qed.



(** *** Handlers that leave the cache alone *)

Lemma sendResponse_sessionApprovals pending decision a s :
  sessionApprovals (sendResponse pending decision a s) = sessionApprovals s.
Proof.
  destruct (buildHookOutput pending decision a) as [response|] eqn:Hb.
  - apply (sendResponse_fields pending decision a response s Hb).
  - unfold sendResponse. rewrite Hb. reflexivity.
Qed.

Lemma sendResponse_recentRequestHashes pending decision a s :
  recentRequestHashes (sendResponse pending decision a s) = recentRequestHashes s.
Proof.
  destruct (buildHookOutput pending decision a) as [response|] eqn:Hb.
  - apply (sendResponse_fields pending decision a response s Hb).
  - unfold sendResponse. rewrite Hb. reflexivity.
Qed.

Lemma updateResult_maps pending status upd s s1 :
  updateResult pending status upd s = Some s1 ->
  sessionApprovals s1 = sessionApprovals s /\
  recentRequestHashes s1 = recentRequestHashes s.
Proof.
  unfold updateResult.
  destruct (slackTs pending), (slackChannel pending); try (intros [= <-]; split; reflexivity).
  destruct (truthy _ && truthy _); [|intros [= <-]; split; reflexivity].
  destruct (request pending); [|discriminate].
  destruct upd; [intros [= <-]; split; reflexivity | discriminate].
Qed.



Lemma denyRequest_maps pending upd s :
  sessionApprovals (denyRequest pending upd s) = sessionApprovals s /\
  recentRequestHashes (denyRequest pending upd s) = recentRequestHashes s.
Proof.
  unfold denyRequest. destruct (updateResult _ _ _ _) as [s1|] eqn:E;
    [|split; reflexivity].
  rewrite sendResponse_sessionApprovals, sendResponse_recentRequestHashes.
  apply (updateResult_maps _ _ _ _ _ E).
Qed.

(** What an approval does to the cache: the fingerprint of the request
    joins the set of its session. *)
Lemma approve_sessionApprovals pending upd s :
  sessionApprovals (approve pending upd s) =
  match requestHash (request pending) with
  | Some hash => sessionApprovals (cacheApproval (session_id (request pending)) hash s)
  | None => sessionApprovals s
  end.
Proof.
  unfold approve. destruct (requestHash _) as [hash|]; [|reflexivity].
  destruct (updateResult _ _ _ _) as [s2|] eqn:E; [|reflexivity].
  rewrite sendResponse_sessionApprovals.
  apply (updateResult_maps _ _ _ _ _ E).
Qed.







(** A fold of steps that each keep a field keeps it. *)
Lemma fold_left_keeps {A B : Type} (field : State -> B) (f : State -> A -> State) l :
  (forall s x, field (f s x) = field s) ->
  forall s, field (fold_left f l s) = field s.
Proof.
  intros Hf. induction l as [|x l IH]; intros s; simpl; [reflexivity|].
  rewrite IH. apply Hf.
Qed.




Lemma cacheOf_cacheApproval sid hash s sid' :
  cacheOf (cacheApproval sid hash s) sid' =
  if decide (sid = sid') then {[hash]} ∪ cacheOf s sid else cacheOf s sid'.
Proof.
  unfold cacheOf, cacheApproval. simpl. rewrite lookup_insert.
  destruct (decide (sid = sid')); reflexivity.
Qed.

Lemma approved_cacheOf s sid hash :
  approved s sid hash = true <-> hash ∈ cacheOf s sid.
Proof.
  unfold approved, cacheOf. destruct (sessionApprovals s !! sid) as [cache|]; simpl.
  - apply bool_decide_eq_true.
  - split; [discriminate | intros H; apply not_elem_of_empty in H; contradiction].
Qed.






(* ===================================================================== *)
(** ** Well-formed registries                                             *)
(* ===================================================================== *)

Lemma In_set {A : Type} k (v : A) l k' v' :
  In (k', v') (Js.set k v l) -> (k' = k /\ v' = v) \/ In (k', v') l.
Proof.
  induction l as [|[k0 w] l IH]; simpl.
  - intros [[= <- <-]|[]]. left. split; reflexivity.
  - destruct (String.eqb k0 k) eqn:E; simpl.
    + apply String.eqb_eq in E. subst k0.
      intros [[= <- <-]|H]; [left; split; reflexivity | right; right; exact H].
    + intros [H|H]; [right; left; exact H|].
      destruct (IH H) as [H'|H']; [left; exact H' | right; right; exact H'].
Qed.

Lemma keys_set_incl {A : Type} k (v : A) l k' :
  In k' (Js.keys (Js.set k v l)) -> k' = k \/ In k' (Js.keys l).
Proof.
  unfold Js.keys. rewrite in_map_iff. intros [[k0 v0] [<- H]].
  apply In_set in H as [[-> _]|H]; [left; reflexivity|].
  right. apply in_map_iff. exists (k0, v0). split; [reflexivity | exact H].
Qed.

Lemma NoDup_keys_set {A : Type} k (v : A) l :
  List.NoDup (Js.keys l) -> List.NoDup (Js.keys (Js.set k v l)).
Proof.
  induction l as [|[k0 w] l IH]; simpl; intros Hnd.
  - constructor; [simpl; tauto | constructor].
  - apply List.NoDup_cons_iff in Hnd as [Hk Hnd].
    destruct (String.eqb k0 k) eqn:E; simpl.
    + constructor; assumption.
    + constructor; [|apply IH, Hnd].
      intros H. apply keys_set_incl in H as [->|H]; [|contradiction].
      rewrite String.eqb_refl in E. discriminate.
Qed.

Lemma In_remove {A : Type} k l k' (v' : A) :
  In (k', v') (Js.remove k l) -> In (k', v') l.
Proof.
  induction l as [|[k0 w] l IH]; simpl; [tauto|].
  destruct (String.eqb k0 k); simpl; [auto|].
  intros [H|H]; [left; exact H | right; apply IH, H].
Qed.

Lemma NoDup_keys_remove {A : Type} k (l : list (string * A)) :
  List.NoDup (Js.keys l) -> List.NoDup (Js.keys (Js.remove k l)).
Proof.
  induction l as [|[k0 w] l IH]; simpl; intros Hnd; [constructor|].
  apply List.NoDup_cons_iff in Hnd as [Hk Hnd].
  destruct (String.eqb k0 k); simpl; [apply IH, Hnd|].
  constructor; [|apply IH, Hnd].
  intros H. apply Hk. unfold Js.keys in *. apply in_map_iff in H as [[k1 v1] [<- H]].
  apply in_map_iff. exists (k1, v1). split; [reflexivity|]. eapply In_remove, H.
Qed.

Lemma entries_wf_set k pending entries :
  entries_wf entries -> id pending = k -> answers_wf pending ->
  entries_wf (Js.set k pending entries).
Proof.
  intros [Hnd Hall] Hid Ha. split; [apply NoDup_keys_set, Hnd|].
  intros k' p' H. apply In_set in H as [[-> ->]|H]; [split; assumption|].
  apply Hall, H.
Qed.

Lemma entries_wf_remove k entries :
  entries_wf entries -> entries_wf (Js.remove k entries).
Proof.
  intros [Hnd Hall]. split; [apply NoDup_keys_remove, Hnd|].
  intros k' p' H. apply Hall. eapply In_remove, H.
Qed.

Lemma registry_wf_get s k pending :
  registry_wf s -> Js.get k (pendingRequests s) = Some pending ->
  id pending = k /\ answers_wf pending.
Proof.
  intros [_ Hall] H. apply Hall, get_In, H.
Qed.

Lemma Ans_get_set_ne i j v a : i <> j -> Ans.get j (Ans.set i v a) = Ans.get j a.
Proof.
  intros Hne. induction a as [|[k w] a IH]; simpl.
  - destruct (Nat.eqb i j) eqn:E; [apply Nat.eqb_eq in E; contradiction | reflexivity].
  - destruct (Nat.eqb k i) eqn:E; simpl.
    + apply Nat.eqb_eq in E. subst k.
      destruct (Nat.eqb i j) eqn:E'; [apply Nat.eqb_eq in E'; contradiction | reflexivity].
    + destruct (Nat.ltb i k); simpl.
      * destruct (Nat.eqb i j) eqn:E'; [apply Nat.eqb_eq in E'; contradiction | reflexivity].
      * rewrite IH. reflexivity.
Qed.

Lemma answers_wf_set pending i v :
  answers_wf pending ->
  (forall l, v = AArr l -> List.NoDup l) ->
  answers_wf (setAnswers pending (Ans.set i v (answersOf pending))).
Proof.
  intros Hwf Hv j l. rewrite answersOf_setAnswers.
  destruct (Nat.eq_dec i j) as [<-|Hne].
  - rewrite Ans_get_set_eq. intros [= ->]. apply Hv. reflexivity.
  - rewrite Ans_get_set_ne by exact Hne. apply Hwf.
Qed.

Lemma answers_wf_same pending :
  answers_wf pending -> answers_wf (setAnswers pending (answersOf pending)).
Proof. intros H i l. rewrite answersOf_setAnswers. apply H. Qed.

Lemma registry_wf_same_or_removed s s' k :
  pendingRequests s' = pendingRequests s \/
  pendingRequests s' = Js.remove k (pendingRequests s) ->
  registry_wf s -> registry_wf s'.
Proof.
  unfold registry_wf. intros [->| ->] H; [exact H | apply entries_wf_remove, H].
Qed.

Lemma updateAnswered_pendingRequests pending upd s s1 :
  updateAnswered pending upd s = Some s1 -> pendingRequests s1 = pendingRequests s.
Proof.
  unfold updateAnswered.
  destruct (slackTs pending), (slackChannel pending); try (intros [= <-]; reflexivity).
  destruct (truthy _ && truthy _); [|intros [= <-]; reflexivity].
  destruct upd; [intros [= <-]; reflexivity | discriminate].
Qed.

Lemma answerQuestion_wf pending a upd s :
  registry_wf s -> registry_wf (answerQuestion pending a upd s).
Proof.
  unfold answerQuestion. destruct (updateAnswered pending upd s) as [s1|] eqn:E; [|auto].
  apply updateAnswered_pendingRequests in E. intros H.
  apply (registry_wf_same_or_removed s1 _ (id pending)).
  - apply sendResponse_pendingRequests.
  - unfold registry_wf. rewrite E. exact H.
Qed.

Lemma questionAction_wf value upd s :
  registry_wf s -> registry_wf (questionAction value upd s).
Proof.
  intros Hwf. unfold questionAction.
  destruct value as [data|]; [|exact Hwf].
  destruct (Js.get _ _) as [pending|] eqn:Hget; [|exact Hwf].
  destruct (registry_wf_get s _ pending Hwf Hget) as [Hid Ha].
  destruct (getQuestions _) as [qs|]; [|exact Hwf].
  destruct (_ =? -1).
  { destruct (nth_error _ _); exact Hwf. }
  fold (answersOf pending).
  assert (Hwf0 : registry_wf
                   (with_pendingRequests s
                      (Js.set (data_requestId data)
                         (setAnswers pending (answersOf pending)) (pendingRequests s)))).
  { apply entries_wf_set; [exact Hwf | exact Hid | apply answers_wf_same, Ha]. }
  destruct (nth_error _ _) as [q|]; [|exact Hwf0].
  assert (Hset : forall v, (forall l, v = AArr l -> List.NoDup l) ->
                 registry_wf
                   (with_pendingRequests s
                      (Js.set (data_requestId data)
                         (setAnswers pending
                            (Ans.set (data_questionIndex data) v (answersOf pending)))
                         (pendingRequests s)))).
  { intros v Hv. apply entries_wf_set; [exact Hwf | exact Hid |].
    apply answers_wf_set; assumption. }
  destruct (isMulti q).
  - destruct (currentAnswersOf _) as [cur|] eqn:Ec; [|exact Hwf0].
    assert (Hcur : List.NoDup cur).
    { unfold currentAnswersOf in Ec.
      destruct (Ans.get _ _) as [[str|l]|] eqn:Eg.
      - destruct (String.eqb str EmptyString); [|discriminate].
        injection Ec as <-. constructor.
      - injection Ec as <-. apply (Ha _ _ Eg).
      - injection Ec as <-. constructor. }
    specialize (Hset (AArr (toggle (data_label data) cur))).
    destruct (_ && _).
    + apply answerQuestion_wf, Hset. intros l [= <-]. apply toggle_NoDup, Hcur.
    + apply Hset. intros l [= <-]. apply toggle_NoDup, Hcur.
  - specialize (Hset (AStr (data_label data))).
    destruct (_ && _).
    + apply answerQuestion_wf, Hset. discriminate.
    + apply Hset. discriminate.
Qed.

Lemma questionOtherSubmit_wf view upd s :
  registry_wf s -> registry_wf (questionOtherSubmit view upd s).
Proof.
  intros Hwf. unfold questionOtherSubmit.
  destruct (Js.get _ _) as [pending|] eqn:Hget; [|exact Hwf].
  destruct (registry_wf_get s _ pending Hwf Hget) as [Hid Ha].
  destruct (getQuestions _) as [qs|]; [|exact Hwf].
  fold (answersOf pending).
  assert (Hset : registry_wf
                   (with_pendingRequests s
                      (Js.set (metadata_requestId view)
                         (setAnswers pending
                            (Ans.set (metadata_questionIndex view)
                                     (AStr (customAnswer view)) (answersOf pending)))
                         (pendingRequests s)))).
  { apply entries_wf_set; [exact Hwf | exact Hid |].
    apply answers_wf_set; [exact Ha | discriminate]. }
  destruct (allAnsweredOther _ _); [apply answerQuestion_wf|]; exact Hset.
Qed.

Lemma confirmMultiselect_wf value upd s :
  registry_wf s -> registry_wf (confirmMultiselect value upd s).
Proof.
  intros Hwf. unfold confirmMultiselect.
  destruct value as [requestId|]; [|exact Hwf].
  destruct (Js.get _ _) as [pending|]; [|exact Hwf].
  destruct (getQuestions _) as [qs|]; [|exact Hwf].
  destruct (match answers pending with Some _ => _ | None => _ end) as [s1|] eqn:E;
    [|exact Hwf].
  assert (Hp : pendingRequests s1 = pendingRequests s).
  { destruct (answers pending); [|injection E as <-; reflexivity].
    apply (updateAnswered_pendingRequests _ _ _ _ E). }
  apply (registry_wf_same_or_removed s1 _ (id pending)).
  - apply sendResponse_pendingRequests.
  - unfold registry_wf. rewrite Hp. exact Hwf.
Qed.

Lemma publish_wf request c createdNow requestId post isQ s :
  registry_wf s -> registry_wf (publish request c createdNow requestId post isQ s).
Proof.
  intros Hwf. unfold publish.
  set (pending := mkPendingRequest requestId (Some c) None request None None
                                   createdNow isQ None).
  assert (Hnone : forall p, answers p = None -> answers_wf p).
  { intros p Hp i l. unfold answersOf. rewrite Hp. discriminate. }
  assert (H1 : entries_wf (Js.set requestId pending (pendingRequests s))).
  { apply entries_wf_set; [exact Hwf | reflexivity | apply Hnone; reflexivity]. }
  assert (Hfail : forall s', entries_wf (pendingRequests s') ->
                             registry_wf (publishFailed pending c requestId s')).
  { intros s' H. unfold publishFailed, registry_wf.
    destruct (buildHookOutput pending deny None); simpl; apply entries_wf_remove, H. }
  assert (Hsend : registry_wf
            (match post with
             | PostFailed =>
                 publishFailed pending c requestId
                   (with_pendingRequests s (Js.set requestId pending (pendingRequests s)))
             | Posted ts ch =>
                 let s2 := slack_call (PostMessage requestId)
                             (with_pendingRequests s
                                (Js.set requestId pending (pendingRequests s))) in
                 let s3 := with_pendingRequests s2
                             (Js.set requestId (setSlack pending ts ch) (pendingRequests s2)) in
                 if truthy ts
                 then match ts with
                      | Some t => with_tsToPendingId s3 (<[t := requestId]> (tsToPendingId s3))
                      | None => s3
                      end
                 else s3
             end)).
  { destruct post as [|ts ch]; [apply Hfail, H1|].
    assert (entries_wf (Js.set requestId (setSlack pending ts ch)
                               (Js.set requestId pending (pendingRequests s)))).
    { apply entries_wf_set; [exact H1 | reflexivity | apply Hnone; reflexivity]. }
    simpl. destruct ts as [t|]; simpl; [destruct (negb _)|]; assumption. }
  destruct isQ; [destruct (getQuestions request) as [[|q qs]|]|].
  - unfold registry_wf. simpl. apply entries_wf_remove, H1.
  - exact Hsend.
  - apply Hfail, H1.
  - exact Hsend.
Qed.

Lemma handleRequest_wf request c now createdNow requestId post s :
  registry_wf s ->
  registry_wf (stateOf (handleRequest request c now createdNow requestId post s)).
Proof.
  intros Hwf. unfold handleRequest.
  destruct (dedupHashOf request) as [h|]; [|exact Hwf].
  destruct (duplicateOf s h now) as [[eid ep]|] eqn:Ed.
  - simpl. unfold duplicateOf in Ed.
    destruct (recentRequestHashes s !! h) as [[rid t]|]; [|discriminate].
    destruct (_ <? _); [|discriminate].
    destruct (Js.get rid (pendingRequests s)) as [p|] eqn:Hget; [|discriminate].
    injection Ed as <- <-.
    destruct (registry_wf_get s _ p Hwf Hget) as [Hid Ha].
    apply entries_wf_set; [exact Hwf | exact Hid | exact Ha].
  - destruct (if isQuestionRequest request then false else _); simpl.
    + exact Hwf.
    + apply publish_wf. exact Hwf.
Qed.

Lemma onSocketClose_wf requestId upd s :
  registry_wf s -> registry_wf (onSocketClose requestId upd s).
Proof.
  intros Hwf. unfold onSocketClose.
  destruct (Js.get _ _) as [pending|]; [|exact Hwf].
  unfold registry_wf. simpl. apply entries_wf_remove.
  destruct (slackTs pending), (slackChannel pending); try exact Hwf.
  destruct (_ && upd); exact Hwf.
Qed.

Lemma fold_left_wf {A : Type} (f : State -> A -> State) l :
  (forall s x, registry_wf s -> registry_wf (f s x)) ->
  forall s, registry_wf s -> registry_wf (fold_left f l s).
Proof.
  intros Hf. induction l as [|x l IH]; intros s Hs; simpl; [exact Hs|].
  apply IH, Hf, Hs.
Qed.

Lemma sweep_wf now s : registry_wf s -> registry_wf (sweep now s).
Proof.
  intros Hwf. unfold sweep, registry_wf. simpl.
  apply (fold_left_wf _ (pendingRequests s)); [|exact Hwf].
  intros s' entry Hs'. destruct (_ >? _); [|exact Hs'].
  unfold registry_wf. simpl. apply entries_wf_remove.
  assert (Hends : forall cs s0, pendingRequests
                                  (fold_left (fun s'' c => socket_end c s'') cs s0)
                                = pendingRequests s0).
  { intros cs s0. apply (fold_left_keeps pendingRequests). reflexivity. }
  destruct (additionalSockets (snd entry)) as [cs|]; rewrite ?Hends;
    destruct (socket (snd entry)); exact Hs'.
Qed.

(** The registry is well formed in every state the daemon can reach. *)
Lemma step_wf e s : registry_wf s -> registry_wf (step e s).
Proof.
  intros Hwf.
  destruct e as [rq c now createdNow requestId post|value upd|value upd
                 |messageTs reaction upd|msgEvent upd| | | |c upd|now];
    cbn [step].
  - pose proof (handleRequest_wf rq c now createdNow requestId post s Hwf) as H.
    destruct (handleRequest _ _ _ _ _ _ _); simpl in *; exact H.
  - unfold approveAction. destruct value as [requestId|]; [|exact Hwf].
    destruct (Js.get _ _) as [pending|]; [|exact Hwf].
    apply (registry_wf_same_or_removed s _ (id pending));
      [apply approve_pendingRequests | exact Hwf].
  - unfold denyAction. destruct value as [requestId|]; [|exact Hwf].
    destruct (Js.get _ _) as [pending|]; [|exact Hwf].
    apply (registry_wf_same_or_removed s _ (id pending));
      [apply denyRequest_pendingRequests | exact Hwf].
  - rewrite reactionAdded_target.
    destruct (reactionTarget _ _) as [pending|]; [|exact Hwf].
    destruct (Js.includes reaction approveReactions).
    { apply (registry_wf_same_or_removed s _ (id pending));
        [apply approve_pendingRequests | exact Hwf]. }
    destruct (Js.includes reaction denyReactions); [|exact Hwf].
    apply (registry_wf_same_or_removed s _ (id pending));
      [apply denyRequest_pendingRequests | exact Hwf].
  - rewrite messageHandler_target.
    destruct (messageTarget _ _) as [pending|]; [|exact Hwf].
    destruct (says approveWords _).
    { apply (registry_wf_same_or_removed s _ (id pending));
        [apply approve_pendingRequests | exact Hwf]. }
    destruct (says denyWords _); [|exact Hwf].
    apply (registry_wf_same_or_removed s _ (id pending));
      [apply denyRequest_pendingRequests | exact Hwf].
  - apply questionAction_wf, Hwf.
  - apply questionOtherSubmit_wf, Hwf.
  - apply confirmMultiselect_wf, Hwf.
  - unfold socketClosed. apply fold_left_wf; [|exact Hwf].
    intros s' l Hs'. destruct (Nat.eqb (fst l) c); [|exact Hs'].
    apply onSocketClose_wf, Hs'.
  - apply sweep_wf, Hwf.
Qed.

Lemma initial_wf : registry_wf initial.
Proof.
  split; [constructor | intros k p []].
Qed.

(** Every state reached from the initial one by handler runs. *)
Lemma run_wf (events : list Event) :
  registry_wf (fold_left (fun s e => step e s) events initial).
Proof.
  apply fold_left_wf; [|exact initial_wf].
  intros s e. apply step_wf.
Qed.

(* ===================================================================== *)
(** ** Claims that rest on the well-formed registry                       *)
(* ===================================================================== *)

(** C10: for a multi-select question of a pending question request, two
    successive clicks on the same option leave the request pending with
    the same set of selected labels as before the first click; a label
    that was not selected is not selected afterwards.  The registry is
    assumed well formed, which every reachable state is ([run_wf]). *)
Theorem toggle_twice_restores_answer_set
        (data : OptionClick) (upd1 upd2 : bool) (s : State)
        (pending : PendingRequest) (qs : list Question) (q : Question) :
  let i := data_questionIndex data in
  registry_wf s ->
  Js.get (data_requestId data) (pendingRequests s) = Some pending ->
  getQuestions (request pending) = Some qs ->
  nth_error qs i = Some q ->
  isMulti q = true ->
  data_optionIndex data <> -1 ->
  let s2 := questionAction (Some data) upd2 (questionAction (Some data) upd1 s) in
  exists pending2,
    Js.get (data_requestId data) (pendingRequests s2) = Some pending2 /\
    (forall x, In x (selectedLabels pending2 i) <-> In x (selectedLabels pending i)) /\
    (~ In (data_label data) (selectedLabels pending i) ->
     selectedLabels pending2 i = selectedLabels pending i) /\
    wire s2 = wire s.
Proof.
  intros i Hwf Hget Hqs Hnth Hm Hopt s2. subst s2.
  assert (Hnd : List.NoDup (selectedLabels pending i)).
  { destruct (registry_wf_get s _ pending Hwf Hget) as [_ Ha].
    unfold selectedLabels.
    destruct (Ans.get i (answersOf pending)) as [[str|l]|] eqn:E;
      [constructor | apply (Ha _ _ E) | constructor]. }
  rewrite (questionAction_multi data upd1 s pending qs q Hget Hqs Hnth Hm Hopt).
  fold i.
  set (a0 := answersOf pending).
  set (a1 := match currentAnswersOf (Ans.get i a0) with
             | Some cur => Ans.set i (AArr (toggle (data_label data) cur)) a0
             | None => a0
             end).
  set (s1 := with_pendingRequests s _).
  assert (Hget1 : Js.get (data_requestId data) (pendingRequests s1)
                  = Some (setAnswers pending a1)).
  { subst s1. simpl. apply get_set_eq. }
  rewrite (questionAction_multi data upd2 s1 (setAnswers pending a1) qs q
             Hget1 Hqs Hnth Hm Hopt).
  fold i. eexists. split; [simpl; apply get_set_eq|].
  unfold selectedLabels in *. fold a0 in Hnd |- *.
  rewrite !answersOf_setAnswers.
  subst a1. destruct (Ans.get i a0) as [[str|l]|] eqn:Ea; simpl.
  - (* a custom text answer is recorded *)
    destruct (String.eqb str EmptyString) eqn:Es; simpl.
    + rewrite Ans_get_set_eq. simpl. rewrite Ans_get_set_eq.
      rewrite toggle_twice_fresh by (simpl; tauto). repeat split; auto.
    + rewrite ?Ea. simpl. rewrite Es, Ea. repeat split; auto.
  - rewrite Ans_get_set_eq. simpl. rewrite Ans_get_set_eq.
    split; [apply toggle_twice, Hnd|].
    split; [apply toggle_twice_fresh | reflexivity].
  - rewrite Ans_get_set_eq. simpl. rewrite Ans_get_set_eq.
    rewrite toggle_twice_fresh by (simpl; tauto). repeat split; auto.
Qed.

Lemma toggle_twice_restores_answer_set_witness :
  exists pending2,
    Js.get "q1" (pendingRequests
                   (questionAction (Some Demo.clickA) true
                      (questionAction (Some Demo.clickA) true Demo.asked)))
    = Some pending2 /\
    selectedLabels pending2 0 = [].
Proof.
  destruct (toggle_twice_restores_answer_set
              Demo.clickA true true Demo.asked Demo.askPending [Demo.which] Demo.which)
    as (pending2 & Hget & _ & Hsame & _).
  - apply (step_wf _ initial), initial_wf.
  - reflexivity.
  - reflexivity.
  - reflexivity.
  - reflexivity.
  - simpl. lia.
  - exists pending2. split; [exact Hget|]. apply Hsame. simpl. tauto.
Defined.

(* ===================================================================== *)
(** ** Durations                                                          *)
(* ===================================================================== *)

Lemma decimal_nonempty n : exists d ds, Duration.decimal n = String d ds.
Proof.
  unfold Duration.decimal. destruct n as [|p]; simpl; [eauto|].
  pose proof (DecimalPos.Unsigned.to_uint_nonnil p) as H.
  destruct (Pos.to_uint p); simpl; eauto. contradiction.
Qed.

Lemma span_digits_numeral u c rest :
  Duration.is_digit c = false ->
  Duration.span_digits (NilEmpty.string_of_uint u +:+ String c rest)
  = (NilEmpty.string_of_uint u, String c rest).
Proof.
  intros Hc. induction u; simpl; try (rewrite IHu; reflexivity).
  rewrite Hc. reflexivity.
Qed.

Lemma round_small z : z < 2 ^ 53 -> Dbl.round z = Dbl.Finite z.
Proof.
  intros H. unfold Dbl.round. apply Z.ltb_lt in H. rewrite H. reflexivity.
Qed.

(** From [2^53] on, rounding stays at or above [2^53]. *)
Lemma round_large z :
  2 ^ 53 <= z ->
  match Dbl.round z with
  | Dbl.Finite v => 2 ^ 53 <= v
  | Dbl.Infinity => True
  end.
Proof.
  intros H. unfold Dbl.round.
  destruct (z <? 2 ^ 53) eqn:E; [apply Z.ltb_lt in E; lia|]. clear E.
  cbv zeta.
  set (e := Z.log2 z - 52).
  assert (He : 1 <= e).
  { subst e. pose proof (Z.log2_le_mono _ _ H) as Hl.
    rewrite Z.log2_pow2 in Hl by lia. lia. }
  assert (Hq : 2 ^ 52 <= Z.shiftr z e).
  { rewrite Z.shiftr_div_pow2 by lia.
    apply Z.div_le_lower_bound; [apply Z.pow_pos_nonneg; lia|].
    rewrite <- Z.pow_add_r by lia.
    replace (e + 52) with (Z.log2 z) by (subst e; lia).
    apply Z.log2_spec. lia. }
  set (q := Z.shiftr z e) in *.
  match goal with
  | |- context [if ?b then q + 1 else q] => set (q' := if b then q + 1 else q)
  end.
  assert (Hq' : 2 ^ 52 <= q').
  { subst q'. match goal with |- context [if ?b then _ else _] => destruct b end; lia. }
  destruct (Z.shiftl q' e <? 2 ^ 1024); [|exact I].
  rewrite Z.shiftl_mul_pow2 by lia.
  assert (H2 : 2 ^ 1 <= 2 ^ e) by (apply Z.pow_le_mono_r; lia).
  change (2 ^ 53) with (2 ^ 52 * 2 ^ 1).
  apply Z.mul_le_mono_nonneg; lia.
Qed.

Lemma round_nonneg z : 0 <= z -> Dbl.nonneg (Dbl.round z).
Proof.
  intros H. destruct (Z_lt_le_dec z (2 ^ 53)) as [Hlt|Hge].
  - rewrite (round_small z Hlt). exact H.
  - pose proof (round_large z Hge) as Hr.
    destruct (Dbl.round z); simpl; [|exact I].
    assert (0 <= 2 ^ 53) by (apply Z.pow_nonneg; lia). lia.
Qed.

(** A rounded value below [2^53] is the exact one. *)
Lemma round_exact z v :
  Dbl.round z = Dbl.Finite v -> v < 2 ^ 53 -> v = z.
Proof.
  intros Hr Hv. destruct (Z_lt_le_dec z (2 ^ 53)) as [Hlt|Hge].
  - rewrite (round_small z Hlt) in Hr. congruence.
  - pose proof (round_large z Hge) as H. rewrite Hr in H. lia.
Qed.

Lemma add_nonneg a b : Dbl.nonneg a -> Dbl.nonneg b -> Dbl.nonneg (Dbl.add a b).
Proof.
  destruct a as [x|], b as [y|]; simpl; try tauto.
  intros Hx Hy. apply round_nonneg. lia.
Qed.

Lemma mul_nonneg a k : Dbl.nonneg a -> 0 < k -> Dbl.nonneg (Dbl.mul a k).
Proof.
  destruct a as [x|]; simpl; [|tauto].
  intros Hx Hk. apply round_nonneg. nia.
Qed.

Lemma parseInt_decimal n :
  Duration.parseInt (Duration.decimal n) = Dbl.round (Z.of_N n).
Proof.
  unfold Duration.parseInt, Duration.decimal.
  rewrite NilEmpty.usu, DecimalN.Unsigned.of_to. reflexivity.
Qed.

(** A numeral followed by its unit is taken by the group of that unit. *)
Lemma group_taken unit n rest :
  Duration.is_digit unit = false ->
  Duration.group unit (Duration.decimal n +:+ String unit rest)
  = (Some (Dbl.round (Z.of_N n)), rest).
Proof.
  intros Hu. unfold Duration.group.
  unfold Duration.decimal at 1. rewrite (span_digits_numeral _ _ _ Hu).
  fold (Duration.decimal n).
  destruct (decimal_nonempty n) as (d & ds & E). rewrite E, <- E.
  rewrite Ascii.eqb_refl, parseInt_decimal. reflexivity.
Qed.

(** A numeral followed by another letter is left to the later groups. *)
Lemma group_left unit c n rest :
  Duration.is_digit c = false -> c <> unit ->
  Duration.group unit (Duration.decimal n +:+ String c rest)
  = (None, Duration.decimal n +:+ String c rest).
Proof.
  intros Hc Hne. unfold Duration.group.
  unfold Duration.decimal at 1. rewrite (span_digits_numeral _ _ _ Hc).
  fold (Duration.decimal n).
  destruct (decimal_nonempty n) as (d & ds & E). rewrite E, <- E.
  destruct (Ascii.eqb c unit) eqn:Eq; [|reflexivity].
  apply Ascii.eqb_eq in Eq. contradiction.
Qed.

Lemma group_empty unit : Duration.group unit EmptyString = (None, EmptyString).
Proof. reflexivity. Qed.

Lemma append_cons x a b : String x a +:+ b = String x (a +:+ b).
Proof. reflexivity. Qed.

Lemma append_nil_l b : EmptyString +:+ b = b.
Proof. reflexivity. Qed.

Lemma append_String_assoc a c b :
  (a +:+ String c EmptyString) +:+ b = a +:+ String c b.
Proof.
  induction a as [|x a IH]; [reflexivity|].
  rewrite !append_cons, IH. reflexivity.
Qed.

Lemma numeral_unit_not_zero n unit rest :
  String.eqb (Duration.decimal n +:+ String unit rest) "0" = false.
Proof.
  destruct (decimal_nonempty n) as (d & ds & ->).
  rewrite append_cons. cbn [String.eqb].
  destruct (Ascii.eqb d "0"); [|reflexivity].
  destruct ds; reflexivity.
Qed.

Lemma span_digits_numeral_end u :
  Duration.span_digits (NilEmpty.string_of_uint u) = (NilEmpty.string_of_uint u, EmptyString).
Proof. induction u; simpl; try (rewrite IHu); reflexivity. Qed.

Lemma group_nonneg unit s z rest :
  Duration.group unit s = (Some z, rest) -> Dbl.nonneg z.
Proof.
  unfold Duration.group. destruct (Duration.span_digits s) as [[|d ds] [|c tl]];
    try discriminate.
  destruct (Ascii.eqb c unit); [|discriminate].
  intros [= <- _]. unfold Duration.parseInt.
  destruct (NilEmpty.uint_of_string _); [apply round_nonneg; lia | simpl; lia].
Qed.

(** The arithmetic of [parseDuration] is exact while the total stays
    below [2^53]. *)
Lemma duration_exact (h m s : Z) :
  0 <= h -> 0 <= m -> 0 <= s ->
  (h * 3600 + m * 60 + s) * 1000 < 2 ^ 53 ->
  Dbl.mul (Dbl.add (Dbl.add (Dbl.mul (Dbl.round h) 3600) (Dbl.mul (Dbl.round m) 60))
                   (Dbl.round s)) 1000
  = Dbl.Finite ((h * 3600 + m * 60 + s) * 1000).
Proof.
  intros Hh Hm Hs. generalize (2 ^ 53) (round_small). intros B Hsmall Hb.
  rewrite (Hsmall h), (Hsmall m), (Hsmall s) by lia.
  cbn [Dbl.mul Dbl.add].
  rewrite (Hsmall (h * 3600)), (Hsmall (m * 60)) by lia.
  cbn [Dbl.mul Dbl.add].
  rewrite (Hsmall (h * 3600 + m * 60)) by lia.
  cbn [Dbl.mul Dbl.add].
  rewrite (Hsmall (h * 3600 + m * 60 + s)) by lia.
  cbn [Dbl.mul Dbl.add].
  rewrite Hsmall by lia. reflexivity.
Qed.

Lemma parseDuration_text (h m s : option N) :
  Duration.parseDuration
    (Duration.component h "h" +:+ Duration.component m "m" +:+ Duration.component s "s")
  = Some (Dbl.mul
            (Dbl.add (Dbl.add (Dbl.mul (Dbl.round (Duration.amount h)) 3600)
                              (Dbl.mul (Dbl.round (Duration.amount m)) 60))
                     (Dbl.round (Duration.amount s)))
            1000).
Proof.
  assert (Hh : Duration.is_digit "h" = false) by reflexivity.
  assert (Hm : Duration.is_digit "m" = false) by reflexivity.
  assert (Hs : Duration.is_digit "s" = false) by reflexivity.
  assert (H0 : Dbl.Finite 0 = Dbl.round 0) by reflexivity.
  unfold Duration.parseDuration.
  destruct h as [h|], m as [m|], s as [s|]; cbn [Duration.component Duration.amount];
    rewrite ?append_nil_l, ?append_String_assoc;
    rewrite ?numeral_unit_not_zero; cbn [String.eqb];
    repeat first
      [ rewrite group_taken by assumption
      | rewrite group_left by (first [assumption | discriminate])
      | rewrite group_empty ];
    cbv zeta; cbn [default]; rewrite ?H0; reflexivity.
Qed.

(** X1: every duration written as an optional number of hours, then of
    minutes, then of seconds, each with its unit, is accepted (the empty
    text included); when the sum of the components in milliseconds is
    below [2^53], where the arithmetic on doubles is exact, that sum is
    the value. *)
Theorem parseDuration_components (h m s : option N) :
  let text :=
    Duration.component h "h" +:+ Duration.component m "m" +:+ Duration.component s "s" in
  let total :=
    (Duration.amount h * 3600 + Duration.amount m * 60 + Duration.amount s) * 1000 in
  (exists value, Duration.parseDuration text = Some value) /\
  (total < 2 ^ 53 -> Duration.parseDuration text = Some (Dbl.Finite total)).
Proof.
  intros text total. subst text. rewrite parseDuration_text. split; [eauto|].
  intros Ht. f_equal. subst total.
  apply duration_exact; try exact Ht;
    [destruct h | destruct m | destruct s]; simpl; lia.
Qed.

Lemma parseDuration_components_witness :
  Duration.parseDuration "1h30m" = Some (Dbl.Finite 5400000).
Proof.
  apply (parseDuration_components (Some 1%N) (Some 30%N) None).
  reflexivity.
Defined.

(** X2: a number without a unit is not a duration, except the text 0:
    [parseDuration] throws on every other numeral. *)
Theorem parseDuration_bare_number (n : N) :
  Duration.parseDuration (Duration.decimal n)
  = if (n =? 0)%N then Some (Dbl.Finite 0) else None.
Proof.
  destruct (N.eqb_spec n 0) as [->|Hn]; [reflexivity|].
  unfold Duration.parseDuration.
  assert (String.eqb (Duration.decimal n) "0" = false) as ->.
  { destruct (String.eqb _ _) eqn:E; [|reflexivity].
    apply String.eqb_eq in E. exfalso. apply Hn.
    apply DecimalN.Unsigned.to_uint_inj.
    apply (f_equal NilEmpty.uint_of_string) in E.
    unfold Duration.decimal in E. rewrite NilEmpty.usu in E.
    injection E as ->. reflexivity. }
  assert (Hg : forall unit, Duration.group unit (Duration.decimal n)
                            = (None, Duration.decimal n)).
  { intros unit. unfold Duration.group, Duration.decimal.
    rewrite span_digits_numeral_end.
    destruct (NilEmpty.string_of_uint _); reflexivity. }
  rewrite !Hg. destruct (decimal_nonempty n) as (d & ds & ->). reflexivity.
Qed.

(** X3: the units must come in the order hours, minutes, seconds, each at
    most once: a duration with two components whose units are out of
    order or repeated makes [parseDuration] throw. *)
Theorem parseDuration_unit_order (a b : N) (u1 u2 : ascii) :
  In (u1, u2) [("m", "h"); ("s", "h"); ("s", "m"); ("h", "h"); ("m", "m"); ("s", "s")]%char ->
  Duration.parseDuration
    (Duration.component (Some a) u1 +:+ Duration.component (Some b) u2) = None.
Proof.
  assert (Hh : Duration.is_digit "h" = false) by reflexivity.
  assert (Hm : Duration.is_digit "m" = false) by reflexivity.
  assert (Hs : Duration.is_digit "s" = false) by reflexivity.
  intros Hin. simpl in Hin.
  unfold Duration.parseDuration. cbn [Duration.component].
  rewrite append_String_assoc, numeral_unit_not_zero.
  destruct (decimal_nonempty b) as (d & ds & Eb).
  repeat (destruct Hin as [[= <- <-]|Hin]); try contradiction;
    repeat first
      [ rewrite group_taken by assumption
      | rewrite group_left by (first [assumption | discriminate]) ];
    rewrite Eb; reflexivity.
Qed.

Lemma parseDuration_shape (duration : string) (ms : Z) :
  Duration.parseDuration duration = Some (Dbl.Finite ms) ->
  0 <= ms /\ (ms < 2 ^ 53 -> (1000 | ms)).
Proof.
  unfold Duration.parseDuration.
  destruct (String.eqb duration "0").
  { intros [= <-]. split; [lia | intros _; exists 0; lia]. }
  destruct (Duration.group "h" duration) as [hours r1] eqn:E1.
  destruct (Duration.group "m" r1) as [minutes r2] eqn:E2.
  destruct (Duration.group "s" r2) as [seconds r3] eqn:E3.
  destruct r3; [|discriminate]. cbv zeta. intros [= Hms].
  assert (forall o unit s r, Duration.group unit s = (o, r) ->
                             Dbl.nonneg (default (Dbl.Finite 0) o)) as Hnn.
  { intros [z|] unit s r H; simpl; [eapply group_nonneg, H | lia]. }
  pose proof (Hnn _ _ _ _ E1) as Hh. pose proof (Hnn _ _ _ _ E2) as Hm.
  pose proof (Hnn _ _ _ _ E3) as Hs.
  set (sum := Dbl.add _ _) in Hms.
  assert (Hsum : Dbl.nonneg sum).
  { subst sum. repeat first [apply add_nonneg | apply mul_nonneg]; try assumption; lia. }
  destruct sum as [x|]; [|discriminate]. simpl in Hsum, Hms.
  split.
  - pose proof (round_nonneg (x * 1000)) as H. rewrite Hms in H. apply H. lia.
  - intros Hlt. rewrite (round_exact _ _ Hms Hlt). exists x. reflexivity.
Qed.

(** X4: whatever [parseDuration] accepts, the result is never negative,
    and a result below [2^53] is a whole number of seconds. *)
Theorem parseDuration_whole_seconds (duration : string) (ms : Z) :
  Duration.parseDuration duration = Some (Dbl.Finite ms) ->
  0 <= ms /\ (ms < 2 ^ 53 -> (1000 | ms)).
Proof.
  intros H. destruct (parseDuration_shape duration ms H) as [Hnn Hdiv].
  split; [exact Hnn|]. intros Hlt. destruct (Hdiv Hlt) as [q Hq]. exists q. exact Hq.
Qed.

Lemma parseDuration_whole_seconds_witness :
  Duration.parseDuration "1m30s" = Some (Dbl.Finite 90000) /\ (1000 | 90000).
Proof.
  split; [reflexivity|].
  apply (parseDuration_whole_seconds "1m30s" 90000); reflexivity.
Defined.

Lemma parseDuration_unit_order_witness :
  Duration.parseDuration "30s1m" = None.
Proof.
  apply (parseDuration_unit_order 30 1 "s" "m"). simpl. tauto.
Defined.

(* ===================================================================== *)
(** ** The hook's command line                                            *)
(* ===================================================================== *)

Lemma parseArgsFrom_delay n :
  forall args config config',
    (length args <= n)%nat ->
    Dbl.whole_seconds (delay config) ->
    parseArgsFrom args config = Some config' ->
    Dbl.whole_seconds (delay config').
Proof.
  induction n as [|n IH]; intros args config config' Hlen Hc.
  - destruct args; [|simpl in Hlen; lia]. intros [= <-]. exact Hc.
  - destruct args as [|arg rest]; [intros [= <-]; exact Hc|].
    simpl in Hlen. cbn [parseArgsFrom].
    destruct (String.eqb arg "--delay" && truthy (List.head rest)).
    { destruct rest as [|next rest']; [intros [= <-]; exact Hc|].
      destruct (Duration.parseDuration next) as [d|] eqn:Ed; [|discriminate].
      apply IH; [simpl in Hlen; lia|]. cbn [delay].
      destruct d as [ms|]; [|exact I]. apply (parseDuration_shape next ms Ed). }
    destruct (String.eqb arg "--notify-immediately-on-lock").
    { destruct rest as [|next rest']; [intros [= <-]; exact Hc|].
      simpl in Hlen.
      destruct (String.eqb next "false"); [apply IH; [lia | exact Hc]|].
      destruct (String.eqb next "true"); apply IH; simpl; try lia; exact Hc. }
    destruct (String.eqb arg "--test"); apply IH; try lia; exact Hc.
Qed.

(** X5: whatever the command line, when [parseArgs] returns, the delay
    it returns (the default of one minute or the value of a [--delay]
    that [parseDuration] accepted) is never negative, and a delay below
    [2^53] is a whole number of seconds. *)
Theorem parseArgs_delay_whole_seconds
        (args : list string) (config : HookConfig) (ms : Z) :
  parseArgs args = Some config ->
  delay config = Dbl.Finite ms ->
  0 <= ms /\ (ms < 2 ^ 53 -> (1000 | ms)).
Proof.
  intros Hp Hd.
  assert (H : Dbl.whole_seconds (delay config)).
  { apply (parseArgsFrom_delay (length args) args
             (mkHookConfig (Dbl.Finite (60 * 1000)) true false)); [lia| |exact Hp].
    simpl. split; [lia | intros _; exists 60; lia]. }
  rewrite Hd in H. exact H.
Qed.

Lemma parseArgs_delay_whole_seconds_witness :
  parseArgs ["--notify-immediately-on-lock"; "false"; "--delay"; "5m"]
  = Some (mkHookConfig (Dbl.Finite 300000) false false) /\
  (1000 | 300000).
Proof.
  split; [reflexivity|].
  apply (parseArgs_delay_whole_seconds
           ["--notify-immediately-on-lock"; "false"; "--delay"; "5m"]
           (mkHookConfig (Dbl.Finite 300000) false false) 300000); reflexivity.
Defined.

(* ===================================================================== *)
(** ** Signals for requests that are gone                                 *)
(* ===================================================================== *)

(** X6: a signal that names a request id that is not in the registry is
    ignored by every handler: the approve and deny buttons, the
    confirmation, the option click, the custom answer, the close listener,
    and a reaction or thread reply on a message whose request is gone all
    leave the state exactly as it was. *)
Theorem unknown_request_signals_ignored (k : string) (upd : bool) (s : State) :
  Js.get k (pendingRequests s) = None ->
  approveAction (Some k) upd s = s /\
  denyAction (Some k) upd s = s /\
  confirmMultiselect (Some k) upd s = s /\
  (forall data, data_requestId data = k -> questionAction (Some data) upd s = s) /\
  (forall view, metadata_requestId view = k -> questionOtherSubmit view upd s = s) /\
  onSocketClose k upd s = s /\
  (forall messageTs reaction,
      tsToPendingId s !! messageTs = Some k ->
      reactionAdded messageTs reaction upd s = s) /\
  (forall msgEvent ts,
      thread_ts msgEvent = Some ts -> ts <> EmptyString ->
      tsToPendingId s !! ts = Some k ->
      messageHandler msgEvent upd s = s).
Proof.
  intros Hget.
  split; [unfold approveAction; rewrite Hget; reflexivity|].
  split; [unfold denyAction; rewrite Hget; reflexivity|].
  split; [unfold confirmMultiselect; rewrite Hget; reflexivity|].
  split; [intros data <-; unfold questionAction; rewrite Hget; reflexivity|].
  split; [intros view <-; unfold questionOtherSubmit; rewrite Hget; reflexivity|].
  split; [unfold onSocketClose; rewrite Hget; reflexivity|].
  split.
  - intros messageTs reaction Hts. rewrite reactionAdded_target.
    unfold reactionTarget. rewrite Hts, Hget.
    destruct (truthy (Some k)); reflexivity.
  - intros msgEvent ts Hth Hne Hts. rewrite messageHandler_target.
    unfold messageTarget. rewrite Hth.
    destruct (truthy (subtype msgEvent) || truthy (bot_id msgEvent)); [reflexivity|].
    assert (truthy (Some ts) = true) as ->.
    { simpl. destruct (String.eqb ts EmptyString) eqn:E; [|reflexivity].
      apply String.eqb_eq in E. contradiction. }
    rewrite Hts, Hget. destruct (truthy (Some k)); reflexivity.
Qed.

Lemma unknown_request_signals_ignored_witness :
  let s := step (EvClose 1%nat true) Demo.posted in
  approveAction (Some "r1") true s = s /\
  reactionAdded "111.1" "+1" true s = s.
Proof.
  intros s.
  destruct (unknown_request_signals_ignored "r1" true s) as (Ha & _ & _ & _ & _ & _ & Hr & _).
  - reflexivity.
  - split; [exact Ha|]. apply Hr. reflexivity.
Defined.

(* ===================================================================== *)
(** ** Decisions on approval requests                                     *)
(* ===================================================================== *)

(** The reply lines of an approval request. *)
Lemma buildHookOutput_permission pending decision a :
  isQuestion pending = false ->
  buildHookOutput pending decision a =
  Some (JObj [("hookSpecificOutput",
               JObj [("hookEventName", JStr "PermissionRequest");
                     ("decision",
                      JObj (match decision with
                            | allow => [("behavior", JStr "allow")]
                            | deny => [("behavior", JStr "deny");
                                       ("message", JStr "Denied via Slack")]
                            end))])]).
Proof. intros H. unfold buildHookOutput. rewrite H. reflexivity. Qed.

(** With a typed approval request and a Slack call that goes through,
    the update step does not throw and touches neither the wire nor the
    maps. *)
Lemma updateResult_ok pending r status s :
  request pending = ReqPermission r ->
  exists s1, updateResult pending status true s = Some s1 /\
             wire s1 = wire s /\
             pendingRequests s1 = pendingRequests s /\
             sessionApprovals s1 = sessionApprovals s /\
             recentRequestHashes s1 = recentRequestHashes s /\
             tsToPendingId s1 = tsToPendingId s /\
             closeListeners s1 = closeListeners s.
Proof.
  intros Hr. unfold updateResult. rewrite Hr.
  destruct (slackTs pending) as [ts|], (slackChannel pending) as [ch|];
    try destruct (truthy (Some ts) && truthy (Some ch));
    eexists; (split; [reflexivity|]); repeat split.
Qed.

(** What a delivered approval or denial of an approval request does. *)
Lemma approve_delivered pending r s :
  request pending = ReqPermission r -> isQuestion pending = false ->
  let s' := approve pending true s in
  wire s' = wire s ++ replies (Js.stringify None cacheResponse +:+ newline)
                              (connections pending) /\
  pendingRequests s' = Js.remove (id pending) (pendingRequests s) /\
  recentRequestHashes s' = recentRequestHashes s /\
  closeListeners s' = closeListeners s /\
  sessionApprovals s' =
    sessionApprovals (cacheApproval (pr_session_id r)
                        (createRequestHash (tool_name r) (tool_input r)) s).
Proof.
  intros Hr Hq s'. subst s'. unfold approve. rewrite Hr. cbn [requestHash session_id].
  set (s0 := cacheApproval _ _ s).
  destruct (updateResult_ok pending r Approved s0 Hr)
    as (s1 & -> & Hw & Hp & Ha & Hh & _ & Hc).
  destruct (sendResponse_fields pending allow None _ s1
              (buildHookOutput_permission pending allow None Hq))
    as (Hw' & Hp' & _ & Ha' & Hh' & Hc' & _).
  rewrite Hw', Hp', Ha', Hh', Hc', Hw, Hp, Ha, Hh, Hc. repeat split.
Qed.

Lemma deny_delivered pending r s :
  request pending = ReqPermission r -> isQuestion pending = false ->
  let s' := denyRequest pending true s in
  wire s' = wire s ++
            replies (Js.stringify None
                       (JObj [("hookSpecificOutput",
                               JObj [("hookEventName", JStr "PermissionRequest");
                                     ("decision",
                                      JObj [("behavior", JStr "deny");
                                            ("message", JStr "Denied via Slack")])])])
                     +:+ newline)
                    (connections pending) /\
  pendingRequests s' = Js.remove (id pending) (pendingRequests s) /\
  sessionApprovals s' = sessionApprovals s.
Proof.
  intros Hr Hq s'. subst s'. unfold denyRequest.
  destruct (updateResult_ok pending r Denied s Hr)
    as (s1 & -> & Hw & Hp & Ha & _).
  destruct (sendResponse_fields pending deny None _ s1
              (buildHookOutput_permission pending deny None Hq))
    as (Hw' & Hp' & _ & Ha' & _).
  rewrite Hw', Hp', Ha', Hw, Hp, Ha. repeat split.
Qed.

(** X7: the first delivered decision wins.  In a well-formed registry, an
    approve (or deny) button click on a pending approval request, with
    the Slack update going through, writes the allow (or deny) line once
    to every attached connection and removes the request; an approve or
    deny click for the same id whose handler starts after that run has
    sent its response finds no request and changes nothing.  (Two runs
    that overlap while one awaits the Slack update are not covered.) *)
Theorem first_decision_wins
        (k : string) (s : State) (pending : PendingRequest) (r : PermissionRequest)
        (decision : Decision) :
  registry_wf s ->
  Js.get k (pendingRequests s) = Some pending ->
  request pending = ReqPermission r ->
  isQuestion pending = false ->
  let s1 := match decision with
            | allow => approveAction (Some k) true s
            | deny => denyAction (Some k) true s
            end in
  (exists response,
      buildHookOutput pending decision None = Some response /\
      wire s1 = wire s ++ replies (Js.stringify None response +:+ newline)
                                  (connections pending)) /\
  Js.get k (pendingRequests s1) = None /\
  (forall upd, approveAction (Some k) upd s1 = s1) /\
  (forall upd, denyAction (Some k) upd s1 = s1).
Proof.
  intros Hwf Hget Hr Hq s1.
  destruct (registry_wf_get s k pending Hwf Hget) as [Hid _].
  assert (Hgone : Js.get k (pendingRequests s1) = None).
  { subst s1. destruct decision.
    - unfold approveAction. rewrite Hget.
      destruct (approve_delivered pending r s Hr Hq) as (_ & -> & _).
      rewrite Hid. apply get_remove_eq.
    - unfold denyAction. rewrite Hget.
      destruct (deny_delivered pending r s Hr Hq) as (_ & -> & _).
      rewrite Hid. apply get_remove_eq. }
  split.
  { rewrite (buildHookOutput_permission pending decision None Hq).
    eexists. split; [reflexivity|]. subst s1. destruct decision.
    - unfold approveAction. rewrite Hget.
      apply (approve_delivered pending r s Hr Hq).
    - unfold denyAction. rewrite Hget.
      apply (deny_delivered pending r s Hr Hq). }
  split; [exact Hgone|].
  split; intros upd; unfold approveAction, denyAction; rewrite Hgone; reflexivity.
Qed.

Lemma first_decision_wins_witness :
  let s1 := approveAction (Some "r1") true Demo.posted in
  Js.get "r1" (pendingRequests s1) = None /\
  denyAction (Some "r1") true s1 = s1.
Proof.
  intros s1.
  destruct (first_decision_wins "r1" Demo.posted Demo.pending
              (mkPermissionRequest "PermissionRequest" "Bash"
                                   [("command", JStr "echo hi")] "s1") allow)
    as (_ & Hg & _ & Hd).
  - apply (step_wf _ initial), initial_wf.
  - reflexivity.
  - reflexivity.
  - reflexivity.
  - split; [exact Hg | apply Hd].
Defined.

(** X8: an approval is remembered.  After an approve click on a pending
    approval request was delivered, the same request submitted again in
    the same session, when the dedup index names no other request for its
    fingerprint, is answered at once with the allow line on its own
    connection: no pending request is created and no prompt is published. *)
Theorem approved_request_is_auto_granted
        (k : string) (s : State) (pending : PendingRequest) (r : PermissionRequest)
        (c : Socket) (now createdNow : Z) (requestId : string) (post : PostOutcome) :
  let hash := createRequestHash (tool_name r) (tool_input r) in
  registry_wf s ->
  Js.get k (pendingRequests s) = Some pending ->
  request pending = ReqPermission r ->
  isQuestion pending = false ->
  isQuestionRequest (ReqPermission r) = false ->
  (forall id0 t0,
      recentRequestHashes s !! ("p:" +:+ pr_session_id r +:+ ":" +:+ hash) = Some (id0, t0) ->
      id0 = k) ->
  let s1 := approveAction (Some k) true s in
  exists s2,
    handleRequest (ReqPermission r) c now createdNow requestId post s1 = Returned s2 /\
    wire s2 = wire s1 ++ [(c, Write (Js.stringify None cacheResponse +:+ newline)); (c, End)] /\
    pendingRequests s2 = pendingRequests s1 /\
    slack s2 = slack s1.
Proof.
  intros hash Hwf Hget Hr Hq Hnq Hidx s1.
  destruct (registry_wf_get s k pending Hwf Hget) as [Hid _].
  assert (Hs1 : s1 = approve pending true s).
  { subst s1. unfold approveAction. rewrite Hget. reflexivity. }
  destruct (approve_delivered pending r s Hr Hq) as (_ & Hp & Hh & _ & Ha).
  rewrite <- Hs1 in Hp, Hh, Ha.
  unfold handleRequest, dedupHashOf. rewrite Hnq. cbn [requestHash session_id option_map].
  fold hash.
  assert (Hdup : duplicateOf s1 ("p:" +:+ pr_session_id r +:+ ":" +:+ hash) now = None).
  { unfold duplicateOf. rewrite Hh.
    destruct (recentRequestHashes s !! _) as [[id0 t0]|] eqn:E; [|reflexivity].
    rewrite (Hidx id0 t0 eq_refl), Hp, Hid, get_remove_eq.
    destruct (_ <? _); reflexivity. }
  rewrite Hdup.
  assert (Hhit : approved s1 (pr_session_id r) hash = true).
  { apply approved_cacheOf.
    assert (cacheOf s1 (pr_session_id r)
            = cacheOf (cacheApproval (pr_session_id r) hash s) (pr_session_id r)) as ->
        by (unfold cacheOf; rewrite Ha; reflexivity).
    rewrite cacheOf_cacheApproval. destruct (decide _); [|contradiction].
    apply elem_of_union_l, elem_of_singleton. reflexivity. }
  unfold approved in *. simpl. rewrite Hhit.
  eexists. split; [reflexivity|]. simpl. rewrite <- app_assoc. repeat split.
Qed.

Lemma approved_request_is_auto_granted_witness :
  let s1 := approveAction (Some "r1") true Demo.posted in
  exists s2,
    handleRequest Demo.bash 9%nat 2000 2000 "r9" PostFailed s1 = Returned s2 /\
    pendingRequests s2 = pendingRequests s1.
Proof.
  intros s1.
  destruct (approved_request_is_auto_granted "r1" Demo.posted Demo.pending
              (mkPermissionRequest "PermissionRequest" "Bash"
                                   [("command", JStr "echo hi")] "s1")
              9%nat 2000 2000 "r9" PostFailed)
    as (s2 & Hr & _ & Hp & _).
  - apply (step_wf _ initial), initial_wf.
  - reflexivity.
  - reflexivity.
  - reflexivity.
  - reflexivity.
  - intros id0 t0. vm_compute. intros [= <- _]. reflexivity.
  - exists s2. split; assumption.
Defined.

(* ===================================================================== *)
(** ** Reactions and thread replies                                       *)
(* ===================================================================== *)

(** X9: a reaction on a published prompt, and a thread reply of a human
    under it, act on the request recorded for that message, whatever the
    channel and whatever else is pending: an approving reaction or word
    does what the approve button of that request does, a denying one what
    the deny button does, and any other reaction changes nothing. *)
Theorem reaction_and_thread_reply_act_as_buttons
        (ts k : string) (upd : bool) (s : State) (pending : PendingRequest) :
  tsToPendingId s !! ts = Some k ->
  k <> EmptyString ->
  Js.get k (pendingRequests s) = Some pending ->
  isQuestion pending = false ->
  (forall reaction,
      reactionAdded ts reaction upd s =
      if Js.includes reaction approveReactions then approveAction (Some k) upd s
      else if Js.includes reaction denyReactions then denyAction (Some k) upd s
      else s) /\
  (forall msgEvent,
      thread_ts msgEvent = Some ts -> ts <> EmptyString ->
      truthy (subtype msgEvent) = false -> truthy (bot_id msgEvent) = false ->
      messageHandler msgEvent upd s =
      if says approveWords (text msgEvent) then approveAction (Some k) upd s
      else if says denyWords (text msgEvent) then denyAction (Some k) upd s
      else s).
Proof.
  intros Hts Hk Hget Hq.
  assert (Htk : truthy (Some k) = true).
  { simpl. destruct (String.eqb k EmptyString) eqn:E; [|reflexivity].
    apply String.eqb_eq in E. contradiction. }
  split.
  - intros reaction. unfold reactionAdded, approveAction, denyAction.
    rewrite Hts, Htk, Hget, Hq. reflexivity.
  - intros msgEvent Hth Hne Hsub Hbot.
    assert (truthy (Some ts) = true) as Htt.
    { simpl. destruct (String.eqb ts EmptyString) eqn:E; [|reflexivity].
      apply String.eqb_eq in E. contradiction. }
    unfold messageHandler, approveAction, denyAction.
    rewrite Hsub, Hbot, Hth, Htt, Hts, Htk. simpl. rewrite Hget, Hq. reflexivity.
Qed.

Lemma reaction_and_thread_reply_act_as_buttons_witness :
  reactionAdded "111.1" "white_check_mark" true Demo.posted
  = approveAction (Some "r1") true Demo.posted /\
  messageHandler (mkMessageEvent "C9" (Some "No") (Some "111.1") None None) true Demo.posted
  = denyAction (Some "r1") true Demo.posted.
Proof.
  destruct (reaction_and_thread_reply_act_as_buttons
              "111.1" "r1" true Demo.posted Demo.pending) as [Hr Hm].
  - reflexivity.
  - discriminate.
  - reflexivity.
  - reflexivity.
  - split.
    + apply (Hr "white_check_mark").
    + apply (Hm (mkMessageEvent "C9" (Some "No") (Some "111.1") None None));
        (reflexivity || discriminate).
Defined.

(** X10: a question request is never resolved by a reaction or by a
    text message: a reaction on its prompt and a thread reply under its
    prompt leave the whole state as it was, whatever the emoji or the
    text. *)
Theorem question_ignores_reactions_and_replies
        (ts k : string) (upd : bool) (s : State) (pending : PendingRequest) :
  tsToPendingId s !! ts = Some k ->
  Js.get k (pendingRequests s) = Some pending ->
  isQuestion pending = true ->
  (forall reaction, reactionAdded ts reaction upd s = s) /\
  (forall msgEvent,
      thread_ts msgEvent = Some ts -> ts <> EmptyString ->
      messageHandler msgEvent upd s = s).
Proof.
  intros Hts Hget Hq. split.
  - intros reaction. rewrite reactionAdded_target. unfold reactionTarget.
    rewrite Hts, Hget, Hq. destruct (truthy (Some k)); reflexivity.
  - intros msgEvent Hth Hne. rewrite messageHandler_target. unfold messageTarget.
    rewrite Hth.
    destruct (truthy (subtype msgEvent) || truthy (bot_id msgEvent)); [reflexivity|].
    assert (truthy (Some ts) = true) as ->.
    { simpl. destruct (String.eqb ts EmptyString) eqn:E; [|reflexivity].
      apply String.eqb_eq in E. contradiction. }
    rewrite Hts, Hget, Hq. destruct (truthy (Some k)); reflexivity.
Qed.

Lemma question_ignores_reactions_and_replies_witness :
  reactionAdded "222.2" "+1" true Demo.asked = Demo.asked /\
  messageHandler (mkMessageEvent "C1" (Some "yes") (Some "222.2") None None) true Demo.asked
  = Demo.asked.
Proof.
  destruct (question_ignores_reactions_and_replies
              "222.2" "q1" true Demo.asked Demo.askPending) as [Hr Hm].
  - reflexivity.
  - reflexivity.
  - reflexivity.
  - split; [apply Hr | apply Hm; [reflexivity | discriminate]].
Defined.

(* ===================================================================== *)
(** ** The sweep                                                          *)
(* ===================================================================== *)

(** The connections of a request are ended one by one. *)
Lemma end_all_fields cs :
  forall s0,
    let s' := fold_left (fun s'' c => socket_end c s'') cs s0 in
    pendingRequests s' = pendingRequests s0 /\
    wire s' = wire s0 ++ List.map (fun c => (c, End)) cs /\
    sessionApprovals s' = sessionApprovals s0 /\
    recentRequestHashes s' = recentRequestHashes s0 /\
    slack s' = slack s0.
Proof.
  induction cs as [|c cs IH]; intros s0; simpl.
  - rewrite app_nil_r. repeat split.
  - destruct (IH (socket_end c s0)) as (Hp & Hw & Ha & Hr & Hs).
    rewrite Hp, Ha, Hr, Hs, Hw. simpl. rewrite <- app_assoc. repeat split.
Qed.

(** What the eviction of one stale request does. *)
Lemma evict_fields entry s0 :
  let s1 := match socket (snd entry) with
            | Some c => socket_end c s0
            | None => s0
            end in
  let s2 := match additionalSockets (snd entry) with
            | Some cs => fold_left (fun s'' c => socket_end c s'') cs s1
            | None => s1
            end in
  let s3 := with_pendingRequests s2 (Js.remove (fst entry) (pendingRequests s2)) in
  pendingRequests s3 = Js.remove (fst entry) (pendingRequests s0) /\
  wire s3 = wire s0 ++ List.map (fun c => (c, End)) (connections (snd entry)) /\
  sessionApprovals s3 = sessionApprovals s0 /\
  recentRequestHashes s3 = recentRequestHashes s0 /\
  slack s3 = slack s0.
Proof.
  intros s1 s2 s3. unfold connections.
  assert (H1 : pendingRequests s1 = pendingRequests s0 /\
               wire s1 = wire s0 ++
                         List.map (fun c => (c, End))
                                  (match socket (snd entry) with
                                   | Some c => [c]
                                   | None => []
                                   end) /\
               sessionApprovals s1 = sessionApprovals s0 /\
               recentRequestHashes s1 = recentRequestHashes s0 /\
               slack s1 = slack s0).
  { subst s1. destruct (socket (snd entry)) as [c|]; simpl;
      rewrite ?app_nil_r; repeat split. }
  clearbody s1. destruct H1 as (Hp1 & Hw1 & Ha1 & Hr1 & Hs1).
  assert (H2 : pendingRequests s2 = pendingRequests s0 /\
               wire s2 = wire s1 ++
                         List.map (fun c => (c, End))
                                  (match additionalSockets (snd entry) with
                                   | Some cs => cs
                                   | None => []
                                   end) /\
               sessionApprovals s2 = sessionApprovals s0 /\
               recentRequestHashes s2 = recentRequestHashes s0 /\
               slack s2 = slack s0).
  { subst s2. destruct (additionalSockets (snd entry)) as [cs|].
    - destruct (end_all_fields cs s1) as (Hp & Hw & Ha & Hr & Hs).
      rewrite Hp, Ha, Hr, Hs, Hw. repeat split; assumption.
    - simpl. rewrite app_nil_r. repeat split; assumption. }
  clearbody s2. destruct H2 as (Hp2 & Hw2 & Ha2 & Hr2 & Hs2).
  subst s3. simpl. rewrite Hp2, Hw2, Hw1, List.map_app, <- app_assoc.
  repeat split; assumption.
Qed.

(** The first loop of the sweep, for any function [F] that is its body. *)
Lemma sweep_loop_fields now (F : State -> string * PendingRequest -> State) :
  (forall s0 entry,
      F s0 entry =
      if stale now (snd entry) then
        with_pendingRequests
          (match additionalSockets (snd entry) with
           | Some cs =>
               fold_left (fun s'' c => socket_end c s'') cs
                         (match socket (snd entry) with
                          | Some c => socket_end c s0
                          | None => s0
                          end)
           | None => match socket (snd entry) with
                     | Some c => socket_end c s0
                     | None => s0
                     end
           end)
          (Js.remove (fst entry)
             (pendingRequests
                (match additionalSockets (snd entry) with
                 | Some cs =>
                     fold_left (fun s'' c => socket_end c s'') cs
                               (match socket (snd entry) with
                                | Some c => socket_end c s0
                                | None => s0
                                end)
                 | None => match socket (snd entry) with
                           | Some c => socket_end c s0
                           | None => s0
                           end
                 end)))
      else s0) ->
  forall entries s0,
    let s' := fold_left F entries s0 in
    pendingRequests s' =
      fold_left (fun acc entry =>
                   if stale now (snd entry) then Js.remove (fst entry) acc else acc)
                entries (pendingRequests s0) /\
    wire s' = wire s0 ++ flat_map (fun entry => sweepEnds now (snd entry)) entries /\
    sessionApprovals s' = sessionApprovals s0 /\
    recentRequestHashes s' = recentRequestHashes s0 /\
    slack s' = slack s0.
Proof.
  intros HF. induction entries as [|entry entries IH]; intros s0; cbn [fold_left flat_map].
  - rewrite app_nil_r. repeat split.
  - destruct (IH (F s0 entry)) as (Hp & Hw & Ha & Hr & Hs).
    rewrite Hp, Ha, Hr, Hs, Hw. clear Hp Ha Hr Hs Hw IH.
    assert (Hse : sweepEnds now (snd entry) =
                  if stale now (snd entry)
                  then List.map (fun c => (c, End)) (connections (snd entry))
                  else []) by reflexivity.
    rewrite HF, Hse. destruct (stale now (snd entry)).
    + destruct (evict_fields entry s0) as (Hp & Hw & Ha & Hr & Hs).
      cbv zeta in Hp, Hw, Ha, Hr, Hs.
      rewrite Hp, Ha, Hr, Hs, Hw, <- app_assoc. repeat split.
    + repeat split.
Qed.

Lemma get_after_removals now entries :
  forall (acc : list (string * PendingRequest)) k,
    Js.get k (fold_left (fun acc entry =>
                           if stale now (snd entry) then Js.remove (fst entry) acc else acc)
                        entries acc)
    = if existsb (fun entry => String.eqb (fst entry) k && stale now (snd entry)) entries
      then None else Js.get k acc.
Proof.
  induction entries as [|entry entries IH]; intros acc k; simpl; [reflexivity|].
  rewrite IH.
  destruct (existsb _ entries); [rewrite orb_true_r; reflexivity|].
  rewrite orb_false_r.
  destruct (stale now (snd entry)); [|rewrite andb_false_r; reflexivity].
  rewrite andb_true_r.
  destruct (String.eqb (fst entry) k) eqn:E.
  - apply String.eqb_eq in E. subst k. apply get_remove_eq.
  - apply String.eqb_neq in E. apply get_remove_ne. exact E.
Qed.

Lemma existsb_at_key {A : Type} (f : A -> bool) (entries : list (string * A)) k v :
  List.NoDup (Js.keys entries) -> In (k, v) entries ->
  existsb (fun entry => String.eqb (fst entry) k && f (snd entry)) entries = f v.
Proof.
  induction entries as [|[k0 v0] entries IH]; simpl; [tauto|].
  intros Hnd. apply List.NoDup_cons_iff in Hnd as [Hk Hnd].
  intros [[= -> ->]|Hin].
  - rewrite String.eqb_refl. simpl.
    destruct (f v); [reflexivity|]. simpl.
    apply not_true_is_false. intros H. apply existsb_exists in H as [[k1 v1] [Hin H]].
    apply andb_true_iff in H as [H _]. apply String.eqb_eq in H. simpl in H. subst k1.
    apply Hk. apply (in_map fst) in Hin. exact Hin.
  - destruct (String.eqb k0 k) eqn:E.
    + apply String.eqb_eq in E. subst k0. exfalso. apply Hk.
      apply (in_map fst) in Hin. exact Hin.
    + simpl. apply IH; assumption.
Qed.

Lemma existsb_no_key {A : Type} (f : A -> bool) (entries : list (string * A)) k :
  Js.get k entries = None ->
  existsb (fun entry => String.eqb (fst entry) k && f (snd entry)) entries = false.
Proof.
  induction entries as [|[k0 v0] entries IH]; simpl; [reflexivity|].
  destruct (String.eqb k0 k); [discriminate|]. simpl. exact IH.
Qed.

(** X11: the sweep evicts exactly the stale requests.  In a well-formed
    registry, a request created more than two hours before [now] is
    removed and every other request stays as it is; every connection of
    an evicted request is ended, in registry order and the creating
    connection first, and nothing else is put on the wire (no reply
    line); no Slack call is made and the approval cache is untouched; the dedup
    index keeps exactly the entries that are at most 30 seconds old; and a
    later button click for an evicted request changes nothing. *)
Theorem sweep_evicts_stale_requests (now : Z) (s : State) :
  registry_wf s ->
  let s' := sweep now s in
  (forall k pending,
      Js.get k (pendingRequests s) = Some pending ->
      Js.get k (pendingRequests s') =
      if now - createdAt pending >? twoHours then None else Some pending) /\
  (forall k, Js.get k (pendingRequests s) = None ->
             Js.get k (pendingRequests s') = None) /\
  wire s' = wire s ++
            flat_map (fun entry => sweepEnds now (snd entry)) (pendingRequests s) /\
  slack s' = slack s /\
  sessionApprovals s' = sessionApprovals s /\
  (forall h requestId t,
      recentRequestHashes s' !! h = Some (requestId, t) <->
      recentRequestHashes s !! h = Some (requestId, t) /\ now - t <= DEDUP_WINDOW_MS) /\
  (forall k pending upd,
      Js.get k (pendingRequests s) = Some pending ->
      now - createdAt pending > twoHours ->
      approveAction (Some k) upd s' = s' /\ denyAction (Some k) upd s' = s').
Proof.
  intros Hwf s'. unfold sweep in s'.
  match goal with
  | s' := context [fold_left ?F (pendingRequests s) s] |- _ =>
      destruct (sweep_loop_fields now F (fun s0 entry => eq_refl) (pendingRequests s) s)
        as (Hp & Hw & Ha & Hr & Hs)
  end.
  assert (Hp' : pendingRequests s' =
                fold_left (fun acc entry =>
                             if stale now (snd entry) then Js.remove (fst entry) acc else acc)
                          (pendingRequests s) (pendingRequests s)).
  { subst s'. simpl. exact Hp. }
  assert (Hkeep : forall k pending,
             Js.get k (pendingRequests s) = Some pending ->
             Js.get k (pendingRequests s') =
             if now - createdAt pending >? twoHours then None else Some pending).
  { intros k pending Hget. rewrite Hp', get_after_removals.
    rewrite (existsb_at_key (stale now) _ k pending (proj1 Hwf) (get_In _ _ _ Hget)).
    unfold stale. destruct (_ >? _); [reflexivity | exact Hget]. }
  split; [exact Hkeep|].
  split.
  { intros k Hget. rewrite Hp', get_after_removals, existsb_no_key by exact Hget.
    exact Hget. }
  split; [subst s'; simpl; exact Hw|].
  split; [subst s'; simpl; exact Hs|].
  split; [subst s'; simpl; exact Ha|].
  split.
  { intros h requestId t. subst s'. cbn [recentRequestHashes with_recentRequestHashes].
    rewrite Hr, map_lookup_filter_Some. simpl. split; intros [H1 H2]; (split; [exact H1 | lia]). }
  intros k pending upd Hget Hstale.
  assert (Hgone : Js.get k (pendingRequests s') = None).
  { rewrite (Hkeep k pending Hget).
    destruct (_ >? _) eqn:E; [reflexivity|]. rewrite Z.gtb_ltb in E.
    apply Z.ltb_ge in E. lia. }
  unfold approveAction, denyAction. rewrite Hgone. split; reflexivity.
Qed.

Lemma sweep_evicts_stale_requests_witness :
  (Js.get "r1" (pendingRequests (sweep 7201001 Demo.posted)) = None /\
   wire (sweep 7201001 Demo.posted) = [(1%nat, End)]) /\
  Js.get "r1" (pendingRequests (sweep 7201000 Demo.posted)) = Some Demo.pending.
Proof.
  split.
  - destruct (sweep_evicts_stale_requests 7201001 Demo.posted) as (Hk & _ & Hw & _).
    + apply (step_wf _ initial), initial_wf.
    + split; [apply (Hk "r1" Demo.pending); reflexivity | exact Hw].
  - destruct (sweep_evicts_stale_requests 7201000 Demo.posted) as (Hk & _).
    + apply (step_wf _ initial), initial_wf.
    + apply (Hk "r1" Demo.pending). reflexivity.
Defined.

(* ===================================================================== *)
(** ** New requests: failures and edges                                   *)
(* ===================================================================== *)

(** [handleRequest] past the duplicate check, when there is no cache
    hit. *)
Lemma handleRequest_fresh request c now createdNow requestId post s h :
  dedupHashOf request = Some h ->
  duplicateOf s h now = None ->
  (isQuestionRequest request = false ->
   forall hash, requestHash request = Some hash ->
                hash ∉ cacheOf s (session_id request)) ->
  handleRequest request c now createdNow requestId post s =
  Returned (publish request c createdNow requestId post (isQuestionRequest request)
              (with_recentRequestHashes s
                 (<[h := (requestId, now)]> (recentRequestHashes s)))).
Proof.
  intros Hh Hd Hmiss. unfold handleRequest. rewrite Hh, Hd.
  destruct (isQuestionRequest request) eqn:Hq; [reflexivity|].
  destruct (requestHash request) as [hash|] eqn:Er; [|reflexivity].
  destruct (approved _ _ _) eqn:Ea; [|reflexivity].
  exfalso. apply (Hmiss eq_refl hash eq_refl).
  apply approved_cacheOf. exact Ea.
Qed.

(** X12: failing closed.  When a new request (no duplicate attach, no
    cache hit, at least one question if it is a question request) cannot
    be published because the Slack call is rejected, the daemon writes
    the deny reply of the request's kind to the connection, ends it, and
    keeps no pending request for it; no Slack call is recorded, the
    approval cache and every other pending request are untouched. *)
Theorem publish_failure_denies
        (request0 : Request) (c : Socket) (now createdNow : Z) (requestId h : string)
        (s : State) :
  dedupHashOf request0 = Some h ->
  duplicateOf s h now = None ->
  (isQuestionRequest request0 = false ->
   forall hash, requestHash request0 = Some hash ->
                hash ∉ cacheOf s (session_id request0)) ->
  (isQuestionRequest request0 = true -> getQuestions request0 <> Some []) ->
  exists s',
    handleRequest request0 c now createdNow requestId PostFailed s = Returned s' /\
    wire s' = wire s ++
              [(c, Write (Js.stringify None
                            (publishFailureReply (isQuestionRequest request0)) +:+ newline));
               (c, End)] /\
    Js.get requestId (pendingRequests s') = None /\
    (forall k, k <> requestId ->
               Js.get k (pendingRequests s') = Js.get k (pendingRequests s)) /\
    slack s' = slack s /\
    sessionApprovals s' = sessionApprovals s.
Proof.
  intros Hh Hd Hmiss Hne.
  rewrite (handleRequest_fresh _ _ _ _ _ _ _ _ Hh Hd Hmiss).
  eexists. split; [reflexivity|].
  unfold publish, publishFailed.
  assert (Hfields :
    forall isQ,
      isQ = isQuestionRequest request0 ->
      let pending := mkPendingRequest requestId (Some c) None request0 None None
                                      createdNow isQ None in
      buildHookOutput pending deny None = Some (publishFailureReply isQ)).
  { intros isQ _. destruct isQ; reflexivity. }
  destruct (isQuestionRequest request0) eqn:Hq.
  - specialize (Hne eq_refl).
    destruct (getQuestions request0) as [[|q qs]|] eqn:Eg.
    + contradiction.
    + rewrite (Hfields true eq_refl). simpl. rewrite <- app_assoc. simpl.
      split; [reflexivity|]. split; [apply get_remove_eq|].
      split; [|split; reflexivity].
      intros k Hk. rewrite get_remove_ne, get_set_ne by congruence. reflexivity.
    + unfold dedupHashOf in Hh. rewrite Hq, Eg in Hh. discriminate Hh.
  - rewrite (Hfields false eq_refl). simpl. rewrite <- app_assoc. simpl.
    split; [reflexivity|]. split; [apply get_remove_eq|].
    split; [|split; reflexivity].
    intros k Hk. rewrite get_remove_ne, get_set_ne by congruence. reflexivity.
Qed.

Lemma publish_failure_denies_witness :
  exists s',
    handleRequest Demo.bash 1%nat 1000 1000 "r1" PostFailed initial = Returned s' /\
    pendingRequests s' = [] /\
    slack s' = [].
Proof.
  destruct (publish_failure_denies Demo.bash 1%nat 1000 1000 "r1"
              ("p:s1:" +:+ createRequestHash "Bash" [("command", JStr "echo hi")])
              initial)
    as (s' & Hr & _ & _ & _ & Hs & _).
  - reflexivity.
  - reflexivity.
  - intros _ hash _. apply not_elem_of_empty.
  - intros H. discriminate H.
  - exists s'. split; [exact Hr|]. split; [|exact Hs].
    revert Hr. vm_compute. intros [= <-]. reflexivity.
Defined.

(** X13: a question request without questions is answered at once.  It
    gets the allow line with the reason that there are no questions on its
    connection, which is ended; nothing stays pending under its id, no
    prompt is published and no close listener is registered. *)
Theorem empty_question_request_allowed
        (request0 : Request) (c : Socket) (now createdNow : Z) (requestId h : string)
        (post : PostOutcome) (s : State) :
  isQuestionRequest request0 = true ->
  getQuestions request0 = Some [] ->
  dedupHashOf request0 = Some h ->
  duplicateOf s h now = None ->
  exists s',
    handleRequest request0 c now createdNow requestId post s = Returned s' /\
    wire s' = wire s ++ [(c, Write (Js.stringify None emptyResponse +:+ newline)); (c, End)] /\
    Js.get requestId (pendingRequests s') = None /\
    (forall k, k <> requestId ->
               Js.get k (pendingRequests s') = Js.get k (pendingRequests s)) /\
    slack s' = slack s /\
    closeListeners s' = closeListeners s.
Proof.
  intros Hq Hg Hh Hd.
  rewrite (handleRequest_fresh _ _ _ _ _ _ _ _ Hh Hd)
    by (intros Hf; rewrite Hq in Hf; discriminate).
  eexists. split; [reflexivity|].
  unfold publish. rewrite Hq, Hg. simpl. rewrite <- app_assoc. simpl.
  split; [reflexivity|]. split; [apply get_remove_eq|].
  split; [|split; reflexivity].
  intros k Hk. rewrite get_remove_ne, get_set_ne by congruence. reflexivity.
Qed.

Lemma empty_question_request_allowed_witness :
  exists s',
    handleRequest (ReqUserQuestion (mkUserQuestionRequest "s1" [])) 3%nat 10 10 "e1"
                  PostFailed initial = Returned s' /\
    slack s' = [] /\ closeListeners s' = [].
Proof.
  destruct (empty_question_request_allowed
              (ReqUserQuestion (mkUserQuestionRequest "s1" [])) 3%nat 10 10 "e1" "q:s1:[]"
              PostFailed initial)
    as (s' & Hr & _ & _ & _ & Hs & Hc).
  - reflexivity.
  - reflexivity.
  - reflexivity.
  - reflexivity.
  - exists s'. split; [exact Hr|]. split; assumption.
Defined.

(** Publishing touches the registry at the new id only. *)
Lemma publish_get_other request0 c createdNow requestId post isQ s k :
  k <> requestId ->
  Js.get k (pendingRequests (publish request0 c createdNow requestId post isQ s))
  = Js.get k (pendingRequests s).
Proof.
  intros Hk. unfold publish, publishFailed.
  destruct isQ; [destruct (getQuestions request0) as [[|q qs]|]|];
    destruct post as [|ts ch]; simpl;
    try destruct (buildHookOutput _ _ _); simpl;
    try (destruct ts as [t|]; simpl; [destruct (negb (String.eqb t EmptyString))|]; simpl);
    rewrite ?get_remove_ne, ?get_set_ne by congruence; reflexivity.
Qed.

(** X14: the dedup window ends at 30 seconds.  A submission whose
    fingerprint is in the dedup index with an entry that is 30 seconds
    old or older, or whose recorded request has left the registry, is
    not attached to anything: it is handled as a new request, the index
    entry is overwritten with the new id and the time of arrival, and the
    request recorded before is left exactly as it was. *)
Theorem expired_dedup_entry_is_replaced
        (request0 : Request) (c : Socket) (now createdNow : Z) (requestId h id0 : string)
        (t : Z) (post : PostOutcome) (s : State) :
  dedupHashOf request0 = Some h ->
  recentRequestHashes s !! h = Some (id0, t) ->
  DEDUP_WINDOW_MS <= now - t \/ Js.get id0 (pendingRequests s) = None ->
  requestId <> id0 ->
  let s' := stateOf (handleRequest request0 c now createdNow requestId post s) in
  recentRequestHashes s' !! h = Some (requestId, now) /\
  Js.get id0 (pendingRequests s') = Js.get id0 (pendingRequests s).
Proof.
  intros Hh Hr Hexp Hne s'.
  assert (Hd : duplicateOf s h now = None).
  { unfold duplicateOf. rewrite Hr. destruct Hexp as [Hw|Hg].
    - apply Z.ltb_ge in Hw. rewrite Hw. reflexivity.
    - rewrite Hg. destruct (_ <? _); reflexivity. }
  split; [subst s'; apply handleRequest_records_dedup; assumption|].
  subst s'. unfold handleRequest. rewrite Hh, Hd.
  destruct (if isQuestionRequest request0 then false else _); simpl; [reflexivity|].
  rewrite publish_get_other by congruence. reflexivity.
Qed.

Lemma expired_dedup_entry_is_replaced_witness :
  let s' := stateOf (handleRequest Demo.bash 5%nat 31000 31000 "r2"
                                   (Posted (Some "333.3") (Some "C1")) Demo.posted) in
  Js.get "r1" (pendingRequests s') = Some Demo.pending /\
  slack s' = [PostMessage "r1"; PostMessage "r2"].
Proof.
  intros s'.
  destruct (expired_dedup_entry_is_replaced
              Demo.bash 5%nat 31000 31000 "r2"
              ("p:s1:" +:+ createRequestHash "Bash" [("command", JStr "echo hi")])
              "r1" 1000 (Posted (Some "333.3") (Some "C1")) Demo.posted)
    as [_ Hg].
  - reflexivity.
  - vm_compute. reflexivity.
  - left. vm_compute. discriminate.
  - discriminate.
  - split; [|reflexivity].
    etransitivity; [exact Hg | reflexivity].
Defined.

(* ===================================================================== *)
(** ** Connections that close                                             *)
(* ===================================================================== *)

(** X15: only the connection that created a request has a close
    listener.  The duplicate branch of [handleRequest] registers none, so
    when a connection that has no listener closes, nothing happens: it
    is not detached from the request it was attached to, the request stays
    pending and the prompt is not marked. *)
Theorem attached_connection_close_is_ignored
        (request0 : Request) (c : Socket) (now createdNow : Z) (requestId h firstId : string)
        (t : Z) (post : PostOutcome) (upd : bool) (s : State) (pending : PendingRequest) :
  dedupHashOf request0 = Some h ->
  recentRequestHashes s !! h = Some (firstId, t) ->
  now - t < DEDUP_WINDOW_MS ->
  Js.get firstId (pendingRequests s) = Some pending ->
  (forall l, In l (closeListeners s) -> fst l <> c) ->
  let s' := stateOf (handleRequest request0 c now createdNow requestId post s) in
  closeListeners s' = closeListeners s /\
  socketClosed c upd s' = s' /\
  exists pending', Js.get firstId (pendingRequests s') = Some pending' /\
                   In c (connections pending').
Proof.
  intros Hh Hr Ht Hget Hno s'.
  assert (Hs' : s' = with_pendingRequests s
                       (Js.set firstId (attach pending c) (pendingRequests s))).
  { subst s'. unfold handleRequest, duplicateOf. rewrite Hh, Hr.
    apply Z.ltb_lt in Ht. rewrite Ht, Hget. reflexivity. }
  rewrite Hs'. split; [reflexivity|]. split.
  - unfold socketClosed. cbn [closeListeners with_pendingRequests].
    generalize (with_pendingRequests s
                  (Js.set firstId (attach pending c) (pendingRequests s))).
    induction (closeListeners s) as [|l ls IH]; intros s0; cbn [fold_left];
      [reflexivity|].
    cbv beta.
    match goal with
    | |- context [Nat.eqb ?a c] => destruct (Nat.eqb a c) eqn:E
    end.
    + apply Nat.eqb_eq in E. exfalso. apply (Hno l); [left; reflexivity | exact E].
    + apply IH. intros l' Hl'. apply Hno. right. exact Hl'.
  - exists (attach pending c). split; [simpl; apply get_set_eq|].
    rewrite connections_attach. apply in_or_app. right. left. reflexivity.
Qed.

Lemma attached_connection_close_is_ignored_witness :
  let s' := stateOf (handleRequest Demo.bash 5%nat 2000 2000 "r2" PostFailed Demo.posted) in
  socketClosed 5%nat true s' = s'.
Proof.
  intros s'.
  destruct (attached_connection_close_is_ignored
              Demo.bash 5%nat 2000 2000 "r2"
              ("p:s1:" +:+ createRequestHash "Bash" [("command", JStr "echo hi")])
              "r1" 1000 PostFailed true Demo.posted Demo.pending)
    as (_ & Hc & _).
  - reflexivity.
  - vm_compute. reflexivity.
  - vm_compute. reflexivity.
  - reflexivity.
  - intros l [<-|[]]. simpl. discriminate.
  - exact Hc.
Defined.

(* ===================================================================== *)
(** ** Reachable states                                                   *)
(* ===================================================================== *)

(** X16: in every state the daemon reaches from its initial state,
    whatever the events and the answers of the outside, the registry has
    no two entries with the same key, every request is stored under its
    own id, and no question has a label selected twice. *)
Theorem reachable_registry_well_formed (s : State) :
  reachable s ->
  List.NoDup (Js.keys (pendingRequests s)) /\
  (forall k pending, Js.get k (pendingRequests s) = Some pending -> id pending = k) /\
  (forall k pending i, Js.get k (pendingRequests s) = Some pending ->
                       List.NoDup (selectedLabels pending i)).
Proof.
  intros [events ->].
  assert (Hwf : registry_wf (fold_left (fun s' e => step e s') events initial)).
  { apply fold_left_wf; [|exact initial_wf]. intros s e. apply step_wf. }
  split; [apply Hwf|]. split.
  - intros k pending Hget. apply (registry_wf_get _ _ _ Hwf Hget).
  - intros k pending i Hget.
    destruct (registry_wf_get _ _ _ Hwf Hget) as [_ Ha].
    unfold selectedLabels.
    destruct (Ans.get i (answersOf pending)) as [[str|l]|] eqn:E;
      [constructor | apply (Ha _ _ E) | constructor].
Qed.

Lemma reachable_registry_well_formed_witness :
  List.NoDup (Js.keys (pendingRequests Demo.posted)).
Proof.
  apply (reachable_registry_well_formed Demo.posted).
  exists [EvRequest Demo.bash 1%nat 1000 1000 "r1" (Posted (Some "111.1") (Some "C1"))].
  reflexivity.
Defined.

(* ===================================================================== *)
(** ** Framing: one serialized value per line                             *)
(* ===================================================================== *)

Lemma JSON_nested_ind (P : JSON -> Prop) :
  P JNull ->
  (forall b, P (JBool b)) ->
  (forall n, P (JNum n)) ->
  (forall str, P (JStr str)) ->
  (forall items, Forall P items -> P (JArr items)) ->
  (forall props, Forall (fun kv => P (snd kv)) props -> P (JObj props)) ->
  forall v, P v.
Proof.
  intros Hnull Hbool Hnum Hstr Harr Hobj.
  fix IH 1. intros [| b | n | str | items | props].
  - exact Hnull.
  - apply Hbool.
  - apply Hnum.
  - apply Hstr.
  - apply Harr. induction items as [|x items IHitems]; constructor;
      [apply IH | exact IHitems].
  - apply Hobj. induction props as [|[k x] props IHprops]; constructor;
      [apply IH | exact IHprops].
Qed.

Lemma has_newline_app a b :
  has_newline (a +:+ b) = has_newline a || has_newline b.
Proof.
  induction a as [|x a IH]; [reflexivity|].
  rewrite append_cons. simpl. rewrite IH. apply orb_assoc.
Qed.

Lemma has_newline_join sep l :
  has_newline sep = false ->
  Forall (fun x => has_newline x = false) l ->
  has_newline (Js.join sep l) = false.
Proof.
  intros Hsep Hl. induction Hl as [|x l Hx Hl IH]; [reflexivity|].
  destruct l as [|y l]; [exact Hx|].
  change (Js.join sep (x :: y :: l)) with (x +:+ sep +:+ Js.join sep (y :: l)).
  rewrite !has_newline_app, Hx, Hsep, IH. reflexivity.
Qed.

Lemma has_newline_quote_char c : has_newline (Js.quote_char c) = false.
Proof. destruct c as [[] [] [] [] [] [] [] []]; reflexivity. Qed.

Lemma has_newline_quote str : has_newline (Js.quote str) = false.
Proof.
  unfold Js.quote. rewrite !has_newline_app.
  assert (has_newline (Js.quote_body str) = false) as ->.
  { induction str as [|c str IH]; [reflexivity|].
    cbn [Js.quote_body]. rewrite has_newline_app, has_newline_quote_char. exact IH. }
  reflexivity.
Qed.

Lemma has_newline_digits d :
  has_newline (NilEmpty.string_of_uint d) = false.
Proof. induction d; simpl; auto. Qed.

Lemma has_newline_show_Z n : has_newline (Js.show_Z n) = false.
Proof.
  unfold Js.show_Z. destruct (Z.to_int n) as [d|d]; simpl.
  - destruct d; try reflexivity; apply (has_newline_digits (_ _)).
  - destruct d; try reflexivity; apply (has_newline_digits (_ _)).
Qed.

(** JSON.stringify without indentation never emits a line terminator:
    the only place a code unit 10 of the value could surface is inside a
    string literal, where it is written as a backslash and an [n]. *)
Lemma stringify_no_newline plist v :
  has_newline (Js.stringify plist v) = false.
Proof.
  induction v as [| b | n | str | items IH | props IH] using JSON_nested_ind.
  - reflexivity.
  - destruct b; reflexivity.
  - apply has_newline_show_Z.
  - apply has_newline_quote.
  - cbn [Js.stringify]. rewrite !has_newline_app.
    rewrite has_newline_join; [reflexivity | reflexivity |].
    induction IH as [|x items Hx _ IHitems]; constructor; assumption.
  - cbn [Js.stringify]. cbv zeta. rewrite !has_newline_app.
    rewrite has_newline_join; [reflexivity | reflexivity |].
    match goal with |- Forall _ (flat_map _ ?names) => generalize names end.
    intros names. induction names as [|k names IHnames]; [constructor|].
    cbn [flat_map].
    destruct (Js.get k (List.map (fun kv => (fst kv, Js.stringify plist (snd kv))) props))
      as [str|] eqn:E; [|exact IHnames].
    constructor; [|exact IHnames].
    rewrite !has_newline_app, has_newline_quote. simpl.
    clear IHnames. induction IH as [|[k' x] props Hx _ IHprops]; [discriminate|].
    simpl in E. destruct (String.eqb k' k); [|exact (IHprops E)].
    injection E as <-. exact Hx.
Qed.

Lemma prefix_newline c str :
  String.prefix newline (String c str) = (N_of_ascii c =? 10)%N.
Proof.
  destruct str; destruct c as [[] [] [] [] [] [] [] []]; reflexivity.
Qed.

Lemma index_newline_cons c str :
  String.index 0 newline (String c str) =
  if (N_of_ascii c =? 10)%N then Some 0%nat
  else match String.index 0 newline str with
       | Some n => Some (S n)
       | None => None
       end.
Proof.
  change (String.index 0 newline (String c str))
    with (if String.prefix newline (String c str) then Some 0%nat
          else match String.index 0 newline str with
               | Some n => Some (S n)
               | None => None
               end).
  rewrite prefix_newline. reflexivity.
Qed.

Lemma newlineIndex_none str :
  has_newline str = false -> newlineIndex str = None.
Proof.
  unfold newlineIndex. induction str as [|c str IH]; [reflexivity|].
  cbn [has_newline]. intros H. apply orb_false_iff in H as [Hc Hs].
  rewrite index_newline_cons, Hc, (IH Hs). reflexivity.
Qed.

Lemma newlineIndex_first line rest :
  has_newline line = false ->
  newlineIndex (line +:+ newline +:+ rest) = Some (String.length line).
Proof.
  unfold newlineIndex. induction line as [|c line IH].
  - intros _. rewrite append_nil_l. unfold newline at 2.
    rewrite append_cons, index_newline_cons. reflexivity.
  - cbn [has_newline]. intros H. apply orb_false_iff in H as [Hc Hs].
    rewrite append_cons, index_newline_cons, Hc, (IH Hs). reflexivity.
Qed.

Lemma substring_line line rest :
  String.substring 0 (String.length line) (line +:+ rest) = line.
Proof.
  induction line as [|c line IH].
  - rewrite append_nil_l. destruct rest; reflexivity.
  - rewrite append_cons. simpl. rewrite IH. reflexivity.
Qed.

Lemma substring_all str : String.substring 0 (String.length str) str = str.
Proof. induction str as [|c str IH]; [reflexivity|]. simpl. rewrite IH. reflexivity. Qed.

Lemma length_append a b :
  String.length (a +:+ b) = (String.length a + String.length b)%nat.
Proof.
  induction a as [|c a IH]; [reflexivity|].
  rewrite append_cons. simpl. rewrite IH. reflexivity.
Qed.

Lemma substring_rest line rest :
  String.substring (String.length line + 1)
    (String.length (line +:+ newline +:+ rest) - (String.length line + 1))
    (line +:+ newline +:+ rest) = rest.
Proof.
  induction line as [|c line IH].
  - rewrite append_nil_l. unfold newline. rewrite append_cons, append_nil_l.
    simpl. rewrite Nat.sub_0_r. apply substring_all.
  - rewrite append_cons. simpl. exact IH.
Qed.

Lemma has_newline_prefix a b :
  has_newline (a +:+ b) = false -> has_newline a = false.
Proof.
  rewrite has_newline_app. intros H. apply orb_false_iff in H. apply H.
Qed.

Lemma append_split_last a b l c :
  a +:+ b = l +:+ String c EmptyString ->
  b <> EmptyString ->
  exists b', b = b' +:+ String c EmptyString /\ a +:+ b' = l.
Proof.
  revert l. induction a as [|x a IH]; intros l H Hb.
  - exists l. rewrite append_nil_l in H. split; [exact H | reflexivity].
  - rewrite append_cons in H. destruct l as [|y l].
    + rewrite append_nil_l in H. injection H as _ H.
      destruct a; [|discriminate]. rewrite append_nil_l in H. contradiction.
    + rewrite append_cons in H. injection H as -> H.
      destruct (IH l H Hb) as (b' & -> & <-).
      exists b'. split; reflexivity.
Qed.

(** X17: when the text that the daemon has decoded on a connection (its
    buffer and the text of the arriving chunk) is the output of
    JSON.stringify for a request, a newline and a rest, JSON.parse is
    handed exactly that output and the rest stays in the buffer of the
    connection.  A line break inside a string of the request cannot end
    the line early: JSON.stringify writes it escaped.  Chunks are decoded
    one by one, so the premise holds when no chunk boundary falls inside
    a multi-byte character. *)
Theorem request_line_is_cut_exactly
  (JSON_parse : string -> option JSON) (onRequest : JSON -> Socket -> State -> Outcome)
  (toString : list Byte.byte -> string)
  (c : Socket) (buffer : string) (data : list Byte.byte) (v : JSON) (rest : string)
  (s : State) :
  buffer +:+ toString data = Js.stringify None v +:+ newline +:+ rest ->
  onChunk JSON_parse onRequest toString c buffer data s =
  (rest,
   match JSON_parse (Js.stringify None v) with
   | None => reply denyLine s c
   | Some request =>
       match onRequest request c s with
       | Returned s1 => s1
       | Threw s1 => reply denyLine s1 c
       end
   end).
Proof.
  intros H. unfold onChunk, onData. cbv zeta. rewrite H.
  rewrite (newlineIndex_first _ rest (stringify_no_newline None v)).
  rewrite substring_line, substring_rest.
  destruct (JSON_parse (Js.stringify None v)) as [request0|]; [|reflexivity].
  destruct (onRequest request0 c s); reflexivity.
Qed.

Lemma request_line_is_cut_exactly_witness :
  let v := JObj [("command", JStr ("a" +:+ newline +:+ "b"))] in
  fst (onChunk (fun _ => None) (fun _ _ s => Returned s) string_of_list_byte
         1%nat "{" [Byte.x7d; Byte.x0a; Byte.x7b] initial) = "{" /\
  fst (onChunk (fun _ => None) (fun _ _ s => Returned s) string_of_list_byte
         1%nat EmptyString (list_byte_of_string (Js.stringify None v +:+ newline)) initial)
  = EmptyString.
Proof.
  intros v. split.
  - rewrite (request_line_is_cut_exactly (fun _ => None) (fun _ _ s => Returned s)
               string_of_list_byte 1%nat "{" [Byte.x7d; Byte.x0a; Byte.x7b]
               (JObj []) "{" initial); reflexivity.
  - rewrite (request_line_is_cut_exactly (fun _ => None) (fun _ _ s => Returned s)
               string_of_list_byte 1%nat EmptyString
               (list_byte_of_string (Js.stringify None v +:+ newline)) v
               EmptyString initial); reflexivity.
Defined.

(** X18: the reply line of the daemon is JSON.stringify of the hook
    output and a newline.  When the texts that the client decodes from
    two successive chunks make up that line, the second one not empty,
    the client keeps waiting after the first chunk and settles its
    promise with the second one, handing JSON.parse the serialized output
    and nothing else.  Chunks are decoded one by one, so the premise
    holds when the chunk boundary does not fall inside a multi-byte
    character. *)
Theorem reply_line_settles_client
  (JSON_parse : string -> option JSON) (toString : list Byte.byte -> string)
  (response : JSON) (chunk1 chunk2 : list Byte.byte) :
  toString chunk1 +:+ toString chunk2 = Js.stringify None response +:+ newline ->
  toString chunk2 <> EmptyString ->
  clientOnChunk JSON_parse toString EmptyString chunk1 = (toString chunk1, StillWaiting) /\
  snd (clientOnChunk JSON_parse toString (toString chunk1) chunk2) =
    match JSON_parse (Js.stringify None response) with
    | Some parsed => ResolvedWith parsed
    | None => RejectedParse
    end.
Proof.
  intros H Hchunk. unfold clientOnChunk.
  destruct (append_split_last _ _ _ _ H Hchunk) as (chunk' & Hc2 & Hline).
  assert (Hn : has_newline (toString chunk1) = false).
  { apply (has_newline_prefix (toString chunk1) chunk'). rewrite Hline.
    apply stringify_no_newline. }
  split.
  - unfold clientOnData. cbv zeta. rewrite append_nil_l.
    rewrite (newlineIndex_none _ Hn). reflexivity.
  - unfold clientOnData. cbv zeta. rewrite H.
    assert (Hidx : newlineIndex (Js.stringify None response +:+ newline) =
                   Some (String.length (Js.stringify None response))).
    { pose proof (newlineIndex_first (Js.stringify None response) EmptyString
                    (stringify_no_newline None response)) as Hi.
      exact Hi. }
    rewrite Hidx, substring_line.
    destruct (JSON_parse (Js.stringify None response)); reflexivity.
Qed.

Lemma reply_line_settles_client_witness :
  clientOnChunk (fun _ => Some JNull) string_of_list_byte EmptyString [Byte.x7b]
  = ("{", StillWaiting) /\
  snd (clientOnChunk (fun _ => Some JNull) string_of_list_byte "{" [Byte.x7d; Byte.x0a])
  = ResolvedWith JNull.
Proof.
  apply (reply_line_settles_client (fun _ => Some JNull) string_of_list_byte (JObj [])
           [Byte.x7b] [Byte.x7d; Byte.x0a]).
  - reflexivity.
  - discriminate.
Defined.

(* ===================================================================== *)
(** ** The request hash and the order of the keys                         *)
(* ===================================================================== *)

Lemma string_leb_compare a b :
  String.leb a b = true <-> String.compare a b <> Gt.
Proof.
  unfold String.leb. destruct (String.compare a b); split; intros H;
    try reflexivity; try discriminate; try (exfalso; apply H; reflexivity).
Qed.

Lemma ascii_compare_trans_lt a b c :
  Ascii.compare a b = Lt -> Ascii.compare b c = Lt -> Ascii.compare a c = Lt.
Proof.
  unfold Ascii.compare. rewrite !N.compare_lt_iff. apply N.lt_trans.
Qed.

Lemma string_leb_trans a b c :
  String.leb a b = true -> String.leb b c = true -> String.leb a c = true.
Proof.
  rewrite !string_leb_compare. revert b c.
  induction a as [|x a IH]; intros [|y b] [|z c]; simpl; try congruence.
  destruct (Ascii.compare x y) eqn:Exy; try congruence;
    destruct (Ascii.compare y z) eqn:Eyz; try congruence.
  - apply Ascii.compare_eq_iff in Exy, Eyz. subst.
    assert (Ascii.compare z z = Eq) as -> by apply N.compare_refl.
    apply IH.
  - apply Ascii.compare_eq_iff in Exy. subst. rewrite Eyz. congruence.
  - apply Ascii.compare_eq_iff in Eyz. subst. rewrite Exy. congruence.
  - rewrite (ascii_compare_trans_lt _ _ _ Exy Eyz). congruence.
Qed.

Lemma insert_sorted_Permutation x l :
  Permutation (x :: l) (Js.insert_sorted x l).
Proof.
  induction l as [|y l IH]; [reflexivity|].
  simpl. destruct (String.leb x y); [reflexivity|].
  rewrite perm_swap. apply perm_skip. exact IH.
Qed.

Lemma sort_Permutation l : Permutation l (Js.sort l).
Proof.
  induction l as [|x l IH]; [reflexivity|].
  simpl. rewrite <- insert_sorted_Permutation. apply perm_skip. exact IH.
Qed.

Lemma insert_sorted_Sorted x l :
  Sorted (fun a b => String.leb a b = true) l ->
  Sorted (fun a b => String.leb a b = true) (Js.insert_sorted x l).
Proof.
  induction 1 as [|y l Hl IH Hy]; [repeat constructor|].
  simpl. destruct (String.leb x y) eqn:E.
  - constructor; [constructor; assumption | constructor; exact E].
  - constructor; [exact IH|].
    assert (Hyx : String.leb y x = true).
    { destruct (String.leb_total x y) as [H|H]; [congruence | exact H]. }
    destruct Hy as [|z l' Hz]; simpl.
    + constructor. exact Hyx.
    + destruct (String.leb x z); constructor; assumption.
Qed.

Lemma sort_Sorted l : Sorted (fun a b => String.leb a b = true) (Js.sort l).
Proof.
  induction l as [|x l IH]; [constructor|].
  simpl. apply insert_sorted_Sorted. exact IH.
Qed.

(** Sorting forgets the order in which the keys were listed. *)
Lemma sort_Permutation_eq l1 l2 :
  Permutation l1 l2 -> Js.sort l1 = Js.sort l2.
Proof.
  intros H.
  apply (@Sorted_unique string (fun a b => String.leb a b = true)).
  - intros a b c. apply string_leb_trans.
  - intros a b. apply String.leb_antisym.
  - apply sort_Sorted.
  - apply sort_Sorted.
  - rewrite <- (sort_Permutation l1), <- (sort_Permutation l2). exact H.
Qed.

Lemma get_Permutation {A : Type} key (l1 l2 : list (string * A)) :
  Permutation l1 l2 -> List.NoDup (Js.keys l1) ->
  Js.get key l1 = Js.get key l2.
Proof.
  induction 1 as [| [k v] l1 l2 Hp IH | [k1 v1] [k2 v2] l | l1 l2 l3 H12 IH12 H23 IH23];
    intros Hnd.
  - reflexivity.
  - simpl. destruct (String.eqb k key); [reflexivity|].
    apply IH. simpl in Hnd. apply List.NoDup_cons_iff in Hnd. apply Hnd.
  - simpl. destruct (String.eqb k1 key) eqn:E1; destruct (String.eqb k2 key) eqn:E2;
      try reflexivity.
    apply String.eqb_eq in E1, E2. subst. simpl in Hnd.
    apply List.NoDup_cons_iff in Hnd as [Hin _]. exfalso. apply Hin. left. reflexivity.
  - rewrite (IH12 Hnd). apply IH23.
    apply (Permutation_NoDup (l := Js.keys l1)); [|exact Hnd].
    unfold Js.keys. apply Permutation_map. exact H12.
Qed.

(** X19: the request hash does not depend on the order in which the
    top-level keys of the tool input are listed: two inputs with the same
    members in a different order have the same hash. *)
Theorem createRequestHash_key_order (toolName : string)
  (input1 input2 : list (string * JSON)) :
  List.NoDup (Js.keys input1) ->
  Permutation input1 input2 ->
  createRequestHash toolName input1 = createRequestHash toolName input2.
Proof.
  intros Hnd Hp. unfold createRequestHash. cbv zeta. f_equal. f_equal.
  assert (HK : Js.sort (Js.keys input1) = Js.sort (Js.keys input2)).
  { apply sort_Permutation_eq. unfold Js.keys. apply Permutation_map. exact Hp. }
  rewrite <- HK. cbn [Js.stringify]. cbv zeta. f_equal. f_equal. f_equal.
  apply flat_map_ext. intros k.
  set (f := fun kv : string * JSON =>
              (fst kv, Js.stringify (Some (Js.sort (Js.keys input1))) (snd kv))).
  rewrite (get_Permutation k (List.map f input1) (List.map f input2)).
  - reflexivity.
  - apply Permutation_map. exact Hp.
  - unfold Js.keys. rewrite List.map_map. exact Hnd.
Qed.

Lemma createRequestHash_key_order_witness :
  createRequestHash "Edit" [("file_path", JStr "/a"); ("new_string", JStr "x")] =
  createRequestHash "Edit" [("new_string", JStr "x"); ("file_path", JStr "/a")].
Proof.
  apply createRequestHash_key_order.
  - repeat constructor; simpl; intuition discriminate.
  - apply perm_swap.
Defined.

(* ===================================================================== *)
(** ** Answering questions                                                *)
(* ===================================================================== *)






Lemma Ans_get_absent i (a : Answers) :
  ~ In i (List.map fst a) -> Ans.get i a = None.
Proof.
  induction a as [|[k v] a IH]; [reflexivity|].
  simpl. intros H. destruct (Nat.eqb k i) eqn:E.
  - apply Nat.eqb_eq in E. exfalso. apply H. left. exact E.
  - apply IH. intros Hin. apply H. right. exact Hin.
Qed.

Lemma get_assign_index_eq {A : Type} n key (v : A) props :
  Js.get key props = None ->
  Js.get key (Js.assign_index n key v props) = Some v.
Proof.
  induction props as [|[k w] props IH]; simpl.
  - intros _. rewrite String.eqb_refl. reflexivity.
  - destruct (String.eqb k key) eqn:E; [discriminate|]. intros H.
    destruct (Js.arrayIndex k) as [m|]; [destruct (m <? n)%N|]; simpl;
      rewrite ?E, ?String.eqb_refl; auto.
Qed.

Lemma get_assign_index_ne {A : Type} n key key' (v : A) props :
  key <> key' ->
  Js.get key' (Js.assign_index n key v props) = Js.get key' props.
Proof.
  intros Hne. apply String.eqb_neq in Hne.
  induction props as [|[k w] props IH]; simpl.
  - rewrite Hne. reflexivity.
  - destruct (Js.arrayIndex k) as [m|]; [destruct (m <? n)%N|]; simpl;
      rewrite ?Hne, ?IH; reflexivity.
Qed.

Lemma get_assign_eq {A : Type} key (v : A) props :
  key <> "__proto__" -> Js.get key (Js.assign key v props) = Some v.
Proof.
  intros Hne. apply String.eqb_neq in Hne. unfold Js.assign. rewrite Hne.
  destruct (Js.get key props) eqn:E; [apply get_set_eq|].
  destruct (Js.arrayIndex key); [apply get_assign_index_eq, E | apply get_set_eq].
Qed.

Lemma get_assign_ne {A : Type} key key' (v : A) props :
  key <> key' -> Js.get key' (Js.assign key v props) = Js.get key' props.
Proof.
  intros Hne. unfold Js.assign.
  destruct (String.eqb key "__proto__"); [reflexivity|].
  destruct (Js.get key props); [apply get_set_ne, Hne|].
  destruct (Js.arrayIndex key); [apply get_assign_index_ne, Hne | apply get_set_ne, Hne].
Qed.

Lemma questionKeyedAnswers_fold questions (a : Answers) acc i q :
  List.NoDup (List.map question questions) ->
  List.NoDup (List.map fst a) ->
  nth_error questions i = Some q ->
  question q <> "__proto__" ->
  Js.get (question q)
    (fold_left
       (fun acc entry =>
          match nth_error questions (fst entry) with
          | Some q => Js.assign (question q) (JStr (renderAnswer (snd entry))) acc
          | None => acc
          end) a acc) =
  match Ans.get i a with
  | Some answer => Some (JStr (renderAnswer answer))
  | None => Js.get (question q) acc
  end.
Proof.
  intros Hqs Ha Hq Hproto. revert acc.
  induction a as [|[k v] a IH]; intros acc; [reflexivity|].
  simpl in Ha. apply List.NoDup_cons_iff in Ha as [Hk Ha].
  cbn [fold_left fst snd Ans.get]. rewrite (IH Ha).
  destruct (Nat.eqb k i) eqn:E.
  - apply Nat.eqb_eq in E. subst k. rewrite (Ans_get_absent i a Hk), Hq.
    apply get_assign_eq, Hproto.
  - apply Nat.eqb_neq in E.
    destruct (Ans.get i a) as [answer|]; [reflexivity|].
    destruct (nth_error questions k) as [q'|] eqn:Ek; [|reflexivity].
    apply get_assign_ne. intros Heq. apply E.
    apply (proj1 (List.NoDup_nth_error (List.map question questions)) Hqs k i).
    + rewrite length_map. apply nth_error_Some. congruence.
    + rewrite !nth_error_map, Ek, Hq. simpl. congruence.
Qed.

(** X21: the answers handed back to the tool are keyed by the full text
    of the question.  When the questions have distinct texts, the member
    named by the text of question [i] (any text but [__proto__], which
    names no own member of a plain object) is the answer recorded under
    [i]: the label of a single choice or the custom text as it is, the
    labels of a multi-select joined by a comma and a space; a question
    without a recorded answer has no member. *)
Theorem answers_keyed_by_question_text
  (questions : list Question) (a : Answers) (i : nat) (q : Question) :
  List.NoDup (List.map question questions) ->
  List.NoDup (List.map fst a) ->
  nth_error questions i = Some q ->
  question q <> "__proto__" ->
  Js.get (question q) (questionKeyedAnswers questions a) =
  match Ans.get i a with
  | Some (AStr text) => Some (JStr text)
  | Some (AArr labels) => Some (JStr (Js.join ", " labels))
  | None => None
  end.
Proof.
  intros Hqs Ha Hq Hproto. unfold questionKeyedAnswers.
  rewrite (questionKeyedAnswers_fold questions a [] i q Hqs Ha Hq Hproto).
  destruct (Ans.get i a) as [[text|labels]|]; reflexivity.
Qed.

Lemma answers_keyed_by_question_text_witness :
  Js.get "Size?"
    (questionKeyedAnswers [Survey.color; Survey.size]
       (Ans.set 1 (AArr ["S"; "L"]) (Ans.set 0 (AStr "Red") []))) =
  Some (JStr "S, L").
Proof.
  apply (answers_keyed_by_question_text [Survey.color; Survey.size]
           (Ans.set 1 (AArr ["S"; "L"]) (Ans.set 0 (AStr "Red") [])) 1 Survey.size).
  - repeat constructor; simpl; intuition discriminate.
  - repeat constructor; simpl; intuition discriminate.
  - reflexivity.
  - discriminate.
Defined.



(** X23: when Slack rejects the update of the prompt, the decision is not
    delivered: the handler stops before the response is sent, so nothing
    is written to a connection and the request stays pending.  A deny
    leaves the state as it was; an approve has already recorded the
    approval in the session cache. *)
Theorem rejected_update_delivers_nothing
  (k : string) (s : State) (pending : PendingRequest) (r : PermissionRequest)
  (ts ch : string) :
  Js.get k (pendingRequests s) = Some pending ->
  request pending = ReqPermission r ->
  slackTs pending = Some ts -> ts <> EmptyString ->
  slackChannel pending = Some ch -> ch <> EmptyString ->
  denyAction (Some k) false s = s /\
  let s' := approveAction (Some k) false s in
  wire s' = wire s /\
  slack s' = slack s /\
  pendingRequests s' = pendingRequests s /\
  approved s' (pr_session_id r) (createRequestHash (tool_name r) (tool_input r)) = true.
Proof.
  intros Hget Hr Hts Hts0 Hch Hch0.
  assert (Hu : forall status s0, updateResult pending status false s0 = None).
  { intros status s0. unfold updateResult. rewrite Hts, Hch, Hr. unfold truthy.
    apply String.eqb_neq in Hts0, Hch0. rewrite Hts0, Hch0. reflexivity. }
  split.
  - unfold denyAction. rewrite Hget. unfold denyRequest. rewrite Hu. reflexivity.
  - intros s'.
    assert (Hs' : s' = cacheApproval (pr_session_id r)
                         (createRequestHash (tool_name r) (tool_input r)) s).
    { subst s'. unfold approveAction. rewrite Hget. unfold approve.
      rewrite Hr. cbn [requestHash session_id]. cbv zeta. rewrite Hu. reflexivity. }
    rewrite Hs'. repeat split.
    apply approved_cacheOf. rewrite cacheOf_cacheApproval.
    destruct (decide (pr_session_id r = pr_session_id r)) as [_|Hne];
      [|contradiction].
    apply elem_of_union. left. apply elem_of_singleton. reflexivity.
Qed.

Lemma rejected_update_delivers_nothing_witness :
  denyAction (Some "r1") false Demo.posted = Demo.posted.
Proof.
  apply (rejected_update_delivers_nothing "r1" Demo.posted Demo.pending
           (mkPermissionRequest "PermissionRequest" "Bash" [("command", JStr "echo hi")] "s1")
           "111.1" "C1").
  - vm_compute. reflexivity.
  - reflexivity.
  - reflexivity.
  - discriminate.
  - reflexivity.
  - discriminate.
Defined.

(* ===================================================================== *)
(** ** A denial after an approval of the same fingerprint                 *)
(* ===================================================================== *)


(* ===================================================================== *)
(** ** The close of the creating connection                               *)
(* ===================================================================== *)

Lemma fold_left_filter {A : Type} (p : A -> bool) (f : State -> A -> State) l :
  forall s,
    fold_left (fun s' x => if p x then f s' x else s') l s
    = fold_left f (List.filter p l) s.
Proof.
  induction l as [|x l IH]; intros s; simpl; [reflexivity|].
  destruct (p x); simpl; apply IH.
Qed.

(** C4 (amended): when the connection on which a pending request with a
    published prompt was created closes before a decision was delivered,
    the close listener that [handleRequest] registered on it asks Slack
    to mark the prompt as timed out and, whether or not that call goes
    through, deletes the request from the registry.  Nothing is written
    to any connection, no other request and no approval is touched, and a
    later approve or deny action for the deleted id is ignored. *)
Theorem creator_close_deletes_request
        (c : Socket) (requestId : string) (upd : bool) (s : State)
        (pending : PendingRequest) (r : PermissionRequest) (ts ch : string) :
  List.filter (fun l => Nat.eqb (fst l) c) (closeListeners s) = [(c, requestId)] ->
  Js.get requestId (pendingRequests s) = Some pending ->
  request pending = ReqPermission r ->
  Cast.questionsOf (tool_input r) <> None ->
  slackTs pending = Some ts -> ts <> EmptyString ->
  slackChannel pending = Some ch -> ch <> EmptyString ->
  let s' := step (EvClose c upd) s in
  Js.get requestId (pendingRequests s') = None /\
  (forall other, other <> requestId ->
                 Js.get other (pendingRequests s') = Js.get other (pendingRequests s)) /\
  wire s' = wire s /\
  sessionApprovals s' = sessionApprovals s /\
  slack s' = slack s ++ (if upd then [Update ch ts TimedOut] else []) /\
  (forall upd', step (EvApprove (Some requestId) upd') s' = s') /\
  (forall upd', step (EvDeny (Some requestId) upd') s' = s').
Proof.
  intros Hl Hget Hr Hqs Hts Hts0 Hch Hch0 s'.
  assert (Hs' : s' = onSocketClose requestId upd s).
  { subst s'. cbn [step]. unfold socketClosed.
    rewrite (fold_left_filter (fun l => Nat.eqb (fst l) c)
               (fun s' l => onSocketClose (snd l) upd s')), Hl.
    reflexivity. }
  assert (Hbuilt : (if isQuestion pending
                    then match getQuestions (request pending) with
                         | Some _ => true
                         | None => false
                         end
                    else match request pending with
                         | ReqPermission _ => true
                         | ReqUserQuestion _ => false
                         end) = true).
  { rewrite Hr. cbn [getQuestions].
    destruct (Cast.questionsOf (tool_input r)); [|contradiction].
    destruct (isQuestion pending); reflexivity. }
  assert (Hs1 : s' = let s1 := if upd then slack_call (Update ch ts TimedOut) s else s in
                     with_pendingRequests s1 (Js.remove requestId (pendingRequests s1))).
  { rewrite Hs'. unfold onSocketClose. rewrite Hget. cbv zeta.
    rewrite Hts, Hch, Hbuilt. unfold truthy.
    apply String.eqb_neq in Hts0, Hch0. rewrite Hts0, Hch0.
    destruct upd; reflexivity. }
  assert (Hgone : Js.get requestId (pendingRequests s') = None).
  { rewrite Hs1. destruct upd; apply get_remove_eq. }
  split; [exact Hgone|].
  split.
  { intros other Hne. rewrite Hs1.
    destruct upd; simpl; apply get_remove_ne; congruence. }
  split; [rewrite Hs1; destruct upd; reflexivity|].
  split; [rewrite Hs1; destruct upd; reflexivity|].
  split; [rewrite Hs1; destruct upd; simpl; rewrite ?app_nil_r; reflexivity|].
  split; intros upd'; cbn [step]; unfold approveAction, denyAction;
    rewrite Hgone; reflexivity.
Qed.

Lemma creator_close_deletes_request_witness :
  let s' := step (EvClose 1%nat true) Demo.posted in
  Js.get "r1" (pendingRequests Demo.posted) = Some Demo.pending /\
  Js.get "r1" (pendingRequests s') = None /\
  slack s' = slack Demo.posted ++ [Update "C1" "111.1" TimedOut].
Proof.
  intros s'. split; [reflexivity|].
  destruct (creator_close_deletes_request
              1%nat "r1" true Demo.posted Demo.pending
              (mkPermissionRequest "PermissionRequest" "Bash"
                 [("command", JStr "echo hi")] "s1")
              "111.1" "C1") as (Hg & _ & _ & _ & Hs & _).
  - reflexivity.
  - reflexivity.
  - reflexivity.
  - discriminate.
  - reflexivity.
  - discriminate.
  - reflexivity.
  - discriminate.
  - split; [exact Hg | exact Hs].
Defined.

(* ===================================================================== *)
(** ** Multi-select questions and the confirmation                        *)
(* ===================================================================== *)




(* ===================================================================== *)
(** ** Duplicates and the shared reply                                    *)
(* ===================================================================== *)




(* ===================================================================== *)
(** ** Free-text messages of a human                                      *)
(* ===================================================================== *)

(** C8 (the claim fails as stated): not every free-text message with an
    approve word is applied.  The message is posted in the channel of the
    pending Bash request, outside any thread, and its text is an approve
    word; it carries a bot id, and the handler returns at its first guard
    ([if (msgEvent.subtype || msgEvent.bot_id) return]): the state is
    left as it was.  The same holds for a message with a subtype. *)
Theorem bot_message_is_ignored :
  let fromBot := mkMessageEvent "C1" (Some "yes") None None (Some "B01") in
  let edited := mkMessageEvent "C1" (Some "yes") None (Some "message_changed") None in
  says approveWords (text fromBot) = true /\
  findDirect "C1" (pendingRequests Demo.posted) = Some "r1" /\
  step (EvMessage fromBot true) Demo.posted = Demo.posted /\
  step (EvMessage edited true) Demo.posted = Demo.posted.
Proof.
  repeat split.
Qed.

(** C8 (amended): a message of a human (no subtype, no bot id) that is not
    a thread reply and whose lowercased, trimmed text is an approve or
    deny word is applied to the first entry of the registry, in insertion
    order, that was published in the message's channel and is not a
    question, whichever prompt the human meant.  An approve word does
    what the approve button of that request does: the fingerprint is
    cached for the session and, when the update of the prompt goes
    through, every connection of the request is written the allow line
    and the request is removed.  A deny word does what the deny button
    does: the cache is left alone and, when the update goes through,
    every connection is written the deny line and the request is removed.
    Every question request in the registry is still there afterwards.
    The registry is well formed, which every reachable state is
    ([run_wf]), and request ids are not empty. *)
Theorem direct_message_resolves_first_in_channel
        (msgEvent : MessageEvent) (upd : bool) (s : State)
        (before after : list (string * PendingRequest))
        (requestId : string) (pending : PendingRequest) (r : PermissionRequest) :
  truthy (subtype msgEvent) = false ->
  truthy (bot_id msgEvent) = false ->
  truthy (thread_ts msgEvent) = false ->
  registry_wf s ->
  pendingRequests s = before ++ (requestId, pending) :: after ->
  requestId <> EmptyString ->
  (forall id p, In (id, p) before ->
                slackChannel p <> Some (channel msgEvent) \/ isQuestion p = true) ->
  slackChannel pending = Some (channel msgEvent) ->
  isQuestion pending = false ->
  request pending = ReqPermission r ->
  let s' := step (EvMessage msgEvent upd) s in
  (says approveWords (text msgEvent) = true ->
   s' = step (EvApprove (Some requestId) upd) s /\
   approved s' (pr_session_id r) (createRequestHash (tool_name r) (tool_input r)) = true /\
   (upd = true ->
    wire s' = wire s ++
              replies (Js.stringify None cacheResponse +:+ newline) (connections pending) /\
    Js.get requestId (pendingRequests s') = None)) /\
  (says denyWords (text msgEvent) = true ->
   s' = step (EvDeny (Some requestId) upd) s /\
   sessionApprovals s' = sessionApprovals s /\
   (upd = true ->
    wire s' = wire s ++
              replies (Js.stringify None
                         (JObj [("hookSpecificOutput",
                                 JObj [("hookEventName", JStr "PermissionRequest");
                                       ("decision",
                                        JObj [("behavior", JStr "deny");
                                              ("message", JStr "Denied via Slack")])])])
                       +:+ newline)
                      (connections pending) /\
    Js.get requestId (pendingRequests s') = None)) /\
  (forall id p, In (id, p) (pendingRequests s) -> isQuestion p = true ->
                In (id, p) (pendingRequests s')).
Proof.
  intros Hsub Hbot Hthr Hwf Hreg Hne Hbefore Hch Hq Hr s'.
  assert (Hnd : List.NoDup (Js.keys (pendingRequests s))) by apply Hwf.
  assert (Hid : id pending = requestId).
  { apply (proj2 Hwf). rewrite Hreg. apply in_or_app. right. left. reflexivity. }
  assert (Hfresh : ~ In requestId (Js.keys before)).
  { rewrite Hreg in Hnd. unfold Js.keys in Hnd. rewrite map_app in Hnd. simpl in Hnd.
    apply List.NoDup_remove_2 in Hnd. intros H. apply Hnd.
    apply in_or_app. left. exact H. }
  assert (Hget : Js.get requestId (pendingRequests s) = Some pending).
  { rewrite Hreg. apply get_app_fresh, Hfresh. }
  assert (Hfind : findDirect (channel msgEvent) (pendingRequests s) = Some requestId).
  { rewrite Hreg. apply findDirect_first; assumption. }
  assert (Htruthy : truthy (Some requestId) = true).
  { simpl. destruct (String.eqb requestId EmptyString) eqn:E; [|reflexivity].
    apply String.eqb_eq in E. contradiction. }
  assert (Hdeny_not_approve :
            says denyWords (text msgEvent) = true ->
            says approveWords (text msgEvent) = false).
  { unfold says. destruct (text msgEvent) as [t|]; [|reflexivity].
    intros H. apply includes_In in H. simpl in H.
    repeat (destruct H as [<-|H]; [reflexivity|]). contradiction. }
  assert (Hs' : s' = if says approveWords (text msgEvent) then approve pending upd s
                     else if says denyWords (text msgEvent) then denyRequest pending upd s
                          else s).
  { subst s'. cbn [step]. unfold messageHandler.
    rewrite Hsub, Hbot, Hthr, Hfind, Htruthy. simpl. rewrite Hget, Hq. reflexivity. }
  split; [|split].
  - intros Ha. rewrite Hs', Ha.
    split; [cbn [step]; unfold approveAction; rewrite Hget; reflexivity|].
    split.
    + apply approved_cacheOf.
      assert (Hc : sessionApprovals (approve pending upd s) =
                   sessionApprovals
                     (cacheApproval (pr_session_id r)
                        (createRequestHash (tool_name r) (tool_input r)) s)).
      { rewrite approve_sessionApprovals, Hr. reflexivity. }
      unfold cacheOf. rewrite Hc. fold (cacheOf (cacheApproval (pr_session_id r)
                        (createRequestHash (tool_name r) (tool_input r)) s) (pr_session_id r)).
      rewrite cacheOf_cacheApproval.
      destruct (decide (pr_session_id r = pr_session_id r)) as [_|Hn]; [|contradiction].
      apply elem_of_union. left. apply elem_of_singleton. reflexivity.
    + intros ->. destruct (approve_delivered pending r s Hr Hq) as (Hw & Hp & _).
      split; [exact Hw|]. rewrite Hp, Hid. apply get_remove_eq.
  - intros Hd. rewrite Hs', (Hdeny_not_approve Hd), Hd.
    split; [cbn [step]; unfold denyAction; rewrite Hget; reflexivity|].
    split; [apply (denyRequest_maps pending upd s)|].
    intros ->. destruct (deny_delivered pending r s Hr Hq) as (Hw & Hp & _).
    split; [exact Hw|]. rewrite Hp, Hid. apply get_remove_eq.
  - intros id0 p Hin Hpq.
    assert (Hother : id0 <> id pending).
    { rewrite Hid. intros ->.
      apply get_In in Hget.
      assert (p = pending); [|congruence].
      clear - Hnd Hin Hget. revert Hnd Hin Hget.
      induction (pendingRequests s) as [|[k w] l IH]; simpl; [tauto|].
      intros Hnd. apply List.NoDup_cons_iff in Hnd as [Hk Hnd].
      intros [H1|H1] [H2|H2].
      + congruence.
      + injection H1 as -> ->. exfalso. apply Hk.
        apply (in_map fst) in H2. exact H2.
      + injection H2 as -> ->. exfalso. apply Hk.
        apply (in_map fst) in H1. exact H1.
      + apply IH; assumption. }
    rewrite Hs'.
    destruct (says approveWords (text msgEvent)).
    { destruct (approve_pendingRequests pending upd s) as [H|H]; rewrite H;
        [exact Hin | apply In_remove_other; assumption]. }
    destruct (says denyWords (text msgEvent)); [|exact Hin].
    destruct (denyRequest_pendingRequests pending upd s) as [H|H]; rewrite H;
      [exact Hin | apply In_remove_other; assumption].
Qed.

Lemma direct_message_resolves_first_in_channel_witness :
  let s := step (EvRequest Demo.bash 1%nat 1000 1000 "r1"
                           (Posted (Some "111.1") (Some "C1"))) Demo.asked in
  let s' := step (EvMessage (mkMessageEvent "C1" (Some " OK ") None None None) true) s in
  wire s' = wire s ++ replies (Js.stringify None cacheResponse +:+ newline) [1%nat] /\
  Js.get "r1" (pendingRequests s') = None /\
  In ("q1", Demo.askPending) (pendingRequests s').
Proof.
  intros s s'.
  destruct (direct_message_resolves_first_in_channel
              (mkMessageEvent "C1" (Some " OK ") None None None) true s
              [("q1", Demo.askPending)] [] "r1" Demo.pending
              (mkPermissionRequest "PermissionRequest" "Bash"
                 [("command", JStr "echo hi")] "s1"))
    as (Ha & _ & Hq).
  - reflexivity.
  - reflexivity.
  - reflexivity.
  - apply step_wf, (step_wf _ initial), initial_wf.
  - reflexivity.
  - discriminate.
  - intros id p [[= <- <-]|[]]. right. reflexivity.
  - reflexivity.
  - reflexivity.
  - reflexivity.
  - destruct (Ha eq_refl) as (_ & _ & Hd). destruct (Hd eq_refl) as [Hw Hg].
    split; [exact Hw|]. split; [exact Hg|].
    apply Hq; [left|]; reflexivity.
Defined.
